(** * Course assistant handlers: a shallow embedding and its properties

    The repository holds two AWS Lambda handlers written in Python:

    - [LambdaCallToAgent.py] (AgentRouter): validates a chat request,
      classifies it, picks one of two Bedrock agents, aggregates the streamed
      answer and wraps it in an HTTP-style response;
    - [LambdaAction.py] (CourseQueryService): serves course records of the
      DynamoDB table [MyCourses] to a Bedrock agent.

    Module [Py] models the fragment of the Python runtime both files rely on.
    Modules [LambdaCallToAgent] and [LambdaAction] embed the two source
    files, function by function and under the names of the source.  The
    properties are stated and proved after the definitions. *)

From Stdlib Require Import String Ascii List ZArith Bool Lia DecimalString.
From Stdlib Require Import Sorted Permutation.
From Stdlib Require Import Floats.SpecFloat.
Import ListNotations.
Open Scope string_scope.

(* ===================================================================== *)
(** * The Python runtime fragment *)
(* ===================================================================== *)

Module Py.

(** ** Exceptions and fallible computations

    An exception is kept as its class name ([type(e).__name__]) and its
    text ([str(e)]).  Every exception of the model is an instance of
    [Exception], which is what the [except Exception] clauses of the source
    catch. *)
Record exn := Exception { exc_type : string; exc_str : string }.

Inductive result (A : Type) : Type :=
| Ok (a : A)
| Raise (e : exn).
Arguments Ok {A} a.
Arguments Raise {A} e.

Definition bind {A B : Type} (c : result A) (k : A -> result B) : result B :=
  match c with
  | Ok a => k a
  | Raise e => Raise e
  end.

Declare Scope result_scope.
Delimit Scope result_scope with result.
Notation "x <- c ;; k" := (bind c (fun x => k))
  (at level 61, c at next level, right associativity) : result_scope.

(** [try: body except Exception as e: handler e] *)
Definition try_except {A : Type} (body : result A) (handler : exn -> result A)
  : result A :=
  match body with
  | Ok a => Ok a
  | Raise e => handler e
  end.

(** ** Text

    A Python [str] is represented by its UTF-8 encoding, one [ascii] per
    byte.  Concatenation, comparison and the substring test [in] of two
    strings are then the same operations on the encodings. *)

Definition byte_of (c : ascii) : nat := nat_of_ascii c.

(** The string made of the given bytes. *)
Definition chr (bytes : list nat) : string :=
  string_of_list_ascii (map ascii_of_nat bytes).

Definition is_continuation (c : ascii) : bool :=
  (128 <=? byte_of c)%nat && (byte_of c <=? 191)%nat.

Definition starts_with_continuation (s : string) : bool :=
  match s with
  | String b _ => is_continuation b
  | EmptyString => false
  end.

(** The characters (code points) of a string, each with all its bytes. *)
Fixpoint chars (s : string) : list string :=
  match s with
  | EmptyString => []
  | String a r =>
    if starts_with_continuation r then
      match chars r with
      | c :: cs => String a c :: cs
      | [] => [String a ""]
      end
    else String a "" :: chars r
  end.

(** [len(s)] counts characters. *)
Definition len (s : string) : Z := Z.of_nat (List.length (chars s)).

(** ** Case

    [s.lower()] replaces every code point by its lowercase mapping, a
    capital sigma by the final or the medial small sigma.  The tables are
    those of Unicode 14.0, which CPython 3.11 has. *)

(** The code point a character encodes, and the encoding of a code point. *)
Definition code_point (c : string) : N :=
  match map (fun b => N.of_nat (byte_of b)) (list_ascii_of_string c) with
  | [b0] => b0
  | [b0; b1] => (b0 - 192) * 64 + (b1 - 128)
  | [b0; b1; b2] => ((b0 - 224) * 64 + (b1 - 128)) * 64 + (b2 - 128)
  | [b0; b1; b2; b3] =>
    (((b0 - 240) * 64 + (b1 - 128)) * 64 + (b2 - 128)) * 64 + (b3 - 128)
  | _ => 0
  end%N.

Definition utf8 (cp : N) : string :=
  chr (map N.to_nat
           (if cp <? 0x80 then [cp]
            else if cp <? 0x800 then [192 + cp / 64; 128 + cp mod 64]
            else if cp <? 0x10000 then
              [224 + cp / 4096; 128 + (cp / 64) mod 64; 128 + cp mod 64]
            else
              [240 + cp / 262144; 128 + (cp / 4096) mod 64;
               128 + (cp / 64) mod 64; 128 + cp mod 64])%N).

(** A character of [chars] that is the encoding of a code point; text made
    by Python has no other. *)
Definition well_formed (c : string) : bool :=
  String.eqb (utf8 (code_point c)) c.

Definition in_ranges (cp : N) (ranges : list (N * N)) : bool :=
  existsb (fun '(first, last) =>
             if cp <? first then false else cp <=? last)%N ranges.

(** The code points above U+007F with a lowercase mapping of one code point,
    U+03A3 apart: [(first, last, step, target)] maps [first], [first + step],
    ..., [last] to [target], [target + step], ... *)
Definition Lowercase_Mapping : list (N * N * N * N) :=
  [
    (0xC0, 0xD6, 1, 0xE0); (0xD8, 0xDE, 1, 0xF8); (0x100, 0x12E, 2, 0x101);
    (0x132, 0x136, 2, 0x133); (0x139, 0x147, 2, 0x13A);
    (0x14A, 0x176, 2, 0x14B); (0x178, 0x178, 1, 0xFF);
    (0x179, 0x17D, 2, 0x17A); (0x181, 0x181, 1, 0x253);
    (0x182, 0x184, 2, 0x183); (0x186, 0x186, 1, 0x254);
    (0x187, 0x187, 1, 0x188); (0x189, 0x18A, 1, 0x256);
    (0x18B, 0x18B, 1, 0x18C); (0x18E, 0x18E, 1, 0x1DD);
    (0x18F, 0x18F, 1, 0x259); (0x190, 0x190, 1, 0x25B);
    (0x191, 0x191, 1, 0x192); (0x193, 0x193, 1, 0x260);
    (0x194, 0x194, 1, 0x263); (0x196, 0x196, 1, 0x269);
    (0x197, 0x197, 1, 0x268); (0x198, 0x198, 1, 0x199);
    (0x19C, 0x19C, 1, 0x26F); (0x19D, 0x19D, 1, 0x272);
    (0x19F, 0x19F, 1, 0x275); (0x1A0, 0x1A4, 2, 0x1A1);
    (0x1A6, 0x1A6, 1, 0x280); (0x1A7, 0x1A7, 1, 0x1A8);
    (0x1A9, 0x1A9, 1, 0x283); (0x1AC, 0x1AC, 1, 0x1AD);
    (0x1AE, 0x1AE, 1, 0x288); (0x1AF, 0x1AF, 1, 0x1B0);
    (0x1B1, 0x1B2, 1, 0x28A); (0x1B3, 0x1B5, 2, 0x1B4);
    (0x1B7, 0x1B7, 1, 0x292); (0x1B8, 0x1B8, 1, 0x1B9);
    (0x1BC, 0x1BC, 1, 0x1BD); (0x1C4, 0x1C4, 1, 0x1C6);
    (0x1C5, 0x1C5, 1, 0x1C6); (0x1C7, 0x1C7, 1, 0x1C9);
    (0x1C8, 0x1C8, 1, 0x1C9); (0x1CA, 0x1CA, 1, 0x1CC);
    (0x1CB, 0x1DB, 2, 0x1CC); (0x1DE, 0x1EE, 2, 0x1DF);
    (0x1F1, 0x1F1, 1, 0x1F3); (0x1F2, 0x1F4, 2, 0x1F3);
    (0x1F6, 0x1F6, 1, 0x195); (0x1F7, 0x1F7, 1, 0x1BF);
    (0x1F8, 0x21E, 2, 0x1F9); (0x220, 0x220, 1, 0x19E);
    (0x222, 0x232, 2, 0x223); (0x23A, 0x23A, 1, 0x2C65);
    (0x23B, 0x23B, 1, 0x23C); (0x23D, 0x23D, 1, 0x19A);
    (0x23E, 0x23E, 1, 0x2C66); (0x241, 0x241, 1, 0x242);
    (0x243, 0x243, 1, 0x180); (0x244, 0x244, 1, 0x289);
    (0x245, 0x245, 1, 0x28C); (0x246, 0x24E, 2, 0x247);
    (0x370, 0x372, 2, 0x371); (0x376, 0x376, 1, 0x377);
    (0x37F, 0x37F, 1, 0x3F3); (0x386, 0x386, 1, 0x3AC);
    (0x388, 0x38A, 1, 0x3AD); (0x38C, 0x38C, 1, 0x3CC);
    (0x38E, 0x38F, 1, 0x3CD); (0x391, 0x3A1, 1, 0x3B1);
    (0x3A4, 0x3AB, 1, 0x3C4); (0x3CF, 0x3CF, 1, 0x3D7);
    (0x3D8, 0x3EE, 2, 0x3D9); (0x3F4, 0x3F4, 1, 0x3B8);
    (0x3F7, 0x3F7, 1, 0x3F8); (0x3F9, 0x3F9, 1, 0x3F2);
    (0x3FA, 0x3FA, 1, 0x3FB); (0x3FD, 0x3FF, 1, 0x37B);
    (0x400, 0x40F, 1, 0x450); (0x410, 0x42F, 1, 0x430);
    (0x460, 0x480, 2, 0x461); (0x48A, 0x4BE, 2, 0x48B);
    (0x4C0, 0x4C0, 1, 0x4CF); (0x4C1, 0x4CD, 2, 0x4C2);
    (0x4D0, 0x52E, 2, 0x4D1); (0x531, 0x556, 1, 0x561);
    (0x10A0, 0x10C5, 1, 0x2D00); (0x10C7, 0x10C7, 1, 0x2D27);
    (0x10CD, 0x10CD, 1, 0x2D2D); (0x13A0, 0x13EF, 1, 0xAB70);
    (0x13F0, 0x13F5, 1, 0x13F8); (0x1C90, 0x1CBA, 1, 0x10D0);
    (0x1CBD, 0x1CBF, 1, 0x10FD); (0x1E00, 0x1E94, 2, 0x1E01);
    (0x1E9E, 0x1E9E, 1, 0xDF); (0x1EA0, 0x1EFE, 2, 0x1EA1);
    (0x1F08, 0x1F0F, 1, 0x1F00); (0x1F18, 0x1F1D, 1, 0x1F10);
    (0x1F28, 0x1F2F, 1, 0x1F20); (0x1F38, 0x1F3F, 1, 0x1F30);
    (0x1F48, 0x1F4D, 1, 0x1F40); (0x1F59, 0x1F5F, 2, 0x1F51);
    (0x1F68, 0x1F6F, 1, 0x1F60); (0x1F88, 0x1F8F, 1, 0x1F80);
    (0x1F98, 0x1F9F, 1, 0x1F90); (0x1FA8, 0x1FAF, 1, 0x1FA0);
    (0x1FB8, 0x1FB9, 1, 0x1FB0); (0x1FBA, 0x1FBB, 1, 0x1F70);
    (0x1FBC, 0x1FBC, 1, 0x1FB3); (0x1FC8, 0x1FCB, 1, 0x1F72);
    (0x1FCC, 0x1FCC, 1, 0x1FC3); (0x1FD8, 0x1FD9, 1, 0x1FD0);
    (0x1FDA, 0x1FDB, 1, 0x1F76); (0x1FE8, 0x1FE9, 1, 0x1FE0);
    (0x1FEA, 0x1FEB, 1, 0x1F7A); (0x1FEC, 0x1FEC, 1, 0x1FE5);
    (0x1FF8, 0x1FF9, 1, 0x1F78); (0x1FFA, 0x1FFB, 1, 0x1F7C);
    (0x1FFC, 0x1FFC, 1, 0x1FF3); (0x2126, 0x2126, 1, 0x3C9);
    (0x212A, 0x212A, 1, 0x6B); (0x212B, 0x212B, 1, 0xE5);
    (0x2132, 0x2132, 1, 0x214E); (0x2160, 0x216F, 1, 0x2170);
    (0x2183, 0x2183, 1, 0x2184); (0x24B6, 0x24CF, 1, 0x24D0);
    (0x2C00, 0x2C2F, 1, 0x2C30); (0x2C60, 0x2C60, 1, 0x2C61);
    (0x2C62, 0x2C62, 1, 0x26B); (0x2C63, 0x2C63, 1, 0x1D7D);
    (0x2C64, 0x2C64, 1, 0x27D); (0x2C67, 0x2C6B, 2, 0x2C68);
    (0x2C6D, 0x2C6D, 1, 0x251); (0x2C6E, 0x2C6E, 1, 0x271);
    (0x2C6F, 0x2C6F, 1, 0x250); (0x2C70, 0x2C70, 1, 0x252);
    (0x2C72, 0x2C72, 1, 0x2C73); (0x2C75, 0x2C75, 1, 0x2C76);
    (0x2C7E, 0x2C7F, 1, 0x23F); (0x2C80, 0x2CE2, 2, 0x2C81);
    (0x2CEB, 0x2CED, 2, 0x2CEC); (0x2CF2, 0x2CF2, 1, 0x2CF3);
    (0xA640, 0xA66C, 2, 0xA641); (0xA680, 0xA69A, 2, 0xA681);
    (0xA722, 0xA72E, 2, 0xA723); (0xA732, 0xA76E, 2, 0xA733);
    (0xA779, 0xA77B, 2, 0xA77A); (0xA77D, 0xA77D, 1, 0x1D79);
    (0xA77E, 0xA786, 2, 0xA77F); (0xA78B, 0xA78B, 1, 0xA78C);
    (0xA78D, 0xA78D, 1, 0x265); (0xA790, 0xA792, 2, 0xA791);
    (0xA796, 0xA7A8, 2, 0xA797); (0xA7AA, 0xA7AA, 1, 0x266);
    (0xA7AB, 0xA7AB, 1, 0x25C); (0xA7AC, 0xA7AC, 1, 0x261);
    (0xA7AD, 0xA7AD, 1, 0x26C); (0xA7AE, 0xA7AE, 1, 0x26A);
    (0xA7B0, 0xA7B0, 1, 0x29E); (0xA7B1, 0xA7B1, 1, 0x287);
    (0xA7B2, 0xA7B2, 1, 0x29D); (0xA7B3, 0xA7B3, 1, 0xAB53);
    (0xA7B4, 0xA7C2, 2, 0xA7B5); (0xA7C4, 0xA7C4, 1, 0xA794);
    (0xA7C5, 0xA7C5, 1, 0x282); (0xA7C6, 0xA7C6, 1, 0x1D8E);
    (0xA7C7, 0xA7C9, 2, 0xA7C8); (0xA7D0, 0xA7D0, 1, 0xA7D1);
    (0xA7D6, 0xA7D8, 2, 0xA7D7); (0xA7F5, 0xA7F5, 1, 0xA7F6);
    (0xFF21, 0xFF3A, 1, 0xFF41); (0x10400, 0x10427, 1, 0x10428);
    (0x104B0, 0x104D3, 1, 0x104D8); (0x10570, 0x10594, 2, 0x10597);
    (0x10571, 0x1057A, 1, 0x10598); (0x1057D, 0x1058A, 1, 0x105A4);
    (0x1058D, 0x10592, 1, 0x105B4); (0x10595, 0x10595, 1, 0x105BC);
    (0x10C80, 0x10CB2, 1, 0x10CC0); (0x118A0, 0x118BF, 1, 0x118C0);
    (0x16E40, 0x16E5F, 1, 0x16E60); (0x1E900, 0x1E921, 1, 0x1E922) ]%N.

(** The code points with the properties Cased and Case_Ignorable. *)
Definition Cased : list (N * N) :=
  [
    (0x41, 0x5A); (0x61, 0x7A); (0xAA, 0xAA); (0xB5, 0xB5); (0xBA, 0xBA);
    (0xC0, 0xD6); (0xD8, 0xF6); (0xF8, 0x1BA); (0x1BC, 0x1BF); (0x1C4, 0x293);
    (0x295, 0x2B8); (0x2C0, 0x2C1); (0x2E0, 0x2E4); (0x345, 0x345);
    (0x370, 0x373); (0x376, 0x377); (0x37A, 0x37D); (0x37F, 0x37F);
    (0x386, 0x386); (0x388, 0x38A); (0x38C, 0x38C); (0x38E, 0x3A1);
    (0x3A3, 0x3F5); (0x3F7, 0x481); (0x48A, 0x52F); (0x531, 0x556);
    (0x560, 0x588); (0x10A0, 0x10C5); (0x10C7, 0x10C7); (0x10CD, 0x10CD);
    (0x10D0, 0x10FA); (0x10FD, 0x10FF); (0x13A0, 0x13F5); (0x13F8, 0x13FD);
    (0x1C80, 0x1C88); (0x1C90, 0x1CBA); (0x1CBD, 0x1CBF); (0x1D00, 0x1DBF);
    (0x1E00, 0x1F15); (0x1F18, 0x1F1D); (0x1F20, 0x1F45); (0x1F48, 0x1F4D);
    (0x1F50, 0x1F57); (0x1F59, 0x1F59); (0x1F5B, 0x1F5B); (0x1F5D, 0x1F5D);
    (0x1F5F, 0x1F7D); (0x1F80, 0x1FB4); (0x1FB6, 0x1FBC); (0x1FBE, 0x1FBE);
    (0x1FC2, 0x1FC4); (0x1FC6, 0x1FCC); (0x1FD0, 0x1FD3); (0x1FD6, 0x1FDB);
    (0x1FE0, 0x1FEC); (0x1FF2, 0x1FF4); (0x1FF6, 0x1FFC); (0x2071, 0x2071);
    (0x207F, 0x207F); (0x2090, 0x209C); (0x2102, 0x2102); (0x2107, 0x2107);
    (0x210A, 0x2113); (0x2115, 0x2115); (0x2119, 0x211D); (0x2124, 0x2124);
    (0x2126, 0x2126); (0x2128, 0x2128); (0x212A, 0x212D); (0x212F, 0x2134);
    (0x2139, 0x2139); (0x213C, 0x213F); (0x2145, 0x2149); (0x214E, 0x214E);
    (0x2160, 0x217F); (0x2183, 0x2184); (0x24B6, 0x24E9); (0x2C00, 0x2CE4);
    (0x2CEB, 0x2CEE); (0x2CF2, 0x2CF3); (0x2D00, 0x2D25); (0x2D27, 0x2D27);
    (0x2D2D, 0x2D2D); (0xA640, 0xA66D); (0xA680, 0xA69D); (0xA722, 0xA787);
    (0xA78B, 0xA78E); (0xA790, 0xA7CA); (0xA7D0, 0xA7D1); (0xA7D3, 0xA7D3);
    (0xA7D5, 0xA7D9); (0xA7F5, 0xA7F6); (0xA7F8, 0xA7FA); (0xAB30, 0xAB5A);
    (0xAB5C, 0xAB68); (0xAB70, 0xABBF); (0xFB00, 0xFB06); (0xFB13, 0xFB17);
    (0xFF21, 0xFF3A); (0xFF41, 0xFF5A); (0x10400, 0x1044F);
    (0x104B0, 0x104D3); (0x104D8, 0x104FB); (0x10570, 0x1057A);
    (0x1057C, 0x1058A); (0x1058C, 0x10592); (0x10594, 0x10595);
    (0x10597, 0x105A1); (0x105A3, 0x105B1); (0x105B3, 0x105B9);
    (0x105BB, 0x105BC); (0x10780, 0x10780); (0x10783, 0x10785);
    (0x10787, 0x107B0); (0x107B2, 0x107BA); (0x10C80, 0x10CB2);
    (0x10CC0, 0x10CF2); (0x118A0, 0x118DF); (0x16E40, 0x16E7F);
    (0x1D400, 0x1D454); (0x1D456, 0x1D49C); (0x1D49E, 0x1D49F);
    (0x1D4A2, 0x1D4A2); (0x1D4A5, 0x1D4A6); (0x1D4A9, 0x1D4AC);
    (0x1D4AE, 0x1D4B9); (0x1D4BB, 0x1D4BB); (0x1D4BD, 0x1D4C3);
    (0x1D4C5, 0x1D505); (0x1D507, 0x1D50A); (0x1D50D, 0x1D514);
    (0x1D516, 0x1D51C); (0x1D51E, 0x1D539); (0x1D53B, 0x1D53E);
    (0x1D540, 0x1D544); (0x1D546, 0x1D546); (0x1D54A, 0x1D550);
    (0x1D552, 0x1D6A5); (0x1D6A8, 0x1D6C0); (0x1D6C2, 0x1D6DA);
    (0x1D6DC, 0x1D6FA); (0x1D6FC, 0x1D714); (0x1D716, 0x1D734);
    (0x1D736, 0x1D74E); (0x1D750, 0x1D76E); (0x1D770, 0x1D788);
    (0x1D78A, 0x1D7A8); (0x1D7AA, 0x1D7C2); (0x1D7C4, 0x1D7CB);
    (0x1DF00, 0x1DF09); (0x1DF0B, 0x1DF1E); (0x1E900, 0x1E943);
    (0x1F130, 0x1F149); (0x1F150, 0x1F169); (0x1F170, 0x1F189) ]%N.

Definition Case_Ignorable : list (N * N) :=
  [
    (0x27, 0x27); (0x2E, 0x2E); (0x3A, 0x3A); (0x5E, 0x5E); (0x60, 0x60);
    (0xA8, 0xA8); (0xAD, 0xAD); (0xAF, 0xAF); (0xB4, 0xB4); (0xB7, 0xB8);
    (0x2B0, 0x36F); (0x374, 0x375); (0x37A, 0x37A); (0x384, 0x385);
    (0x387, 0x387); (0x483, 0x489); (0x559, 0x559); (0x55F, 0x55F);
    (0x591, 0x5BD); (0x5BF, 0x5BF); (0x5C1, 0x5C2); (0x5C4, 0x5C5);
    (0x5C7, 0x5C7); (0x5F4, 0x5F4); (0x600, 0x605); (0x610, 0x61A);
    (0x61C, 0x61C); (0x640, 0x640); (0x64B, 0x65F); (0x670, 0x670);
    (0x6D6, 0x6DD); (0x6DF, 0x6E8); (0x6EA, 0x6ED); (0x70F, 0x70F);
    (0x711, 0x711); (0x730, 0x74A); (0x7A6, 0x7B0); (0x7EB, 0x7F5);
    (0x7FA, 0x7FA); (0x7FD, 0x7FD); (0x816, 0x82D); (0x859, 0x85B);
    (0x888, 0x888); (0x890, 0x891); (0x898, 0x89F); (0x8C9, 0x902);
    (0x93A, 0x93A); (0x93C, 0x93C); (0x941, 0x948); (0x94D, 0x94D);
    (0x951, 0x957); (0x962, 0x963); (0x971, 0x971); (0x981, 0x981);
    (0x9BC, 0x9BC); (0x9C1, 0x9C4); (0x9CD, 0x9CD); (0x9E2, 0x9E3);
    (0x9FE, 0x9FE); (0xA01, 0xA02); (0xA3C, 0xA3C); (0xA41, 0xA42);
    (0xA47, 0xA48); (0xA4B, 0xA4D); (0xA51, 0xA51); (0xA70, 0xA71);
    (0xA75, 0xA75); (0xA81, 0xA82); (0xABC, 0xABC); (0xAC1, 0xAC5);
    (0xAC7, 0xAC8); (0xACD, 0xACD); (0xAE2, 0xAE3); (0xAFA, 0xAFF);
    (0xB01, 0xB01); (0xB3C, 0xB3C); (0xB3F, 0xB3F); (0xB41, 0xB44);
    (0xB4D, 0xB4D); (0xB55, 0xB56); (0xB62, 0xB63); (0xB82, 0xB82);
    (0xBC0, 0xBC0); (0xBCD, 0xBCD); (0xC00, 0xC00); (0xC04, 0xC04);
    (0xC3C, 0xC3C); (0xC3E, 0xC40); (0xC46, 0xC48); (0xC4A, 0xC4D);
    (0xC55, 0xC56); (0xC62, 0xC63); (0xC81, 0xC81); (0xCBC, 0xCBC);
    (0xCBF, 0xCBF); (0xCC6, 0xCC6); (0xCCC, 0xCCD); (0xCE2, 0xCE3);
    (0xD00, 0xD01); (0xD3B, 0xD3C); (0xD41, 0xD44); (0xD4D, 0xD4D);
    (0xD62, 0xD63); (0xD81, 0xD81); (0xDCA, 0xDCA); (0xDD2, 0xDD4);
    (0xDD6, 0xDD6); (0xE31, 0xE31); (0xE34, 0xE3A); (0xE46, 0xE4E);
    (0xEB1, 0xEB1); (0xEB4, 0xEBC); (0xEC6, 0xEC6); (0xEC8, 0xECD);
    (0xF18, 0xF19); (0xF35, 0xF35); (0xF37, 0xF37); (0xF39, 0xF39);
    (0xF71, 0xF7E); (0xF80, 0xF84); (0xF86, 0xF87); (0xF8D, 0xF97);
    (0xF99, 0xFBC); (0xFC6, 0xFC6); (0x102D, 0x1030); (0x1032, 0x1037);
    (0x1039, 0x103A); (0x103D, 0x103E); (0x1058, 0x1059); (0x105E, 0x1060);
    (0x1071, 0x1074); (0x1082, 0x1082); (0x1085, 0x1086); (0x108D, 0x108D);
    (0x109D, 0x109D); (0x10FC, 0x10FC); (0x135D, 0x135F); (0x1712, 0x1714);
    (0x1732, 0x1733); (0x1752, 0x1753); (0x1772, 0x1773); (0x17B4, 0x17B5);
    (0x17B7, 0x17BD); (0x17C6, 0x17C6); (0x17C9, 0x17D3); (0x17D7, 0x17D7);
    (0x17DD, 0x17DD); (0x180B, 0x180F); (0x1843, 0x1843); (0x1885, 0x1886);
    (0x18A9, 0x18A9); (0x1920, 0x1922); (0x1927, 0x1928); (0x1932, 0x1932);
    (0x1939, 0x193B); (0x1A17, 0x1A18); (0x1A1B, 0x1A1B); (0x1A56, 0x1A56);
    (0x1A58, 0x1A5E); (0x1A60, 0x1A60); (0x1A62, 0x1A62); (0x1A65, 0x1A6C);
    (0x1A73, 0x1A7C); (0x1A7F, 0x1A7F); (0x1AA7, 0x1AA7); (0x1AB0, 0x1ACE);
    (0x1B00, 0x1B03); (0x1B34, 0x1B34); (0x1B36, 0x1B3A); (0x1B3C, 0x1B3C);
    (0x1B42, 0x1B42); (0x1B6B, 0x1B73); (0x1B80, 0x1B81); (0x1BA2, 0x1BA5);
    (0x1BA8, 0x1BA9); (0x1BAB, 0x1BAD); (0x1BE6, 0x1BE6); (0x1BE8, 0x1BE9);
    (0x1BED, 0x1BED); (0x1BEF, 0x1BF1); (0x1C2C, 0x1C33); (0x1C36, 0x1C37);
    (0x1C78, 0x1C7D); (0x1CD0, 0x1CD2); (0x1CD4, 0x1CE0); (0x1CE2, 0x1CE8);
    (0x1CED, 0x1CED); (0x1CF4, 0x1CF4); (0x1CF8, 0x1CF9); (0x1D2C, 0x1D6A);
    (0x1D78, 0x1D78); (0x1D9B, 0x1DFF); (0x1FBD, 0x1FBD); (0x1FBF, 0x1FC1);
    (0x1FCD, 0x1FCF); (0x1FDD, 0x1FDF); (0x1FED, 0x1FEF); (0x1FFD, 0x1FFE);
    (0x200B, 0x200F); (0x2018, 0x2019); (0x2024, 0x2024); (0x2027, 0x2027);
    (0x202A, 0x202E); (0x2060, 0x2064); (0x2066, 0x206F); (0x2071, 0x2071);
    (0x207F, 0x207F); (0x2090, 0x209C); (0x20D0, 0x20F0); (0x2C7C, 0x2C7D);
    (0x2CEF, 0x2CF1); (0x2D6F, 0x2D6F); (0x2D7F, 0x2D7F); (0x2DE0, 0x2DFF);
    (0x2E2F, 0x2E2F); (0x3005, 0x3005); (0x302A, 0x302D); (0x3031, 0x3035);
    (0x303B, 0x303B); (0x3099, 0x309E); (0x30FC, 0x30FE); (0xA015, 0xA015);
    (0xA4F8, 0xA4FD); (0xA60C, 0xA60C); (0xA66F, 0xA672); (0xA674, 0xA67D);
    (0xA67F, 0xA67F); (0xA69C, 0xA69F); (0xA6F0, 0xA6F1); (0xA700, 0xA721);
    (0xA770, 0xA770); (0xA788, 0xA78A); (0xA7F2, 0xA7F4); (0xA7F8, 0xA7F9);
    (0xA802, 0xA802); (0xA806, 0xA806); (0xA80B, 0xA80B); (0xA825, 0xA826);
    (0xA82C, 0xA82C); (0xA8C4, 0xA8C5); (0xA8E0, 0xA8F1); (0xA8FF, 0xA8FF);
    (0xA926, 0xA92D); (0xA947, 0xA951); (0xA980, 0xA982); (0xA9B3, 0xA9B3);
    (0xA9B6, 0xA9B9); (0xA9BC, 0xA9BD); (0xA9CF, 0xA9CF); (0xA9E5, 0xA9E6);
    (0xAA29, 0xAA2E); (0xAA31, 0xAA32); (0xAA35, 0xAA36); (0xAA43, 0xAA43);
    (0xAA4C, 0xAA4C); (0xAA70, 0xAA70); (0xAA7C, 0xAA7C); (0xAAB0, 0xAAB0);
    (0xAAB2, 0xAAB4); (0xAAB7, 0xAAB8); (0xAABE, 0xAABF); (0xAAC1, 0xAAC1);
    (0xAADD, 0xAADD); (0xAAEC, 0xAAED); (0xAAF3, 0xAAF4); (0xAAF6, 0xAAF6);
    (0xAB5B, 0xAB5F); (0xAB69, 0xAB6B); (0xABE5, 0xABE5); (0xABE8, 0xABE8);
    (0xABED, 0xABED); (0xFB1E, 0xFB1E); (0xFBB2, 0xFBC2); (0xFE00, 0xFE0F);
    (0xFE13, 0xFE13); (0xFE20, 0xFE2F); (0xFE52, 0xFE52); (0xFE55, 0xFE55);
    (0xFEFF, 0xFEFF); (0xFF07, 0xFF07); (0xFF0E, 0xFF0E); (0xFF1A, 0xFF1A);
    (0xFF3E, 0xFF3E); (0xFF40, 0xFF40); (0xFF70, 0xFF70); (0xFF9E, 0xFF9F);
    (0xFFE3, 0xFFE3); (0xFFF9, 0xFFFB); (0x101FD, 0x101FD);
    (0x102E0, 0x102E0); (0x10376, 0x1037A); (0x10780, 0x10785);
    (0x10787, 0x107B0); (0x107B2, 0x107BA); (0x10A01, 0x10A03);
    (0x10A05, 0x10A06); (0x10A0C, 0x10A0F); (0x10A38, 0x10A3A);
    (0x10A3F, 0x10A3F); (0x10AE5, 0x10AE6); (0x10D24, 0x10D27);
    (0x10EAB, 0x10EAC); (0x10F46, 0x10F50); (0x10F82, 0x10F85);
    (0x11001, 0x11001); (0x11038, 0x11046); (0x11070, 0x11070);
    (0x11073, 0x11074); (0x1107F, 0x11081); (0x110B3, 0x110B6);
    (0x110B9, 0x110BA); (0x110BD, 0x110BD); (0x110C2, 0x110C2);
    (0x110CD, 0x110CD); (0x11100, 0x11102); (0x11127, 0x1112B);
    (0x1112D, 0x11134); (0x11173, 0x11173); (0x11180, 0x11181);
    (0x111B6, 0x111BE); (0x111C9, 0x111CC); (0x111CF, 0x111CF);
    (0x1122F, 0x11231); (0x11234, 0x11234); (0x11236, 0x11237);
    (0x1123E, 0x1123E); (0x112DF, 0x112DF); (0x112E3, 0x112EA);
    (0x11300, 0x11301); (0x1133B, 0x1133C); (0x11340, 0x11340);
    (0x11366, 0x1136C); (0x11370, 0x11374); (0x11438, 0x1143F);
    (0x11442, 0x11444); (0x11446, 0x11446); (0x1145E, 0x1145E);
    (0x114B3, 0x114B8); (0x114BA, 0x114BA); (0x114BF, 0x114C0);
    (0x114C2, 0x114C3); (0x115B2, 0x115B5); (0x115BC, 0x115BD);
    (0x115BF, 0x115C0); (0x115DC, 0x115DD); (0x11633, 0x1163A);
    (0x1163D, 0x1163D); (0x1163F, 0x11640); (0x116AB, 0x116AB);
    (0x116AD, 0x116AD); (0x116B0, 0x116B5); (0x116B7, 0x116B7);
    (0x1171D, 0x1171F); (0x11722, 0x11725); (0x11727, 0x1172B);
    (0x1182F, 0x11837); (0x11839, 0x1183A); (0x1193B, 0x1193C);
    (0x1193E, 0x1193E); (0x11943, 0x11943); (0x119D4, 0x119D7);
    (0x119DA, 0x119DB); (0x119E0, 0x119E0); (0x11A01, 0x11A0A);
    (0x11A33, 0x11A38); (0x11A3B, 0x11A3E); (0x11A47, 0x11A47);
    (0x11A51, 0x11A56); (0x11A59, 0x11A5B); (0x11A8A, 0x11A96);
    (0x11A98, 0x11A99); (0x11C30, 0x11C36); (0x11C38, 0x11C3D);
    (0x11C3F, 0x11C3F); (0x11C92, 0x11CA7); (0x11CAA, 0x11CB0);
    (0x11CB2, 0x11CB3); (0x11CB5, 0x11CB6); (0x11D31, 0x11D36);
    (0x11D3A, 0x11D3A); (0x11D3C, 0x11D3D); (0x11D3F, 0x11D45);
    (0x11D47, 0x11D47); (0x11D90, 0x11D91); (0x11D95, 0x11D95);
    (0x11D97, 0x11D97); (0x11EF3, 0x11EF4); (0x13430, 0x13438);
    (0x16AF0, 0x16AF4); (0x16B30, 0x16B36); (0x16B40, 0x16B43);
    (0x16F4F, 0x16F4F); (0x16F8F, 0x16F9F); (0x16FE0, 0x16FE1);
    (0x16FE3, 0x16FE4); (0x1AFF0, 0x1AFF3); (0x1AFF5, 0x1AFFB);
    (0x1AFFD, 0x1AFFE); (0x1BC9D, 0x1BC9E); (0x1BCA0, 0x1BCA3);
    (0x1CF00, 0x1CF2D); (0x1CF30, 0x1CF46); (0x1D167, 0x1D169);
    (0x1D173, 0x1D182); (0x1D185, 0x1D18B); (0x1D1AA, 0x1D1AD);
    (0x1D242, 0x1D244); (0x1DA00, 0x1DA36); (0x1DA3B, 0x1DA6C);
    (0x1DA75, 0x1DA75); (0x1DA84, 0x1DA84); (0x1DA9B, 0x1DA9F);
    (0x1DAA1, 0x1DAAF); (0x1E000, 0x1E006); (0x1E008, 0x1E018);
    (0x1E01B, 0x1E021); (0x1E023, 0x1E024); (0x1E026, 0x1E02A);
    (0x1E130, 0x1E13D); (0x1E2AE, 0x1E2AE); (0x1E2EC, 0x1E2EF);
    (0x1E8D0, 0x1E8D6); (0x1E944, 0x1E94B); (0x1F3FB, 0x1F3FF);
    (0xE0001, 0xE0001); (0xE0020, 0xE007F); (0xE0100, 0xE01EF) ]%N.

(** The lowercase mapping of a code point; U+0130 is the one code point
    whose mapping has two. *)
Definition to_lower (cp : N) : list N :=
  if (cp <? 0x80)%N then
    if (0x41 <=? cp)%N && (cp <=? 0x5A)%N then [(cp + 32)%N] else [cp]
  else if (cp =? 0x130)%N then [0x69; 0x307]%N
  else
    match find (fun '(first, last, step, _) =>
                  if cp <? first then false
                  else if last <? cp then false
                  else (cp - first) mod step =? 0)%N
               Lowercase_Mapping with
    | Some (first, _, _, target) => [(target + (cp - first))%N]
    | None => [cp]
    end.

(** The first code point that is not case-ignorable is cased. *)
Fixpoint cased_first (cps : list N) : bool :=
  match cps with
  | [] => false
  | cp :: rest =>
    if in_ranges cp Case_Ignorable then cased_first rest
    else in_ranges cp Cased
  end.

(** A capital sigma is final when a cased letter comes before it and none
    after it, case-ignorable code points being skipped on both sides;
    [before] is in reverse order. *)
Definition final_sigma (before after : list N) : bool :=
  cased_first before && negb (cased_first after).

(** The code point of a character, U+110000 standing for a character that
    encodes none. *)
Definition scalar (c : string) : N :=
  if well_formed c then code_point c else 0x110000%N.

Fixpoint lower_chars (before : list N) (cs : list string) : string :=
  match cs with
  | [] => ""
  | c :: rest =>
    (if negb (well_formed c) then c
     else if (code_point c =? 0x3A3)%N then
       utf8 (if final_sigma before (map scalar rest) then 0x3C2 else 0x3C3)%N
     else String.concat "" (map utf8 (to_lower (code_point c))))
    ++ lower_chars (scalar c :: before) rest
  end.

(** [s.lower()] *)
Definition lower (s : string) : string := lower_chars [] (chars s).

(** [sub in s] for two strings. *)
Fixpoint contains (sub s : string) : bool :=
  prefix sub s ||
  match s with
  | EmptyString => false
  | String _ r => contains sub r
  end.

(** The characters [str.strip()] removes: the code points for which
    [str.isspace()] holds, U+0009..U+000D, U+001C..U+0020, U+0085, U+00A0,
    U+1680, U+2000..U+200A, U+2028, U+2029, U+202F, U+205F and U+3000. *)
Definition whitespace : list string :=
  map chr
    [ [9]; [10]; [11]; [12]; [13]; [28]; [29]; [30]; [31]; [32];
      [194; 133]; [194; 160]; [225; 154; 128];
      [226; 128; 128]; [226; 128; 129]; [226; 128; 130]; [226; 128; 131];
      [226; 128; 132]; [226; 128; 133]; [226; 128; 134]; [226; 128; 135];
      [226; 128; 136]; [226; 128; 137]; [226; 128; 138];
      [226; 128; 168]; [226; 128; 169]; [226; 128; 175];
      [226; 129; 159]; [227; 128; 128] ]%nat.

Definition drop (n : nat) (s : string) : string :=
  substring n (String.length s - n) s.

Definition rev_string (s : string) : string :=
  string_of_list_ascii (rev (list_ascii_of_string s)).

(** Removes leading members of [ws] from [s]; each round removes at least
    one byte, so [String.length s] rounds are enough. *)
Fixpoint strip_leading (ws : list string) (rounds : nat) (s : string) : string :=
  match rounds with
  | O => s
  | S rounds' =>
    match find (fun w => prefix w s) ws with
    | Some w => strip_leading ws rounds' (drop (String.length w) s)
    | None => s
    end
  end.

Definition lstrip (s : string) : string :=
  strip_leading whitespace (String.length s) s.

Definition rstrip (s : string) : string :=
  rev_string
    (strip_leading (map rev_string whitespace) (String.length s) (rev_string s)).

(** [s.strip()] *)
Definition strip (s : string) : string := rstrip (lstrip s).

(** [str(n)] for an integer. *)
Definition str_of_int (z : Z) : string := NilZero.string_of_int (Z.to_int z).

(** ** Decoding bytes

    [b.decode('utf-8')]: the well-formed byte sequences of UTF-8 (no
    overlong form, no surrogate, nothing above U+10FFFF) decode to the text
    they encode; any other sequence raises [UnicodeDecodeError]. *)
Definition between (lo hi b : nat) : bool := (lo <=? b)%nat && (b <=? hi)%nat.

Fixpoint utf8_valid (bs : list nat) : bool :=
  match bs with
  | [] => true
  | b0 :: r0 =>
    if (b0 <? 128)%nat then utf8_valid r0
    else
      match r0 with
      | [] => false
      | b1 :: r1 =>
        if between 194 223 b0 then between 128 191 b1 && utf8_valid r1
        else
          match r1 with
          | [] => false
          | b2 :: r2 =>
            if between 224 239 b0 then
              (between 224 224 b0 && between 160 191 b1
               || between 225 236 b0 && between 128 191 b1
               || between 237 237 b0 && between 128 159 b1
               || between 238 239 b0 && between 128 191 b1)
              && between 128 191 b2 && utf8_valid r2
            else
              match r2 with
              | [] => false
              | b3 :: r3 =>
                (between 240 240 b0 && between 144 191 b1
                 || between 241 243 b0 && between 128 191 b1
                 || between 244 244 b0 && between 128 143 b1)
                && between 128 191 b2 && between 128 191 b3 && utf8_valid r3
              end
          end
      end
  end.

Definition decode_utf8 (b : string) : result string :=
  if utf8_valid (map byte_of (list_ascii_of_string b))
  then Ok b
  else Raise (Exception "UnicodeDecodeError"
                        "'utf-8' codec can't decode bytes").

(** ** Numbers

    A [decimal.Decimal] as DynamoDB hands it out: a finite number
    [(-1)^negative * coefficient * 10^exponent].  A Python [float] is an
    IEEE 754 binary64 value, here the [spec_float] of the standard library;
    [float(d)] is the correctly rounded (nearest, ties to even) value. *)
Inductive Decimal := Dec (negative : bool) (coefficient : N) (exponent : Z).

Definition pyfloat := spec_float.

Definition float (d : Decimal) : pyfloat :=
  match d with
  | Dec s N0 _ => S754_zero s
  | Dec s (Npos p) (Zneg k) =>
    SFdiv 53 1024 (S754_finite s p 0) (S754_finite false (Pos.pow 10 k) 0)
  | Dec s (Npos p) e =>
    binary_round 53 1024 s (p * Z.to_pos (10 ^ e)) 0
  end.

(** ** Values

    [PBinary] is the [Binary] wrapper boto3 gives to a DynamoDB binary
    attribute; the other constructors are the built-in types. *)
#[warnings="-register-all"]
Inductive pyval :=
| PNone
| PBool (b : bool)
| PInt (z : Z)
| PFloat (f : pyfloat)
| PDecimal (d : Decimal)
| PStr (s : string)
| PBinary (b : string)
| PList (items : list pyval)
| PDict (entries : list (string * pyval))
| PSet (members : list pyval).

(** A [dict] with string keys, in insertion order. *)
Definition dict := list (string * pyval).

Fixpoint dict_get (d : dict) (key : string) : option pyval :=
  match d with
  | [] => None
  | (k, v) :: r => if String.eqb k key then Some v else dict_get r key
  end.

(** [d[key] = v] *)
Fixpoint dict_set (d : dict) (key : string) (v : pyval) : dict :=
  match d with
  | [] => [(key, v)]
  | (k, v0) :: r =>
    if String.eqb k key then (k, v) :: r else (k, v0) :: dict_set r key v
  end.

Definition type_name (v : pyval) : string :=
  match v with
  | PNone => "NoneType"
  | PBool _ => "bool"
  | PInt _ => "int"
  | PFloat _ => "float"
  | PDecimal _ => "Decimal"
  | PStr _ => "str"
  | PBinary _ => "Binary"
  | PList _ => "list"
  | PDict _ => "dict"
  | PSet _ => "set"
  end.

(** Truth value of an object, as tested by [if v] and [not v]. *)
Definition truthy (v : pyval) : bool :=
  match v with
  | PNone => false
  | PBool b => b
  | PInt z => negb (Z.eqb z 0)
  | PFloat (S754_zero _) => false
  | PFloat _ => true
  | PDecimal (Dec _ c _) => negb (N.eqb c 0)
  | PStr s => negb (String.eqb s "")
  | PBinary _ => true
  | PList l => match l with [] => false | _ => true end
  | PDict d => match d with [] => false | _ => true end
  | PSet l => match l with [] => false | _ => true end
  end.

(** [v == s] for a string literal [s]. *)
Definition eq_str (v : pyval) (s : string) : bool :=
  match v with
  | PStr t => String.eqb t s
  | _ => false
  end.

Definition AttributeError (v : pyval) (attr : string) : exn :=
  Exception "AttributeError"
    ("'" ++ type_name v ++ "' object has no attribute '" ++ attr ++ "'").

Definition TypeError (msg : string) : exn := Exception "TypeError" msg.

Definition KeyError (key : string) : exn :=
  Exception "KeyError" ("'" ++ key ++ "'").

(** [obj.get(key, default)]: a method of [dict] only. *)
Definition get (obj : pyval) (key : string) (default : pyval) : result pyval :=
  match obj with
  | PDict d =>
    match dict_get d key with
    | Some v => Ok v
    | None => Ok default
    end
  | _ => Raise (AttributeError obj "get")
  end.

(** [key in obj] for a string [key]: a key of a dict, a member of a list or
    set, a substring of a string. *)
Definition has_str (key : string) (members : list pyval) : bool :=
  existsb (fun m => eq_str m key) members.

Definition contains_key (key : string) (obj : pyval) : result bool :=
  match obj with
  | PDict d =>
    Ok (match dict_get d key with Some _ => true | None => false end)
  | PList l => Ok (has_str key l)
  | PSet l => Ok (has_str key l)
  | PStr s => Ok (contains key s)
  | _ =>
    Raise (TypeError ("argument of type '" ++ type_name obj ++
                      "' is not iterable"))
  end.

(** [obj[key]] for a string [key]. *)
Definition getitem (obj : pyval) (key : string) : result pyval :=
  match obj with
  | PDict d =>
    match dict_get d key with
    | Some v => Ok v
    | None => Raise (KeyError key)
    end
  | PList _ => Raise (TypeError "list indices must be integers or slices, not str")
  | PStr _ => Raise (TypeError "string indices must be integers, not 'str'")
  | _ =>
    Raise (TypeError ("'" ++ type_name obj ++ "' object is not subscriptable"))
  end.

(** [obj.strip()]: a method of [str]. *)
Definition str_strip (obj : pyval) : result string :=
  match obj with
  | PStr s => Ok (strip s)
  | _ => Raise (AttributeError obj "strip")
  end.

(** The elements [for x in obj] goes through. *)
Definition iterate (obj : pyval) : result (list pyval) :=
  match obj with
  | PList l => Ok l
  | PSet l => Ok l
  | PDict d => Ok (map (fun kv => PStr (fst kv)) d)
  | PStr s => Ok (map PStr (chars s))
  | _ => Raise (TypeError ("'" ++ type_name obj ++ "' object is not iterable"))
  end.

(** ** Library functions used as black boxes

    [repr] of a value that is not a string, the order [<] of operands that
    are not both strings, and the JSON codec: what they return does not
    matter to this development, only where they are called. *)
Class Builtins := {
  repr : pyval -> string;
  lt_other : pyval -> pyval -> result bool;
  json_encode : pyval -> string;
  json_decode : string -> result pyval
}.

Section WithBuiltins.
Context {builtins : Builtins}.

(** [str(v)], also the text an f-string puts for [{v}]. *)
Definition str (v : pyval) : string :=
  match v with
  | PStr s => s
  | PInt z => str_of_int z
  | PNone => "None"
  | PBool true => "True"
  | PBool false => "False"
  | _ => repr v
  end.

(** [a < b]: strings compare by code points, which is the order of their
    encodings. *)
Definition lt (a b : pyval) : result bool :=
  match a, b with
  | PStr s, PStr t => Ok (String.ltb s t)
  | _, _ => lt_other a b
  end.

(** The type [json.dumps] rejects first, if any, when it is called without
    [default]. *)
Fixpoint not_serializable (v : pyval) : option string :=
  match v with
  | PDecimal _ | PBinary _ | PSet _ => Some (type_name v)
  | PList l =>
    (fix first (l : list pyval) : option string :=
       match l with
       | [] => None
       | x :: r =>
         match not_serializable x with
         | Some t => Some t
         | None => first r
         end
       end) l
  | PDict d =>
    (fix first (d : list (string * pyval)) : option string :=
       match d with
       | [] => None
       | (_, x) :: r =>
         match not_serializable x with
         | Some t => Some t
         | None => first r
         end
       end) d
  | _ => None
  end.

(** [json.dumps(v)] *)
Definition json_dumps (v : pyval) : result string :=
  match not_serializable v with
  | None => Ok (json_encode v)
  | Some t =>
    Raise (TypeError ("Object of type " ++ t ++ " is not JSON serializable"))
  end.

(** [json.dumps(v, default=str)] gives to [str] the values JSON has no form
    for.  [str] of a decimal or of a set is a text; [str] of a [Binary]
    raises [TypeError], its [__str__] returning bytes, and [json.dumps]
    raises with it.  [str_renders v]: [json.dumps] meets no [Binary] in [v];
    it does not look into sets, whose text is made by [repr]. *)
Fixpoint str_renders (v : pyval) : bool :=
  match v with
  | PBinary _ => false
  | PList l => forallb str_renders l
  | PDict d => forallb (fun kv => str_renders (snd kv)) d
  | _ => true
  end.

(** The text of [json.dumps(v, default=str)] for a value that
    [str_renders]: the values of an event, which come from JSON, and the
    results made of them; a result that carries attributes of a stored item
    is rendered when the attributes hold no [Binary]. *)
Definition json_dumps_default_str (v : pyval) : string := json_encode v.

(** [json.loads(v)] *)
Definition json_loads (v : pyval) : result pyval :=
  match v with
  | PStr s => json_decode s
  | _ =>
    Raise (TypeError ("the JSON object must be str, bytes or bytearray, not "
                      ++ type_name v))
  end.

(** [l.sort(key=key)].  Python sorts stably and compares keys with [<]
    only; an exception of a comparison leaves the sort.  Where [<] orders
    the keys totally, every stable sort returns the same list: the one built
    here by insertion, each element being placed before the elements that
    followed it in [l] and whose key is not smaller. *)
Fixpoint with_keys (key : pyval -> result pyval) (l : list pyval)
  : result (list (pyval * pyval)) :=
  match l with
  | [] => Ok []
  | x :: r =>
    (k <- key x ;;
     keyed <- with_keys key r ;;
     Ok ((k, x) :: keyed))%result
  end.

Fixpoint insert_keyed (kx : pyval * pyval) (sorted : list (pyval * pyval))
  : result (list (pyval * pyval)) :=
  match sorted with
  | [] => Ok [kx]
  | ky :: rest =>
    (smaller <- lt (fst ky) (fst kx) ;;
     if smaller then
       placed <- insert_keyed kx rest ;;
       Ok (ky :: placed)
     else Ok (kx :: ky :: rest))%result
  end.

Fixpoint sort_keyed (l : list (pyval * pyval)) : result (list (pyval * pyval)) :=
  match l with
  | [] => Ok []
  | kx :: r =>
    (sorted <- sort_keyed r ;;
     insert_keyed kx sorted)%result
  end.

Definition list_sort (key : pyval -> result pyval) (l : list pyval)
  : result (list pyval) :=
  (keyed <- with_keys key l ;;
   sorted <- sort_keyed keyed ;;
   Ok (map snd sorted))%result.

End WithBuiltins.

End Py.

(* ===================================================================== *)
(** * LambdaCallToAgent.py: the AgentRouter handler *)
(* ===================================================================== *)

Module LambdaCallToAgent.
Import Py.

(** ** Module constants

    [MAX_PROMPT_LENGTH] is read from the environment when the module is
    loaded.  The five agent identifiers are used throughout the source
    file but their assignments are not part of it: they are parameters
    here. *)
Class Config := {
  MAX_PROMPT_LENGTH : Z;
  BEDROCK_AGENT_NAME : string;
  BEDROCK_AGENT_ID : string;
  BEDROCK_AGENT_ALIAS_ID : string;
  BEDROCK_COURSEAGENT_ID : string;
  BEDROCK_COURSEAGENT_ALIAS_ID : string
}.

(** ** The agent runtime

    The keyword arguments of [bedrock_agent_runtime.invoke_agent]. *)
Record invoke_request := {
  agentId : string;
  agentAliasId : string;
  sessionId : pyval;
  inputText : string;
  enableTrace : bool;
  endSession : bool
}.

(** An event of the completion stream is a dict that may hold the keys
    ['chunk'], ['trace'] and ['returnControl']; a chunk is a dict that may
    hold ['bytes']. *)
Record Chunk := { bytes : option string }.

Record Event := {
  chunk : option Chunk;
  trace : option pyval;
  returnControl : option pyval
}.

(** What iterating over [response['completion']] does: it yields events
    and then either is exhausted or raises. *)
Inductive event_stream :=
| Exhausted
| Raises (e : exn)
| Yields (event : Event) (rest : event_stream).

Record invoke_response := { completion : event_stream }.

(** The surroundings of one invocation: the clock readings and the answer
    of the Bedrock agent runtime to a request. *)
Class World := {
  time_time : Z;
  utcnow_isoformat : string;
  invoke_agent : invoke_request -> result invoke_response
}.

(** ** Computations that call the agent runtime

    A computation returns its outcome together with the requests it sent
    to the agent runtime, in the order they were sent. *)
Definition M (A : Type) : Type := (result A * list invoke_request)%type.

Definition ret {A : Type} (a : A) : M A := (Ok a, []).

Definition lift {A : Type} (c : result A) : M A := (c, []).

Definition bindM {A B : Type} (c : M A) (k : A -> M B) : M B :=
  match c with
  | (Ok a, sent) => let (r, sent') := k a in (r, (sent ++ sent')%list)
  | (Raise e, sent) => (Raise e, sent)
  end.

Definition try_exceptM {A : Type} (body : M A) (handler : exn -> M A) : M A :=
  match body with
  | (Ok a, sent) => (Ok a, sent)
  | (Raise e, sent) => let (r, sent') := handler e in (r, (sent ++ sent')%list)
  end.

Declare Scope io_scope.
Delimit Scope io_scope with io.
Notation "x <- c ;; k" := (bindM c (fun x => k))
  (at level 61, c at next level, right associativity) : io_scope.

Section Handler.
Context {builtins : Builtins} {config : Config} {world : World}.

Definition call_invoke_agent (request : invoke_request) : M invoke_response :=
  (invoke_agent request, [request]).

(** ** [validate_request] *)
Definition harmful_patterns : list string :=
  ["<script"; "javascript:"; "data:"; "vbscript:"].

Definition validate_request (body : pyval) : result (bool * pyval) :=
  (if negb (truthy body) then Ok (false, PStr "Request body is required")
   else
     has_prompt <- contains_key "prompt" body ;;
     if negb has_prompt then Ok (false, PStr "Prompt is required")
     else
       p <- getitem body "prompt" ;;
       prompt <- str_strip p ;;
       if String.eqb prompt "" then Ok (false, PStr "Prompt cannot be empty")
       else if (len prompt >? MAX_PROMPT_LENGTH)%Z then
         Ok (false, PStr ("Prompt too long (max " ++
                          str_of_int MAX_PROMPT_LENGTH ++ " characters)"))
       else
         let prompt_lower := lower prompt in
         if existsb (fun pattern => contains pattern prompt_lower)
                    harmful_patterns
         then Ok (false, PStr "Invalid content detected in prompt")
         else Ok (true, PNone))%result.

(** ** [parse_request_body] *)
Definition parse_request_body (event : pyval) : result pyval :=
  try_except
    (has_body <- contains_key "body" event ;;
     if has_body then
       b <- getitem event "body" ;;
       if truthy b then json_loads b else Ok PNone
     else
       has_context <- contains_key "requestContext" event ;;
       is_function_url <-
         (if has_context then
            context <- getitem event "requestContext" ;;
            contains_key "http" context
          else Ok false) ;;
       if is_function_url then
         b <- get event "body" PNone ;;
         if truthy b then json_loads b else Ok PNone
       else
         has_prompt <- contains_key "prompt" event ;;
         if has_prompt then Ok event else Ok PNone)%result
    (fun _ => Ok PNone).

(** ** [is_technical_query] *)
Definition non_technical_keywords : list string :=
  [ "cook"; "recipe"; "food"; "meal"; "kitchen"; "bake"; "ingredient";
    "dating"; "relationship"; "love"; "romance"; "marriage";
    "medical"; "health"; "doctor"; "medicine"; "symptom"; "disease";
    "legal"; "lawyer"; "law"; "court"; "lawsuit";
    "investment"; "stock"; "crypto"; "bitcoin"; "trading";
    "weather"; "sports"; "game"; "movie"; "music"; "entertainment";
    "travel"; "vacation"; "hotel"; "flight";
    "shopping"; "fashion"; "clothes"; "style" ].

Definition technical_keywords : list string :=
  [ "programming"; "code"; "software"; "development"; "developer";
    "python"; "java"; "javascript"; "react"; "node"; "aws"; "cloud";
    "ai"; "artificial intelligence"; "machine learning"; "ml"; "data science";
    "algorithm"; "database"; "sql"; "api"; "framework"; "library";
    "career"; "job"; "interview"; "resume"; "certification"; "course";
    "skill"; "learn"; "study"; "education"; "training"; "bootcamp";
    "technology"; "tech"; "computer"; "engineering"; "devops";
    "cybersecurity"; "security"; "network"; "system"; "architecture";
    "agile"; "scrum"; "project management"; "leadership"; "management" ].

Definition is_technical_query (prompt : string) : bool :=
  let prompt_lower := lower prompt in
  if existsb (fun keyword => contains keyword prompt_lower)
             non_technical_keywords
  then false
  else if existsb (fun keyword => contains keyword prompt_lower)
                  technical_keywords
  then true
  else true.

(** ** [generate_off_topic_response] *)
Definition generate_off_topic_response (prompt : string) : string :=
  let prompt_lower := lower prompt in
  let topic :=
    if contains "cook" prompt_lower || contains "recipe" prompt_lower
       || contains "food" prompt_lower then "cooking"
    else if contains "dating" prompt_lower
            || contains "relationship" prompt_lower then "relationships"
    else if contains "health" prompt_lower
            || contains "medical" prompt_lower then "health advice"
    else if contains "legal" prompt_lower
            || contains "law" prompt_lower then "legal advice"
    else if contains "investment" prompt_lower
            || contains "stock" prompt_lower then "investment advice"
    else if contains "weather" prompt_lower then "weather"
    else if contains "sports" prompt_lower
            || contains "game" prompt_lower then "sports or games"
    else "that topic" in
  "I'm an AI Upskill Coach focused on technical career development. I can't help with " ++ topic ++ ", but I'd be happy to assist you with:

🚀 **AI & Machine Learning Careers**
• Career paths in AI/ML, data science, and analytics
• Required skills and certifications
• Industry trends and opportunities

💻 **Programming & Development**
• Programming languages (Python, JavaScript, Java, etc.)
• Frameworks and tools
• Best practices and coding skills

📚 **Learning & Certifications**
• Technical courses and bootcamps
• AWS, Google Cloud, Microsoft certifications
• Online learning platforms and resources

📝 **Professional Development**
• Resume optimization for tech roles
• Technical interview preparation
• Career progression strategies

What technical topic would you like to explore today?".

(** ** [get_fallback_response] *)
Definition get_fallback_response : string :=
  "I apologize, but I'm experiencing technical difficulties right now. However, I'm here to help with your technical career development!

Here are some ways I can assist you:

🚀 **Career Guidance**
• AI/ML career paths and opportunities
• Software engineering roles and progression
• Data science and analytics careers

💻 **Technical Skills**
• Programming languages to learn
• Frameworks and tools recommendations
• Best practices and coding standards

📚 **Learning Resources**
• Online courses and certifications
• Bootcamps and training programs
• Books and documentation

📝 **Professional Development**
• Resume and portfolio optimization
• Interview preparation strategies
• Networking and career growth tips

Please try asking your question again, or let me know what specific area you'd like to focus on!".

(** ** [generate_ai_response_with_agent] *)
Definition mycourse_keywords : list string :=
  [ "my course"; "my all course"; "my completed course";
    "my in progress course"; "my ongoing course";
    "all my course"; "my course list" ].

(** The loop [for event in event_stream], started with the text gathered so
    far: the text at the end of the loop, and the exception if the loop was
    left by one. *)
Fixpoint for_event_in (event_stream : event_stream) (ai_response : string)
  : string * option exn :=
  match event_stream with
  | Exhausted => (ai_response, None)
  | Raises stream_error => (ai_response, Some stream_error)
  | Yields event rest =>
    match chunk event with
    | Some c =>
      match bytes c with
      | Some b =>
        match decode_utf8 b with
        | Ok chunk_text => for_event_in rest (ai_response ++ chunk_text)
        | Raise stream_error => (ai_response, Some stream_error)
        end
      | None => for_event_in rest ai_response
      end
    | None =>
      match trace event with
      | Some _ => for_event_in rest ai_response
      | None =>
        match returnControl event with
        | Some _ => for_event_in rest ai_response
        | None => for_event_in rest ai_response
        end
      end
    end
  end.

(** Both [except ClientError] and [except Exception] end in
    [return get_fallback_response()]; the error code of a [ClientError] only
    selects the line that is logged. *)
Definition generate_ai_response_with_agent (prompt : string) (session_id : pyval)
  : M string :=
  try_exceptM
    (let myprompt := lower prompt in
     response <-
       (if existsb (fun keyword => contains keyword myprompt) mycourse_keywords
        then
          call_invoke_agent
            {| agentId := BEDROCK_COURSEAGENT_ID;
               agentAliasId := BEDROCK_COURSEAGENT_ALIAS_ID;
               sessionId := session_id;
               inputText := prompt;
               enableTrace := false;
               endSession := false |}
        else
          call_invoke_agent
            {| agentId := BEDROCK_AGENT_ID;
               agentAliasId := BEDROCK_AGENT_ALIAS_ID;
               sessionId := session_id;
               inputText := prompt;
               enableTrace := false;
               endSession := false |}) ;;
     let '(ai_response, stream_error) := for_event_in (completion response) "" in
     let after_stream :=
       if String.eqb (strip ai_response) "" then ret get_fallback_response
       else ret (strip ai_response) in
     match stream_error with
     | Some _ =>
       if negb (String.eqb (strip ai_response) "") then after_stream
       else ret get_fallback_response
     | None => after_stream
     end)%io
    (fun e =>
       if String.eqb (exc_type e) "ClientError" then ret get_fallback_response
       else ret get_fallback_response).

(** ** [create_success_response] and [create_error_response] *)
Definition agent_block : pyval :=
  PDict [ ("name", PStr BEDROCK_AGENT_NAME);
          ("id", PStr BEDROCK_AGENT_ID);
          ("aliasId", PStr BEDROCK_AGENT_ALIAS_ID) ].

Definition create_success_response (message session_id headers : pyval)
  : result pyval :=
  (body <- json_dumps
             (PDict [ ("response", message);
                      ("sessionId", session_id);
                      ("timestamp", PStr utcnow_isoformat);
                      ("status", PStr "success");
                      ("agent", agent_block) ]) ;;
   Ok (PDict [ ("statusCode", PInt 200);
               ("headers", headers);
               ("body", PStr body) ]))%result.

Definition create_error_response (error_message headers : pyval) (status_code : Z)
  : result pyval :=
  (body <- json_dumps
             (PDict [ ("error", error_message);
                      ("timestamp", PStr utcnow_isoformat);
                      ("status", PStr "error");
                      ("agent", agent_block) ]) ;;
   Ok (PDict [ ("statusCode", PInt status_code);
               ("headers", headers);
               ("body", PStr body) ]))%result.

(** ** [lambda_handler]

    [headers] is bound before anything in the [try] block can raise, so the
    handler of the [except] clause always finds it among the locals. *)
Definition headers : pyval :=
  PDict [ ("Content-Type", PStr "application/json");
          ("Access-Control-Allow-Methods", PStr "POST, OPTIONS");
          ("Access-Control-Allow-Headers", PStr "Content-Type, Authorization") ].

(** The body of the [try] block. *)
Definition lambda_handler_try (event : pyval) : M pyval :=
  (method <- lift (get event "httpMethod" PNone) ;;
   if eq_str method "OPTIONS" then
     body <- lift (json_dumps
                     (PDict [("message", PStr "CORS preflight successful")])) ;;
     ret (PDict [ ("statusCode", PInt 200);
                  ("headers", headers);
                  ("body", PStr body) ])
   else
     body <- lift (parse_request_body event) ;;
     if negb (truthy body) then
       lift (create_error_response (PStr "Invalid request format") headers 400)
     else
       validation <- lift (validate_request body) ;;
       let '(is_valid, error_message) := validation in
       if negb is_valid then
         lift (create_error_response error_message headers 400)
       else
         p <- lift (getitem body "prompt") ;;
         prompt <- lift (str_strip p) ;;
         session_id <-
           lift (get body "sessionId"
                     (PStr ("session_" ++ str_of_int time_time))) ;;
         if negb (is_technical_query prompt) then
           let off_topic_response := generate_off_topic_response prompt in
           lift (create_success_response (PStr off_topic_response)
                                         session_id headers)
         else
           ai_response <- generate_ai_response_with_agent prompt session_id ;;
           lift (create_success_response (PStr ai_response)
                                         session_id headers))%io.

Definition lambda_handler (event : pyval) : M pyval :=
  try_exceptM
    (lambda_handler_try event)
    (fun e =>
       lift (create_error_response
               (PStr "An unexpected error occurred. Please try again later.")
               headers 500)).

End Handler.

End LambdaCallToAgent.

(* ===================================================================== *)
(** * LambdaAction.py: the CourseQueryService handler *)
(* ===================================================================== *)

Module LambdaAction.
Import Py.

(** ** The table resource

    What a scan of the table does, call after call: a call raises, or
    returns a last page, or returns a page with a ['LastEvaluatedKey'] and
    is followed by the call that resumes from that key.  ['Items'] may be
    missing from a page. *)
Inductive scan_run :=
| ScanRaises (e : exn)
| ScanLast (Items : option (list pyval))
| ScanMore (Items : option (list pyval)) (LastEvaluatedKey : pyval)
           (next : scan_run).

(** The resource [dynamodb.Table('MyCourses')]:
    - [table_status]: reading the attribute [table.table_status];
    - [scan None]: [table.scan()] and the resumed scans;
      [scan (Some state)]: the same with
      [FilterExpression=Attr('State').eq(state)];
    - [get_item course_id]: [table.get_item(Key={'CourseID': course_id})],
      giving the ['Item'] of the response when it has one. *)
Record Table := {
  table_status : result pyval;
  scan : option pyval -> scan_run;
  get_item : pyval -> result (option pyval)
}.

(** [boto3.resource('dynamodb').Table(name)] *)
Class World := {
  dynamodb_Table : string -> result Table
}.

Section Handler.
Context {builtins : Builtins} {world : World}.

(** ** [convert_decimals] *)
Fixpoint convert_decimals (obj : pyval) : pyval :=
  match obj with
  | PList l => PList (map convert_decimals l)
  | PDict d => PDict (map (fun '(key, value) => (key, convert_decimals value)) d)
  | PDecimal d => PFloat (float d)
  | _ => obj
  end.

(** ** [create_bedrock_response] and [create_error_response] *)
Definition create_bedrock_response (action_group api_path http_method result : pyval)
  : Py.result pyval :=
  (success <- get result "success" (PBool false) ;;
   let status_code := if truthy success then 200%Z else 400%Z in
   Ok (PDict
         [ ("messageVersion", PStr "1.0");
           ("response",
            PDict
              [ ("actionGroup", action_group);
                ("apiPath", api_path);
                ("httpMethod", http_method);
                ("httpStatusCode", PInt status_code);
                ("responseBody",
                 PDict
                   [ ("application/json",
                      PDict
                        [ ("body",
                           PStr (json_dumps_default_str result)) ]) ]) ]) ])
  )%result.

Definition create_error_response (error_message : string) (details : pyval)
  : result pyval :=
  let error_result :=
    PDict [ ("success", PBool false);
            ("error", PStr error_message);
            ("details", details) ] in
  (body <- json_dumps error_result ;;
   Ok (PDict
         [ ("messageVersion", PStr "1.0");
           ("response",
            PDict
              [ ("actionGroup", PStr "CourseActionGroup");
                ("apiPath", PStr "/error");
                ("httpMethod", PStr "GET");
                ("httpStatusCode", PInt 500);
                ("responseBody",
                 PDict
                   [ ("application/json",
                      PDict [ ("body", PStr body) ]) ]) ]) ]))%result.

(** ** Scanning and normalizing *)

(** [response.get('Items', [])] *)
Definition items_of (Items : option (list pyval)) : list pyval :=
  match Items with
  | Some items => items
  | None => []
  end.

(** The first scan and the loop [while 'LastEvaluatedKey' in response],
    [courses] being the items gathered so far. *)
Fixpoint scan_all (response : scan_run) (courses : list pyval)
  : result (list pyval) :=
  match response with
  | ScanRaises e => Raise e
  | ScanLast Items => Ok (courses ++ items_of Items)%list
  | ScanMore Items _ next => scan_all next (courses ++ items_of Items)%list
  end.

(** The dict literal [normalized_course], the same in the three queries. *)
Definition normalize_course (course : pyval) : result pyval :=
  (course_id <- get course "CourseID" (PStr "") ;;
   course_name <- get course "Course Name" (PStr "") ;;
   duration <- get course "Duration (hours)" (PStr "") ;;
   state <- get course "State" (PStr "") ;;
   Ok (PDict [ ("CourseID", course_id);
               ("CourseName", course_name);
               ("Duration", duration);
               ("State", state) ]))%result.

(** The loop [for course in courses] that fills [normalized_courses]. *)
Fixpoint normalize_courses (courses : list pyval) : result (list pyval) :=
  match courses with
  | [] => Ok []
  | course :: rest =>
    (normalized_course <- normalize_course course ;;
     normalized_rest <- normalize_courses rest ;;
     Ok (normalized_course :: normalized_rest))%result
  end.

(** [lambda x: x.get('CourseID', '')] *)
Definition sort_key (x : pyval) : result pyval := get x "CourseID" (PStr "").

Definition count (l : list pyval) : Z := Z.of_nat (List.length l).

(** ** [get_all_courses] *)
Definition get_all_courses (table : Table) : result pyval :=
  try_except
    (match table_status table with
     | Raise table_error =>
       Ok (PDict
             [ ("success", PBool false);
               ("error", PStr ("Cannot access MyCourses table: " ++
                               exc_str table_error));
               ("suggestion",
                PStr "Check if table exists and IAM permissions are correct") ])
     | Ok table_info =>
       (courses <- scan_all (scan table None) [] ;;
        courses <- iterate (convert_decimals (PList courses)) ;;
        normalized_courses <- normalize_courses courses ;;
        normalized_courses <- list_sort sort_key normalized_courses ;;
        Ok (PDict
              [ ("success", PBool true);
                ("data",
                 PDict
                   [ ("courses", PList normalized_courses);
                     ("totalCourses", PInt (count normalized_courses));
                     ("message",
                      PStr ("Retrieved " ++
                            str_of_int (count normalized_courses) ++
                            " courses successfully from MyCourses table")) ]) ])
       )%result
     end)
    (fun e =>
       Ok (PDict
             [ ("success", PBool false);
               ("error", PStr ("Failed to retrieve courses: " ++ exc_str e));
               ("function", PStr "get_all_courses") ])).

(** ** [get_courses_by_state] *)
Definition get_courses_by_state (table : Table) (params : dict) : result pyval :=
  try_except
    (state <- get (PDict params) "state" PNone ;;
     if negb (truthy state) then
       Ok (PDict
             [ ("success", PBool false);
               ("error", PStr "state parameter is required");
               ("validStates",
                PList [PStr "Completed"; PStr "In Progress";
                       PStr "Not Started"]) ])
     else
       courses <- scan_all (scan table (Some state)) [] ;;
       courses <- iterate (convert_decimals (PList courses)) ;;
       normalized_courses <- normalize_courses courses ;;
       normalized_courses <- list_sort sort_key normalized_courses ;;
       Ok (PDict
             [ ("success", PBool true);
               ("data",
                PDict
                  [ ("courses", PList normalized_courses);
                    ("totalCourses", PInt (count normalized_courses));
                    ("state", state);
                    ("message",
                     PStr ("Found " ++ str_of_int (count normalized_courses) ++
                           " courses with state: " ++ str state)) ]) ])
    )%result
    (fun e =>
       Ok (PDict
             [ ("success", PBool false);
               ("error", PStr ("Failed to filter courses by state: " ++
                               exc_str e));
               ("function", PStr "get_courses_by_state") ])).

(** ** [get_course_details] *)
Definition get_course_details (table : Table) (params : dict) : result pyval :=
  try_except
    (course_id <- get (PDict params) "courseId" PNone ;;
     if negb (truthy course_id) then
       Ok (PDict
             [ ("success", PBool false);
               ("error", PStr "courseId parameter is required") ])
     else
       response <- get_item table course_id ;;
       match response with
       | None =>
         Ok (PDict
               [ ("success", PBool true);
                 ("data",
                  PDict
                    [ ("courseId", course_id);
                      ("found", PBool false);
                      ("message",
                       PStr ("Course with ID " ++ str course_id ++
                             " not found")) ]) ])
       | Some Item =>
         let course := convert_decimals Item in
         normalized_course <- normalize_course course ;;
         Ok (PDict
               [ ("success", PBool true);
                 ("data",
                  PDict
                    [ ("courseId", course_id);
                      ("found", PBool true);
                      ("course", normalized_course);
                      ("message",
                       PStr "Course details retrieved successfully") ]) ])
       end)%result
    (fun e =>
       Ok (PDict
             [ ("success", PBool false);
               ("error", PStr ("Failed to get course details: " ++ exc_str e));
               ("function", PStr "get_course_details") ])).

(** ** [lambda_handler] *)

(** [params[name] = value].  Only the keys ['state'] and ['courseId'] are
    ever read back from [params], so an entry under a key that is not a
    string is not kept; a key that cannot be hashed raises. *)
Definition setitem (params : dict) (name value : pyval) : result dict :=
  match name with
  | PStr key => Ok (dict_set params key value)
  | PList _ | PDict _ | PSet _ =>
    Raise (TypeError ("unhashable type: '" ++ type_name name ++ "'"))
  | _ => Ok params
  end.

(** The loop [for param in parameters]; Python evaluates [param['value']]
    before [param['name']]. *)
Fixpoint collect_params (parameters : list pyval) (params : dict) : result dict :=
  match parameters with
  | [] => Ok params
  | param :: rest =>
    (value <- getitem param "value" ;;
     name <- getitem param "name" ;;
     params' <- setitem params name value ;;
     collect_params rest params')%result
  end.

Definition availablePaths : list string :=
  [ "/getAllCourses"; "/getCoursesByState"; "/getCourseDetails";
    "/getCompletedCourses"; "/getInProgressCourses"; "/getNotStartedCourses" ].

Definition lambda_handler (event : pyval) : result pyval :=
  try_except
    (match dynamodb_Table "MyCourses" with
     | Raise db_error =>
       create_error_response "Database connection failed"
                             (PStr (exc_str db_error))
     | Ok table =>
       (action_group <- get event "actionGroup" (PStr "CourseActionGroup") ;;
        api_path <- get event "apiPath" (PStr "") ;;
        http_method <- get event "httpMethod" (PStr "GET") ;;
        parameters <- get event "parameters" (PList []) ;;
        parameters <- iterate parameters ;;
        params <- collect_params parameters [] ;;
        result <-
          (if eq_str api_path "/getAllCourses" then
             get_all_courses table
           else if eq_str api_path "/getCoursesByState" then
             get_courses_by_state table params
           else if eq_str api_path "/getCourseDetails" then
             get_course_details table params
           else if eq_str api_path "/getCompletedCourses" then
             get_courses_by_state table [("state", PStr "Completed")]
           else if eq_str api_path "/getInProgressCourses" then
             get_courses_by_state table [("state", PStr "In Progress")]
           else if eq_str api_path "/getNotStartedCourses" then
             get_courses_by_state table [("state", PStr "Not Started")]
           else
             Ok (PDict
                   [ ("success", PBool false);
                     ("error", PStr ("Unknown API path: " ++ str api_path));
                     ("availablePaths", PList (map PStr availablePaths)) ])) ;;
        create_bedrock_response action_group api_path http_method result
       )%result
     end)
    (fun e =>
       let error_result :=
         PDict [ ("success", PBool false);
                 ("error", PStr ("Internal error: " ++ exc_str e));
                 ("type", PStr (exc_type e)) ] in
       (action_group <- get event "actionGroup" (PStr "CourseActionGroup") ;;
        api_path <- get event "apiPath" (PStr "") ;;
        http_method <- get event "httpMethod" (PStr "GET") ;;
        create_bedrock_response action_group api_path http_method error_result
       )%result).

End Handler.

End LambdaAction.

(* ===================================================================== *)
(** * Vocabulary of the properties *)
(* ===================================================================== *)

(** Concrete surroundings, used to run the handlers on examples. *)
Module Sample.
Import Py.

(** A rendering that shows the keys of a dict; [<] on operands that are not
    two strings is rejected. *)
Definition builtins : Builtins := {|
  repr := fun v => "<" ++ type_name v ++ ">";
  lt_other := fun a b =>
    Raise (TypeError ("'<' not supported between instances of '" ++
                      type_name a ++ "' and '" ++ type_name b ++ "'"));
  json_encode := fun v =>
    match v with
    | PDict d => "{" ++ String.concat "," (map fst d) ++ "}"
    | _ => "<" ++ type_name v ++ ">"
    end;
  json_decode := fun _ => Raise (Exception "JSONDecodeError" "Expecting value")
|}.

Definition config : LambdaCallToAgent.Config := {|
  LambdaCallToAgent.MAX_PROMPT_LENGTH := 4000;
  LambdaCallToAgent.BEDROCK_AGENT_NAME := "myagent-invoke-llm";
  LambdaCallToAgent.BEDROCK_AGENT_ID := "GENERALID";
  LambdaCallToAgent.BEDROCK_AGENT_ALIAS_ID := "GENERALALIAS";
  LambdaCallToAgent.BEDROCK_COURSEAGENT_ID := "COURSEID";
  LambdaCallToAgent.BEDROCK_COURSEAGENT_ALIAS_ID := "COURSEALIAS"
|}.

(** An event of the stream that carries the text [text]. *)
Definition text_event (text : string) : LambdaCallToAgent.Event := {|
  LambdaCallToAgent.chunk := Some {| LambdaCallToAgent.bytes := Some text |};
  LambdaCallToAgent.trace := None;
  LambdaCallToAgent.returnControl := None
|}.

(** A world in which the agent runtime answers every request with
    [stream]. *)
Definition world (stream : LambdaCallToAgent.event_stream)
  : LambdaCallToAgent.World := {|
  LambdaCallToAgent.time_time := 1700000000;
  LambdaCallToAgent.utcnow_isoformat := "2025-10-01T12:00:00.000000";
  LambdaCallToAgent.invoke_agent := fun _ =>
    Ok {| LambdaCallToAgent.completion := stream |}
|}.

Definition stream_error : exn :=
  Exception "EventStreamError" "An error occurred while reading the stream".

(** The text of a request body, [{"prompt": "How do I learn SQL?"}], and
    built-ins whose JSON decoder reads that text. *)
Definition request_text : string :=
  "{" ++ chr [34] ++ "prompt" ++ chr [34] ++ ": " ++
  chr [34] ++ "How do I learn SQL?" ++ chr [34] ++ "}".

Definition api_builtins : Builtins := {|
  repr := repr (Builtins := builtins);
  lt_other := lt_other (Builtins := builtins);
  json_encode := json_encode (Builtins := builtins);
  json_decode := fun text =>
    if String.eqb text request_text
    then Ok (PDict [("prompt", PStr "How do I learn SQL?")])
    else Raise (Exception "JSONDecodeError" "Expecting value")
|}.

(** A stored course record. *)
Definition item (id name : string) (tenths_of_hours : N) (state : string)
  : pyval :=
  PDict [ ("CourseID", PStr id);
          ("Course Name", PStr name);
          ("Duration (hours)", PDecimal (Dec false tenths_of_hours (-1)));
          ("State", PStr state) ].

(** A table of three courses, scanned in two pages. *)
Definition table : LambdaAction.Table := {|
  LambdaAction.table_status := Ok (PStr "ACTIVE");
  LambdaAction.scan := fun _ =>
    LambdaAction.ScanMore
      (Some [ item "C2" "Databases" 15 "Completed";
              item "C1" "Python" 20 "Completed" ])
      (PDict [("CourseID", PStr "C1")])
      (LambdaAction.ScanLast (Some [ item "C10" "Cloud" 5 "Completed" ]));
  LambdaAction.get_item := fun key =>
    if eq_str key "C1" then Ok (Some (item "C1" "Python" 20 "Completed"))
    else Ok None
|}.

Definition table_world : LambdaAction.World := {|
  LambdaAction.dynamodb_Table := fun _ => Ok table
|}.

(** A table whose scan fails on its second page, and whose lookups fail. *)
Definition failing_table : LambdaAction.Table := {|
  LambdaAction.table_status := Ok (PStr "ACTIVE");
  LambdaAction.scan := fun _ =>
    LambdaAction.ScanMore
      (Some [ item "C2" "Databases" 15 "Completed" ])
      (PDict [("CourseID", PStr "C2")])
      (LambdaAction.ScanRaises
         (Exception "ClientError" "ProvisionedThroughputExceededException"));
  LambdaAction.get_item := fun _ =>
    Raise (Exception "ClientError" "ProvisionedThroughputExceededException")
|}.

(** A table whose status cannot be read. *)
Definition missing_table : LambdaAction.Table := {|
  LambdaAction.table_status :=
    Raise (Exception "ClientError" "ResourceNotFoundException");
  LambdaAction.scan := fun _ => LambdaAction.ScanLast None;
  LambdaAction.get_item := fun _ => Ok None
|}.

(** A table without records. *)
Definition empty_table : LambdaAction.Table := {|
  LambdaAction.table_status := Ok (PStr "ACTIVE");
  LambdaAction.scan := fun _ => LambdaAction.ScanLast (Some []);
  LambdaAction.get_item := fun _ => Ok None
|}.

(** A world in which the table resource cannot be obtained. *)
Definition unreachable_world : LambdaAction.World := {|
  LambdaAction.dynamodb_Table := fun _ =>
    Raise (Exception "NoRegionError" "You must specify a region.")
|}.

(** A world whose table fails its scans and its lookups. *)
Definition failing_world : LambdaAction.World := {|
  LambdaAction.dynamodb_Table := fun _ => Ok failing_table
|}.

(** The three records of the sample table as they are returned: in the
    order of their identifiers as strings, ["C10"] before ["C2"], and with
    their durations 2.0, 0.5 and 1.5 as floats. *)
Definition courses : list pyval :=
  [ PDict [ ("CourseID", PStr "C1"); ("CourseName", PStr "Python");
            ("Duration", PFloat (S754_finite false 4503599627370496 (-51)));
            ("State", PStr "Completed") ];
    PDict [ ("CourseID", PStr "C10"); ("CourseName", PStr "Cloud");
            ("Duration", PFloat (S754_finite false 4503599627370496 (-53)));
            ("State", PStr "Completed") ];
    PDict [ ("CourseID", PStr "C2"); ("CourseName", PStr "Databases");
            ("Duration", PFloat (S754_finite false 6755399441055744 (-52)));
            ("State", PStr "Completed") ] ].

End Sample.

(** ** AgentRouter *)
Module AgentRouterSpec.
Import Py LambdaCallToAgent.

(** The lower-cased prompt contains a keyword of the given set. *)
Definition has_keyword (keywords : list string) (prompt : string) : Prop :=
  exists keyword,
    In keyword keywords /\ contains keyword (lower prompt) = true.

(** The lower-cased prompt contains a phrase of the course-related set. *)
Definition mentions_course (prompt : string) : Prop :=
  has_keyword mycourse_keywords prompt.

(** The stream that yields [events] and goes on as [rest]. *)
Fixpoint yield_all (events : list Event) (rest : event_stream) : event_stream :=
  match events with
  | [] => rest
  | event :: events' => Yields event (yield_all events' rest)
  end.

(** The payload of a text-bearing event: one with a ['chunk'] that has
    ['bytes']. *)
Definition payload (event : Event) : option string :=
  match chunk event with
  | Some c => bytes c
  | None => None
  end.

(** The texts of the text-bearing events among [events], in the order of
    emission; [None] when a payload is not valid UTF-8. *)
Fixpoint chunk_texts (events : list Event) : option (list string) :=
  match events with
  | [] => Some []
  | event :: events' =>
    match payload event with
    | None => chunk_texts events'
    | Some b =>
      match decode_utf8 b, chunk_texts events' with
      | Ok text, Some texts => Some (text :: texts)
      | _, _ => None
      end
    end
  end.

Definition concatenation (texts : list string) : string :=
  String.concat "" texts.

Section WithSurroundings.
Context {builtins : Builtins} {config : Config} {world : World}.

(** The agent runtime is called once for [prompt], and answers with the
    stream [stream]. *)
Definition answered_by (prompt : string) (session_id : pyval)
           (stream : event_stream) : Prop :=
  exists request,
    snd (generate_ai_response_with_agent prompt session_id) = [request] /\
    invoke_agent request = Ok {| completion := stream |}.

(** The identifiers of the two agents. *)
Definition general_agent (request : invoke_request) : Prop :=
  agentId request = BEDROCK_AGENT_ID /\
  agentAliasId request = BEDROCK_AGENT_ALIAS_ID.

Definition course_agent (request : invoke_request) : Prop :=
  agentId request = BEDROCK_COURSEAGENT_ID /\
  agentAliasId request = BEDROCK_COURSEAGENT_ALIAS_ID.

(** The body of a response with status ["success"] that carries the
    identifiers of the general-purpose agent. *)
Definition success_body (message session_id : pyval) : pyval :=
  PDict [ ("response", message);
          ("sessionId", session_id);
          ("timestamp", PStr utcnow_isoformat);
          ("status", PStr "success");
          ("agent",
           PDict [ ("name", PStr BEDROCK_AGENT_NAME);
                   ("id", PStr BEDROCK_AGENT_ID);
                   ("aliasId", PStr BEDROCK_AGENT_ALIAS_ID) ]) ].

(** The body of the error envelope. *)
Definition error_body (error_message : string) : pyval :=
  PDict [ ("error", PStr error_message);
          ("timestamp", PStr utcnow_isoformat);
          ("status", PStr "error");
          ("agent",
           PDict [ ("name", PStr BEDROCK_AGENT_NAME);
                   ("id", PStr BEDROCK_AGENT_ID);
                   ("aliasId", PStr BEDROCK_AGENT_ALIAS_ID) ]) ].

(** A response of the handler with the given status code and body object. *)
Definition http_response (status_code : Z) (body : pyval) : pyval :=
  PDict [ ("statusCode", PInt status_code);
          ("headers", headers);
          ("body", PStr (json_encode body)) ].

Definition preflight_response : pyval :=
  http_response 200 (PDict [("message", PStr "CORS preflight successful")]).

(** The status code of a response. *)
Definition status_code (response : pyval) : option pyval :=
  match response with
  | PDict d => dict_get d "statusCode"
  | _ => None
  end.

(** The text [generate_ai_response_with_agent] makes of what the agent
    runtime answered. *)
Definition answer_text (outcome : result invoke_response) : string :=
  match outcome with
  | Raise _ => get_fallback_response
  | Ok response =>
    let text := strip (fst (for_event_in (completion response) "")) in
    if String.eqb text "" then get_fallback_response else text
  end.

(** The event, a dict, is a CORS preflight: its ['httpMethod'] is
    ['OPTIONS']. *)
Definition preflight (ev : dict) : bool :=
  match dict_get ev "httpMethod" with
  | Some method => eq_str method "OPTIONS"
  | None => false
  end.

(** The session id of a request body: its ['sessionId'], or the id made
    from the clock. *)
Definition session_of (d : dict) : pyval :=
  match dict_get d "sessionId" with
  | Some session_id => session_id
  | None => PStr ("session_" ++ str_of_int time_time)
  end.

(** The event is not a preflight and its body parses to [body]. *)
Definition carries (event body : pyval) : Prop :=
  (exists ev, event = PDict ev /\ preflight ev = false) /\
  parse_request_body event = Ok body.

(** The event carries the JSON object [d], whose prompt [p] passes
    [validate_request]. *)
Definition valid_request (event : pyval) (d : dict) (p : string) : Prop :=
  carries event (PDict d) /\
  dict_get d "prompt" = Some (PStr p) /\
  validate_request (PDict d) = Ok (true, PNone) /\
  not_serializable (PDict d) = None.

(** The redirect that names no topic: the one for a prompt without any
    keyword, with the words "that topic". *)
Definition generic_redirect : string := generate_off_topic_response "".

(** The handler answers [event] with a response of the given status and
    body object, after sending [sent] to the agent runtime. *)
Definition answers (event : pyval) (status : Z) (body : pyval)
           (sent : list invoke_request) : Prop :=
  lambda_handler event = (Ok (http_response status body), sent).

End WithSurroundings.

End AgentRouterSpec.

(** ** CourseQueryService *)
Module CourseQuerySpec.
Import Py LambdaAction.

(** The six read operations. *)
Inductive query :=
| GetAllCourses
| GetCoursesByState (params : dict)
| GetCourseDetails (params : dict)
| GetCompletedCourses
| GetInProgressCourses
| GetNotStartedCourses.

(** The operation [lambda_handler] runs for a path, if the path is one of
    the six supported ones. *)
Definition route (api_path : pyval) (params : dict) : option query :=
  if eq_str api_path "/getAllCourses" then Some GetAllCourses
  else if eq_str api_path "/getCoursesByState" then
    Some (GetCoursesByState params)
  else if eq_str api_path "/getCourseDetails" then
    Some (GetCourseDetails params)
  else if eq_str api_path "/getCompletedCourses" then Some GetCompletedCourses
  else if eq_str api_path "/getInProgressCourses" then Some GetInProgressCourses
  else if eq_str api_path "/getNotStartedCourses" then Some GetNotStartedCourses
  else None.

(** [api_path] is one of the six supported paths. *)
Definition supported (api_path : pyval) : Prop :=
  exists path, In path availablePaths /\ api_path = PStr path.

(** The value of a key of a dict object. *)
Definition field (obj : pyval) (key : string) : option pyval :=
  match obj with
  | PDict d => dict_get d key
  | _ => None
  end.

(** [event.get(key, default)] when [event] is a dict. *)
Definition event_field (event : pyval) (key : string) (default : pyval) : pyval :=
  match field event key with
  | Some v => v
  | None => default
  end.

(** The items of the pages of a scan, up to its end or its failure. *)
Fixpoint scanned_items (response : scan_run) : list pyval :=
  match response with
  | ScanRaises _ => []
  | ScanLast Items => items_of Items
  | ScanMore Items _ next => (items_of Items ++ scanned_items next)%list
  end.

(** The course list of a successful result. *)
Definition returned_courses (outcome : result pyval) : option (list pyval) :=
  match outcome with
  | Ok result =>
    match field result "success", field result "data" with
    | Some (PBool true), Some data =>
      match field data "courses" with
      | Some (PList courses) => Some courses
      | _ => None
      end
    | _, _ => None
    end
  | Raise _ => None
  end.

(** The course records of a result: those of its course list, or its single
    course. *)
Definition returned_records (outcome : result pyval) : list pyval :=
  match outcome with
  | Ok result =>
    match field result "data" with
    | Some data =>
      match field data "courses", field data "course" with
      | Some (PList courses), _ => courses
      | _, Some course => [course]
      | _, _ => []
      end
    | None => []
    end
  | Raise _ => []
  end.

(** The identifier of a returned course is a string. *)
Definition has_string_id (course : pyval) : Prop :=
  exists id, field course "CourseID" = Some (PStr id).

(** Order of two returned courses by identifier, as strings. *)
Definition id_le (a b : pyval) : Prop :=
  exists s t,
    field a "CourseID" = Some (PStr s) /\
    field b "CourseID" = Some (PStr t) /\
    String.leb s t = true.

(** [course] gives the duration of the stored [item] as a float when the
    item holds it as a decimal, and never gives a decimal. *)
Definition duration_converted (item course : pyval) : Prop :=
  (forall d, field item "Duration (hours)" = Some (PDecimal d) ->
             field course "Duration" = Some (PFloat (float d))) /\
  (forall d, field course "Duration" <> Some (PDecimal d)).

(** The exception that ends a scan, if one of its calls raises. *)
Fixpoint scan_failure (response : scan_run) : option exn :=
  match response with
  | ScanRaises e => Some e
  | ScanLast _ => None
  | ScanMore _ _ next => scan_failure next
  end.

(** The status code of an envelope. *)
Definition http_status (response : pyval) : option pyval :=
  match field response "response" with
  | Some inner => field inner "httpStatusCode"
  | None => None
  end.

(** The value holds no decimal, sets apart: [convert_decimals] does not look
    into sets. *)
Fixpoint decimal_free (v : pyval) : bool :=
  match v with
  | PDecimal _ => false
  | PList l => forallb decimal_free l
  | PDict d => forallb (fun kv => decimal_free (snd kv)) d
  | _ => true
  end.

(** A parameter of an event, as the agent framework sends it. *)
Definition parameter (name type : string) (value : pyval) : pyval :=
  PDict [ ("name", PStr name); ("type", PStr type); ("value", value) ].

Section WithSurroundings.
Context {builtins : Builtins} {world : World}.

Definition run (table : Table) (q : query) : result pyval :=
  match q with
  | GetAllCourses => get_all_courses table
  | GetCoursesByState params => get_courses_by_state table params
  | GetCourseDetails params => get_course_details table params
  | GetCompletedCourses =>
    get_courses_by_state table [("state", PStr "Completed")]
  | GetInProgressCourses =>
    get_courses_by_state table [("state", PStr "In Progress")]
  | GetNotStartedCourses =>
    get_courses_by_state table [("state", PStr "Not Started")]
  end.

(** The stored records a query reads. *)
Definition scanned_by_state (table : Table) (params : dict) : list pyval :=
  match dict_get params "state" with
  | Some state => scanned_items (scan table (Some state))
  | None => []
  end.

Definition stored_records (table : Table) (q : query) : list pyval :=
  match q with
  | GetAllCourses => scanned_items (scan table None)
  | GetCoursesByState params => scanned_by_state table params
  | GetCourseDetails params =>
    match dict_get params "courseId" with
    | Some course_id =>
      match get_item table course_id with
      | Ok (Some Item) => [Item]
      | _ => []
      end
    | None => []
    end
  | GetCompletedCourses =>
    scanned_by_state table [("state", PStr "Completed")]
  | GetInProgressCourses =>
    scanned_by_state table [("state", PStr "In Progress")]
  | GetNotStartedCourses =>
    scanned_by_state table [("state", PStr "Not Started")]
  end.

(** The parameters [lambda_handler] collects from the event. *)
Definition event_params (event : pyval) : result dict :=
  (parameters <- get event "parameters" (PList []) ;;
   parameters <- iterate parameters ;;
   collect_params parameters [])%result.

(** The result for a path that is not supported. *)
Definition unknown_path_result (api_path : pyval) : pyval :=
  PDict
    [ ("success", PBool false);
      ("error", PStr ("Unknown API path: " ++ str api_path));
      ("availablePaths",
       PList [ PStr "/getAllCourses"; PStr "/getCoursesByState";
               PStr "/getCourseDetails"; PStr "/getCompletedCourses";
               PStr "/getInProgressCourses"; PStr "/getNotStartedCourses" ]) ].

(** The result for a course that is not in the table. *)
Definition not_found_result (course_id : pyval) : pyval :=
  PDict
    [ ("success", PBool true);
      ("data",
       PDict
         [ ("courseId", course_id);
           ("found", PBool false);
           ("message",
            PStr ("Course with ID " ++ str course_id ++ " not found")) ]) ].

(** The envelope handed to the Bedrock agent. *)
Definition envelope (action_group api_path http_method : pyval)
           (status_code : Z) (result : pyval) : pyval :=
  PDict
    [ ("messageVersion", PStr "1.0");
      ("response",
       PDict
         [ ("actionGroup", action_group);
           ("apiPath", api_path);
           ("httpMethod", http_method);
           ("httpStatusCode", PInt status_code);
           ("responseBody",
            PDict
              [ ("application/json",
                 PDict [ ("body", PStr (json_encode result)) ]) ]) ]) ].

(** The envelope for an event, with the action group, path and method of
    the event or their defaults. *)
Definition bedrock_response (event : pyval) (status_code : Z) (result : pyval)
  : pyval :=
  envelope (event_field event "actionGroup" (PStr "CourseActionGroup"))
           (event_field event "apiPath" (PStr ""))
           (event_field event "httpMethod" (PStr "GET"))
           status_code result.

(** The status code of the envelope for a result. *)
Definition status_of (result : pyval) : Z :=
  match field result "success" with
  | Some success => if truthy success then 200 else 400
  | None => 400
  end.

(** The value of a field of a normalized record: the converted value of
    the stored field, or the empty string when the stored record lacks the
    field. *)
Definition normalized_field (item : dict) (key : string) : pyval :=
  match dict_get item key with
  | Some v => convert_decimals v
  | None => PStr ""
  end.

(** The record returned for a stored item. *)
Definition normalized (item : dict) : pyval :=
  PDict [ ("CourseID", normalized_field item "CourseID");
          ("CourseName", normalized_field item "Course Name");
          ("Duration", normalized_field item "Duration (hours)");
          ("State", normalized_field item "State") ].

(** The result of a query that failed with [e]: [text] says what failed,
    [function] where. *)
Definition failure_result (text function : string) (e : exn) : pyval :=
  PDict [ ("success", PBool false);
          ("error", PStr (text ++ exc_str e));
          ("function", PStr function) ].

(** The result of the handler when its [try] block raised [e]. *)
Definition internal_error_result (e : exn) : pyval :=
  PDict [ ("success", PBool false);
          ("error", PStr ("Internal error: " ++ exc_str e));
          ("type", PStr (exc_type e)) ].

(** The response of the handler when the table resource cannot be
    obtained. *)
Definition connection_failure_response (db_error : exn) : pyval :=
  envelope (PStr "CourseActionGroup") (PStr "/error") (PStr "GET") 500
           (PDict [ ("success", PBool false);
                    ("error", PStr "Database connection failed");
                    ("details", PStr (exc_str db_error)) ]).

(** The successful result of [get_all_courses] with the given courses. *)
Definition all_courses_result (courses : list pyval) : pyval :=
  PDict
    [ ("success", PBool true);
      ("data",
       PDict
         [ ("courses", PList courses);
           ("totalCourses", PInt (count courses));
           ("message",
            PStr ("Retrieved " ++ str_of_int (count courses) ++
                  " courses successfully from MyCourses table")) ]) ].

(** The successful result of [get_courses_by_state] with the given
    courses. *)
Definition courses_by_state_result (state : pyval) (courses : list pyval)
  : pyval :=
  PDict
    [ ("success", PBool true);
      ("data",
       PDict
         [ ("courses", PList courses);
           ("totalCourses", PInt (count courses));
           ("state", state);
           ("message",
            PStr ("Found " ++ str_of_int (count courses) ++
                  " courses with state: " ++ str state)) ]) ].

(** The result for a course that is in the table. *)
Definition found_result (course_id course : pyval) : pyval :=
  PDict
    [ ("success", PBool true);
      ("data",
       PDict
         [ ("courseId", course_id);
           ("found", PBool true);
           ("course", course);
           ("message", PStr "Course details retrieved successfully") ]) ].

(** The results for a missing parameter. *)
Definition state_required_result : pyval :=
  PDict
    [ ("success", PBool false);
      ("error", PStr "state parameter is required");
      ("validStates",
       PList [PStr "Completed"; PStr "In Progress"; PStr "Not Started"]) ].

Definition course_id_required_result : pyval :=
  PDict
    [ ("success", PBool false);
      ("error", PStr "courseId parameter is required") ].

(** The parameter [key] is missing from [params], or empty. *)
Definition missing (params : dict) (key : string) : Prop :=
  forall v, dict_get params key = Some v -> truthy v = false.


(** The result of a list query over the scan [response]: a result without
    course list, or the list that was scanned, converted, normalized and
    sorted. *)
Definition listing (response : scan_run) (result : pyval) : Prop :=
  field result "success" = Some (PBool false) /\ field result "data" = None \/
  exists normalized courses data,
    normalize_courses (map convert_decimals (scanned_items response)) =
      Ok normalized /\
    list_sort sort_key normalized = Ok courses /\
    field result "success" = Some (PBool true) /\
    field result "data" = Some data /\
    field data "courses" = Some (PList courses) /\
    field data "course" = None.

End WithSurroundings.

(** Keys of [list.sort]: a key that is a string, and the order of two
    string keys. *)
Definition string_key (kx : pyval * pyval) : Prop :=
  exists s, fst kx = PStr s.

Definition key_le (kx ky : pyval * pyval) : Prop :=
  exists s t, fst kx = PStr s /\ fst ky = PStr t /\ String.leb s t = true.

End CourseQuerySpec.

(* ===================================================================== *)
(** * Properties of the AgentRouter handler *)
(* ===================================================================== *)

Module AgentRouter.
Import Py LambdaCallToAgent AgentRouterSpec.

Lemma existsb_keyword (keywords : list string) (prompt : string) :
  existsb (fun keyword => contains keyword (lower prompt)) keywords = true <->
  has_keyword keywords prompt.
Proof.
  unfold has_keyword. rewrite existsb_exists. reflexivity.
Qed.

Section WithSurroundings.
Context {builtins : Builtins} {config : Config} {world : World}.

(** *** The classifier *)

(** C2.  A prompt whose lower-cased text contains a non-technical keyword
    and a technical keyword is rejected as off-topic: [is_technical_query]
    returns [False], the non-technical match wins. *)
Theorem non_technical_keyword_wins (prompt : string) :
  has_keyword non_technical_keywords prompt ->
  has_keyword technical_keywords prompt ->
  is_technical_query prompt = false.
Proof.
  intros Hnon _. unfold is_technical_query.
  apply existsb_keyword in Hnon. rewrite Hnon. reflexivity.
Qed.

(** *** The agent selector and the aggregator *)

(** What [generate_ai_response_with_agent] does: one request goes to the
    agent runtime, for the course agent when the prompt mentions a course
    phrase and for the general agent otherwise, and the text returned is
    made from the answer to that request. *)
Lemma generate_ai_response_cases (prompt : string) (session_id : pyval) :
  exists request,
    generate_ai_response_with_agent prompt session_id =
      (Ok (answer_text (invoke_agent request)), [request]) /\
    inputText request = prompt /\
    sessionId request = session_id /\
    (mentions_course prompt /\ course_agent request \/
     ~ mentions_course prompt /\ general_agent request).
Proof.
  unfold generate_ai_response_with_agent.
  destruct (existsb (fun keyword => contains keyword (lower prompt))
                    mycourse_keywords) eqn:Hany;
    [ exists {| agentId := BEDROCK_COURSEAGENT_ID;
                agentAliasId := BEDROCK_COURSEAGENT_ALIAS_ID;
                sessionId := session_id; inputText := prompt;
                enableTrace := false; endSession := false |}
    | exists {| agentId := BEDROCK_AGENT_ID;
                agentAliasId := BEDROCK_AGENT_ALIAS_ID;
                sessionId := session_id; inputText := prompt;
                enableTrace := false; endSession := false |} ].
  all: split; [ | split; [ reflexivity | split; [ reflexivity | ] ] ].
  all: try match goal with
       | |- _ \/ _ =>
         first [ left; split; [ apply existsb_keyword; exact Hany
                              | split; reflexivity ]
               | right; split; [ intros H; apply existsb_keyword in H;
                                 unfold has_keyword in H; congruence
                               | split; reflexivity ] ]
       end.
  all: unfold call_invoke_agent, try_exceptM, bindM, answer_text; cbn [fst snd].
  all: match goal with
       | |- context [invoke_agent ?r] => destruct (invoke_agent r) as [response|e]
       end.
  all: try (destruct (String.eqb (exc_type e) "ClientError"); reflexivity).
  all: destruct (for_event_in (completion response) "") as [ai_response [err|]];
       cbn [fst]; destruct (String.eqb (strip ai_response) ""); reflexivity.
Qed.

(** C3.  [generate_ai_response_with_agent], which the handler runs for the
    on-topic prompts, sends the prompt to the course-specialized agent when
    the lower-cased prompt contains one of the course phrases, and to the
    general-purpose agent when it contains none. *)
Theorem agent_selected_by_course_phrase (prompt : string) (session_id : pyval) :
  exists request,
    snd (generate_ai_response_with_agent prompt session_id) = [request] /\
    inputText request = prompt /\
    (mentions_course prompt /\ course_agent request \/
     ~ mentions_course prompt /\ general_agent request).
Proof.
  destruct (generate_ai_response_cases prompt session_id)
    as (request & Hrun & Htext & _ & Hagent).
  exists request. rewrite Hrun. auto.
Qed.

(** The loop over a stream that first yields [events]: when their payloads
    decode, the loop goes on after them with their texts appended. *)
Lemma for_event_in_yield_all (events : list Event) (rest : event_stream) :
  forall (texts : list string) (ai_response : string),
    chunk_texts events = Some texts ->
    for_event_in (yield_all events rest) ai_response =
    for_event_in rest (ai_response ++ concatenation texts).
Proof.
  assert (Hnil : forall s : string, s ++ "" = s).
  { induction s as [|c s IH]; simpl; [ | rewrite IH ]; reflexivity. }
  assert (Hassoc : forall s t u : string, (s ++ t) ++ u = s ++ t ++ u).
  { induction s as [|c s IH]; simpl; intros; [ | rewrite IH ]; reflexivity. }
  assert (Hcons : forall t ts, concatenation (t :: ts) = t ++ concatenation ts).
  { intros t [|t' ts]; unfold concatenation; simpl;
      [ rewrite Hnil | ]; reflexivity. }
  induction events as [|event events IH]; intros texts ai_response Htexts.
  - injection Htexts as <-. simpl. unfold concatenation. simpl.
    rewrite Hnil. reflexivity.
  - simpl in Htexts. simpl. unfold payload in Htexts.
    destruct (chunk event) as [c|].
    + destruct (bytes c) as [b|].
      * destruct (decode_utf8 b) as [text|e]; [ | discriminate ].
        destruct (chunk_texts events) as [texts'|]; [ | discriminate ].
        injection Htexts as <-.
        rewrite (IH texts' _ eq_refl), Hcons, Hassoc. reflexivity.
      * apply IH. exact Htexts.
    + destruct (trace event); [ | destruct (returnControl event) ];
        apply IH; exact Htexts.
Qed.

(** The text returned when the agent runtime answers with a stream that
    yields [events] and then stops, by exhaustion or by an exception. *)
Lemma answer_of_stream (prompt : string) (session_id : pyval)
      (events : list Event) (texts : list string) (rest : event_stream) :
  (rest = Exhausted \/ exists e, rest = Raises e) ->
  chunk_texts events = Some texts ->
  answered_by prompt session_id (yield_all events rest) ->
  fst (generate_ai_response_with_agent prompt session_id) =
  Ok (if String.eqb (strip (concatenation texts)) ""
      then get_fallback_response
      else strip (concatenation texts)).
Proof.
  intros Hrest Htexts (request & Hsent & Hanswer).
  destruct (generate_ai_response_cases prompt session_id)
    as (request' & Hrun & _).
  rewrite Hrun in Hsent |- *. cbn [fst snd] in *.
  injection Hsent as ->. rewrite Hanswer. unfold answer_text. cbn [completion].
  rewrite (for_event_in_yield_all events rest texts "" Htexts).
  destruct Hrest as [-> | [e ->]]; reflexivity.
Qed.

(** C4, as amended.  When the stream yields at least one text-bearing chunk
    and then raises: if the text received before the fault is not made of
    whitespace only, the aggregator returns the concatenation of the chunk
    texts, in the order of emission, stripped of surrounding whitespace; if
    it is made of whitespace only, the aggregator returns the fallback
    message. *)
Theorem partial_text_is_returned (prompt : string) (session_id : pyval)
        (events : list Event) (texts : list string) (fault : exn) :
  chunk_texts events = Some texts ->
  texts <> [] ->
  answered_by prompt session_id (yield_all events (Raises fault)) ->
  (strip (concatenation texts) <> "" ->
   fst (generate_ai_response_with_agent prompt session_id) =
   Ok (strip (concatenation texts))) /\
  (strip (concatenation texts) = "" ->
   fst (generate_ai_response_with_agent prompt session_id) =
   Ok get_fallback_response).
Proof.
  intros Htexts _ Hanswer.
  rewrite (answer_of_stream prompt session_id events texts (Raises fault)); eauto.
  split; intros Htext.
  - destruct (String.eqb_spec (strip (concatenation texts)) ""); congruence.
  - rewrite Htext. reflexivity.
Qed.

(** C5.  When the stream ends normally and the text-bearing chunks, if any,
    add up to nothing but whitespace, or when the stream raises before any
    text-bearing chunk was received, the aggregator returns the fallback
    message. *)
Theorem fallback_when_no_text (prompt : string) (session_id : pyval)
        (events : list Event) (rest : event_stream) :
  (rest = Exhausted /\
   exists texts, chunk_texts events = Some texts /\
                 strip (concatenation texts) = "") \/
  ((exists fault, rest = Raises fault) /\ chunk_texts events = Some []) ->
  answered_by prompt session_id (yield_all events rest) ->
  fst (generate_ai_response_with_agent prompt session_id) =
  Ok get_fallback_response.
Proof.
  intros [[-> (texts & Htexts & Hblank)] | [[fault ->] Htexts]] Hanswer.
  - rewrite (answer_of_stream prompt session_id events texts Exhausted); auto.
    rewrite Hblank. reflexivity.
  - rewrite (answer_of_stream prompt session_id events [] (Raises fault)); eauto.
Qed.

(** *** The responses of the handler *)

Lemma bindM_Ok {A B : Type} (c : M A) (k : A -> M B) (b : B)
      (sent : list invoke_request) :
  bindM c k = (Ok b, sent) ->
  exists a sent1 sent2, c = (Ok a, sent1) /\ k a = (Ok b, sent2).
Proof.
  unfold bindM. destruct c as [[a|e] sent1]; [ | discriminate ].
  destruct (k a) as [r sent2] eqn:Hk. intros H. injection H as -> _.
  exists a, sent1, sent2. auto.
Qed.

Lemma lift_Ok {A : Type} (c : result A) (a : A) (sent : list invoke_request) :
  lift c = (Ok a, sent) -> c = Ok a.
Proof. unfold lift. congruence. Qed.

Lemma create_error_response_shape (error_message : pyval) (status_code : Z)
      (response : pyval) :
  create_error_response error_message headers status_code = Ok response ->
  exists body,
    response = PDict [ ("statusCode", PInt status_code);
                       ("headers", headers);
                       ("body", PStr body) ].
Proof.
  unfold create_error_response, bind.
  destruct (json_dumps _) as [body|e]; [ | discriminate ].
  intros H. injection H as <-. exists body. reflexivity.
Qed.

Lemma create_error_response_str (error_message : string) (status_code : Z) :
  create_error_response (PStr error_message) headers status_code =
  Ok (PDict [ ("statusCode", PInt status_code);
              ("headers", headers);
              ("body", PStr (json_encode (error_body error_message))) ]).
Proof. reflexivity. Qed.

Lemma create_success_response_shape (message session_id response : pyval) :
  create_success_response message session_id headers = Ok response ->
  response = http_response 200 (success_body message session_id).
Proof.
  unfold create_success_response, json_dumps, bind.
  destruct (not_serializable _); [ discriminate | ].
  intros H. injection H as <-. reflexivity.
Qed.

(** The responses the [try] block of the handler returns. *)
Lemma lambda_handler_try_shape (event response : pyval)
      (sent : list invoke_request) :
  lambda_handler_try event = (Ok response, sent) ->
  response = preflight_response \/
  (exists message session_id,
      response = http_response 200 (success_body message session_id)) \/
  (exists body,
      response = PDict [ ("statusCode", PInt 400);
                         ("headers", headers);
                         ("body", PStr body) ]).
Proof.
  unfold lambda_handler_try. intros H.
  apply bindM_Ok in H. destruct H as (method & ? & ? & _ & H).
  destruct (eq_str method "OPTIONS").
  { left. cbn in H. injection H as <- _. reflexivity. }
  apply bindM_Ok in H. destruct H as (body & ? & ? & _ & H).
  destruct (negb (truthy body)).
  { right; right. apply lift_Ok in H.
    exact (create_error_response_shape _ _ _ H). }
  apply bindM_Ok in H. destruct H as ([is_valid error_message] & ? & ? & _ & H).
  destruct (negb is_valid).
  { right; right. apply lift_Ok in H.
    exact (create_error_response_shape _ _ _ H). }
  apply bindM_Ok in H. destruct H as (p & ? & ? & _ & H).
  apply bindM_Ok in H. destruct H as (prompt & ? & ? & _ & H).
  apply bindM_Ok in H. destruct H as (session_id & ? & ? & _ & H).
  right; left.
  destruct (negb (is_technical_query prompt)).
  - apply lift_Ok in H. eexists _, _.
    exact (create_success_response_shape _ _ _ H).
  - apply bindM_Ok in H. destruct H as (ai_response & ? & ? & _ & H).
    apply lift_Ok in H. eexists _, _.
    exact (create_success_response_shape _ _ _ H).
Qed.

(** C1.  Whatever the event, [lambda_handler] returns a response: when an
    exception is raised while the request is handled, the [except] clause
    of the handler turns it into the response of status 500 whose body holds
    the fields [error], [timestamp], [status: "error"] and [agent];
    otherwise the response is the one the [try] block returned. *)
Theorem unexpected_errors_become_500 (event : pyval) :
  exists response,
    fst (lambda_handler event) = Ok response /\
    match fst (lambda_handler_try event) with
    | Ok returned => response = returned
    | Raise _ =>
      response =
      http_response 500
        (error_body "An unexpected error occurred. Please try again later.")
    end.
Proof.
  unfold lambda_handler, try_exceptM.
  destruct (lambda_handler_try event) as [[returned|e] sent]; cbn [fst].
  - exists returned. auto.
  - rewrite create_error_response_str. cbn. eexists. split; reflexivity.
Qed.


End WithSurroundings.
(** *** The properties at concrete inputs *)

Lemma non_technical_keyword_wins_witness :
  has_keyword non_technical_keywords "Python recipe" /\
  has_keyword technical_keywords "Python recipe" /\
  is_technical_query "Python recipe" = false.
Proof.
  assert (Hnon : has_keyword non_technical_keywords "Python recipe").
  { exists "recipe". split; [ simpl; tauto | reflexivity ]. }
  assert (Htech : has_keyword technical_keywords "Python recipe").
  { exists "python". split; [ simpl; tauto | reflexivity ]. }
  exact (conj Hnon (conj Htech
           (non_technical_keyword_wins "Python recipe" Hnon Htech))).
Defined.

(** A prompt about the user's courses goes to the course agent, another
    technical prompt to the general agent. *)
Example course_prompt_goes_to_course_agent :
  snd (generate_ai_response_with_agent
         (config := Sample.config) (world := Sample.world Exhausted)
         "Show MY COURSE list" (PStr "s1")) =
  [ {| agentId := "COURSEID"; agentAliasId := "COURSEALIAS";
       sessionId := PStr "s1"; inputText := "Show MY COURSE list";
       enableTrace := false; endSession := false |} ].
Proof. reflexivity. Qed.

Example other_prompt_goes_to_general_agent :
  snd (generate_ai_response_with_agent
         (config := Sample.config) (world := Sample.world Exhausted)
         "Which course teaches Python?" (PStr "s1")) =
  [ {| agentId := "GENERALID"; agentAliasId := "GENERALALIAS";
       sessionId := PStr "s1"; inputText := "Which course teaches Python?";
       enableTrace := false; endSession := false |} ].
Proof. reflexivity. Qed.

Lemma partial_text_is_returned_witness :
  let events := [Sample.text_event " Learn "; Sample.text_event "SQL first.  "] in
  let stream := yield_all events (Raises Sample.stream_error) in
  fst (generate_ai_response_with_agent
         (config := Sample.config) (world := Sample.world stream)
         "how do I learn sql" (PStr "s1")) =
  Ok "Learn SQL first.".
Proof.
  intros events stream.
  refine (proj1 (partial_text_is_returned
                   (config := Sample.config) (world := Sample.world stream)
                   "how do I learn sql" (PStr "s1") events
                   [" Learn "; "SQL first.  "] Sample.stream_error _ _ _) _).
  - reflexivity.
  - discriminate.
  - eexists. split; reflexivity.
  - vm_compute. discriminate.
Defined.

(** C4 as stated fails: a chunk of whitespace followed by a fault is a
    text-bearing chunk followed by a fault, and the aggregator answers with
    the fallback message, not with the stripped text. *)
Lemma partial_whitespace_counterexample :
  ~ (forall (config : Config) (world : World)
            (prompt : string) (session_id : pyval)
            (events : list Event) (texts : list string) (fault : exn),
        chunk_texts events = Some texts ->
        texts <> [] ->
        answered_by prompt session_id (yield_all events (Raises fault)) ->
        fst (generate_ai_response_with_agent prompt session_id) =
        Ok (strip (concatenation texts))).
Proof.
  intros claim.
  pose (events := [Sample.text_event " "]).
  pose (stream := yield_all events (Raises Sample.stream_error)).
  assert (H : fst (generate_ai_response_with_agent
                     (config := Sample.config) (world := Sample.world stream)
                     "how do I learn sql" (PStr "s1")) = Ok "").
  { apply (claim Sample.config (Sample.world stream)
                 "how do I learn sql" (PStr "s1") events [" "]
                 Sample.stream_error).
    - reflexivity.
    - discriminate.
    - eexists. split; reflexivity. }
  vm_compute in H. discriminate H.
Qed.

Lemma fallback_when_no_text_witness :
  fst (generate_ai_response_with_agent
         (config := Sample.config)
         (world := Sample.world (Raises Sample.stream_error))
         "how do I learn sql" (PStr "s1")) =
  Ok get_fallback_response.
Proof.
  refine (fallback_when_no_text
            (config := Sample.config)
            (world := Sample.world (Raises Sample.stream_error))
            "how do I learn sql" (PStr "s1") [] (Raises Sample.stream_error)
            _ _).
  - right. split; [ eexists | ]; reflexivity.
  - eexists. split; reflexivity.
Defined.

(** A stream that ends normally after whitespace only also gives the
    fallback message. *)
Example blank_stream_gives_fallback :
  fst (generate_ai_response_with_agent
         (config := Sample.config)
         (world := Sample.world (Yields (Sample.text_event "  ") Exhausted))
         "how do I learn sql" (PStr "s1")) =
  Ok get_fallback_response.
Proof. reflexivity. Qed.

(** A prompt that is not a string makes the [try] block raise; the handler
    answers with status 500. *)
Example malformed_prompt_gives_500 :
  let event := PDict [("prompt", PInt 5)] in
  fst (lambda_handler_try
         (builtins := Sample.builtins) (config := Sample.config)
         (world := Sample.world Exhausted) event) =
  Raise (Exception "AttributeError" "'int' object has no attribute 'strip'") /\
  lambda_handler
    (builtins := Sample.builtins) (config := Sample.config)
    (world := Sample.world Exhausted) event =
  (Ok (PDict [ ("statusCode", PInt 500);
               ("headers", headers);
               ("body", PStr "{error,timestamp,status,agent}") ]), []).
Proof. split; reflexivity. Qed.


End AgentRouter.

(* ===================================================================== *)
(** * Properties of the CourseQueryService handler *)
(* ===================================================================== *)

Module CourseQueryService.
Import Py LambdaAction CourseQuerySpec.

(** *** The order of strings *)

Lemma string_ltb_leb (s t : string) :
  String.ltb s t = true -> String.leb s t = true.
Proof.
  unfold String.ltb, String.leb. destruct (String.compare s t); congruence.
Qed.

Lemma string_not_ltb_leb (s t : string) :
  String.ltb s t = false -> String.leb t s = true.
Proof.
  unfold String.ltb, String.leb. rewrite (String.compare_antisym t s).
  destruct (String.compare s t); simpl; congruence.
Qed.

Lemma string_leb_trans (s t u : string) :
  String.leb s t = true -> String.leb t u = true -> String.leb s u = true.
Proof.
  unfold String.leb. revert t u.
  induction s as [|a s IH]; intros [|b t] [|c u]; simpl; try congruence.
  unfold Ascii.compare.
  destruct (N.compare_spec (N_of_ascii a) (N_of_ascii b)) as [Hab|Hab|Hab];
    destruct (N.compare_spec (N_of_ascii b) (N_of_ascii c)) as [Hbc|Hbc|Hbc];
    destruct (N.compare_spec (N_of_ascii a) (N_of_ascii c)) as [Hac|Hac|Hac];
    try congruence; try lia.
  apply IH.
Qed.

(** *** Fallible computations *)

Lemma bind_Ok {A B : Type} (c : result A) (k : A -> result B) (b : B) :
  bind c k = Ok b -> exists a, c = Ok a /\ k a = Ok b.
Proof.
  destruct c as [a|e]; simpl; [ | discriminate ]. intros H. exists a. auto.
Qed.

Section WithSurroundings.
Context {builtins : Builtins} {world : World}.

(** *** Sorting *)

Lemma key_le_trans (a b c : pyval * pyval) :
  key_le a b -> key_le b c -> key_le a c.
Proof.
  intros (s & t & Hs & Ht & Hst) (t' & u & Ht' & Hu & Htu).
  rewrite Ht in Ht'. injection Ht' as <-.
  exists s, u. eauto using string_leb_trans.
Qed.

Lemma insert_keyed_sorted (kx : pyval * pyval) :
  forall sorted placed : list (pyval * pyval),
    insert_keyed kx sorted = Ok placed ->
    Permutation (kx :: sorted) placed /\
    (string_key kx -> Forall string_key sorted ->
     StronglySorted key_le sorted -> StronglySorted key_le placed).
Proof.
  induction sorted as [|ky rest IH]; intros placed Hrun; simpl in Hrun.
  - injection Hrun as <-. split; [ reflexivity | ].
    intros _ _ _. repeat constructor.
  - apply bind_Ok in Hrun. destruct Hrun as (smaller & Hlt & Hrun).
    destruct smaller.
    + apply bind_Ok in Hrun. destruct Hrun as (placed' & Hins & Hrun).
      injection Hrun as <-. destruct (IH _ Hins) as [Hperm Hsorted].
      split.
      * rewrite perm_swap. constructor. exact Hperm.
      * intros Hkx Hkeys Hrest.
        inversion Hkeys as [|? ? Hky Hkeys']; subst.
        inversion Hrest as [|? ? Hrest' Hle]; subst.
        constructor; [ auto | ].
        apply (Permutation_Forall Hperm). constructor; [ | exact Hle ].
        destruct Hkx as [sx Hsx], Hky as [sy Hsy].
        unfold lt in Hlt. rewrite Hsx, Hsy in Hlt. injection Hlt as Hlt.
        exists sy, sx. auto using string_ltb_leb.
    + injection Hrun as <-. split; [ reflexivity | ].
      intros Hkx Hkeys Hrest.
      inversion Hkeys as [|? ? Hky Hkeys']; subst.
      assert (Hle : key_le kx ky).
      { destruct Hkx as [sx Hsx], Hky as [sy Hsy].
        unfold lt in Hlt. rewrite Hsx, Hsy in Hlt. injection Hlt as Hlt.
        exists sx, sy. auto using string_not_ltb_leb. }
      constructor; [ exact Hrest | ].
      constructor; [ exact Hle | ].
      inversion Hrest as [|? ? _ Hall]; subst.
      eapply Forall_impl; [ | exact Hall ].
      intros kz Hz. exact (key_le_trans _ _ _ Hle Hz).
Qed.

Lemma sort_keyed_sorted :
  forall keyed sorted : list (pyval * pyval),
    sort_keyed keyed = Ok sorted ->
    Permutation keyed sorted /\
    (Forall string_key keyed -> StronglySorted key_le sorted).
Proof.
  induction keyed as [|kx rest IH]; intros sorted Hrun; simpl in Hrun.
  - injection Hrun as <-. split; [ reflexivity | constructor ].
  - apply bind_Ok in Hrun. destruct Hrun as (sorted' & Hrest & Hins).
    destruct (IH _ Hrest) as [Hperm Hsorted].
    destruct (insert_keyed_sorted _ _ _ Hins) as [Hperm' Hsorted'].
    split.
    + rewrite <- Hperm'. constructor. exact Hperm.
    + intros Hkeys. inversion Hkeys as [|? ? Hkx Hkeys']; subst.
      apply Hsorted'; auto.
      apply (Permutation_Forall Hperm). exact Hkeys'.
Qed.

Lemma with_keys_spec (key : pyval -> result pyval) :
  forall (l : list pyval) (keyed : list (pyval * pyval)),
    with_keys key l = Ok keyed ->
    map snd keyed = l /\ Forall (fun kx => key (snd kx) = Ok (fst kx)) keyed.
Proof.
  induction l as [|x l IH]; intros keyed Hrun; simpl in Hrun.
  - injection Hrun as <-. split; [ reflexivity | constructor ].
  - apply bind_Ok in Hrun. destruct Hrun as (k & Hk & Hrun).
    apply bind_Ok in Hrun. destruct Hrun as (keyed' & Hkeyed & Hrun).
    injection Hrun as <-. destruct (IH _ Hkeyed) as [Hmap Hall].
    split; [ simpl; rewrite Hmap; reflexivity | constructor; auto ].
Qed.

Lemma sort_key_field (x k : pyval) :
  sort_key x = Ok k ->
  field x "CourseID" = Some k \/ field x "CourseID" = None /\ k = PStr "".
Proof.
  unfold sort_key, get, field. destruct x; try discriminate.
  destruct (dict_get entries "CourseID"); intros H; injection H as <-; auto.
Qed.

(** [list.sort(key=lambda x: x.get('CourseID', ''))] rearranges the list,
    and leaves it in the order of the identifiers when these are strings. *)
Lemma list_sort_by_id (l sorted : list pyval) :
  list_sort sort_key l = Ok sorted ->
  Permutation l sorted /\
  (Forall has_string_id sorted -> StronglySorted id_le sorted).
Proof.
  unfold list_sort. intros Hrun.
  apply bind_Ok in Hrun. destruct Hrun as (keyed & Hkeyed & Hrun).
  apply bind_Ok in Hrun. destruct Hrun as (keyed' & Hsort & Hrun).
  injection Hrun as <-.
  destruct (with_keys_spec _ _ _ Hkeyed) as [Hmap Hkeys].
  destruct (sort_keyed_sorted _ _ Hsort) as [Hperm Hsorted].
  split.
  - rewrite <- Hmap. apply Permutation_map. exact Hperm.
  - intros Hids.
    assert (Hfields :
              Forall (fun kx => field (snd kx) "CourseID" = Some (fst kx) /\
                                string_key kx) keyed').
    { apply (Permutation_Forall Hperm) in Hkeys.
      rewrite Forall_forall in Hids, Hkeys |- *. intros kx Hin.
      destruct (Hids (snd kx) (in_map snd _ _ Hin)) as [id Hid].
      destruct (sort_key_field _ _ (Hkeys kx Hin)) as [H | [H _]];
        rewrite H in Hid; [ | discriminate ].
      injection Hid as Hid. split; [ exact H | exists id; exact Hid ]. }
    assert (Hss : StronglySorted key_le keyed').
    { apply Hsorted. apply (Permutation_Forall (Permutation_sym Hperm)).
      eapply Forall_impl; [ | exact Hfields ]. intros kx [_ H]. exact H. }
    clear - Hss Hfields.
    induction Hss as [|kx rest Hrest IH Hle]; simpl; constructor.
    + apply IH. inversion Hfields; assumption.
    + inversion Hfields as [|? ? [Hkx _] Hall]; subst.
      rewrite Forall_forall in Hle, Hall |- *. intros y Hy.
      apply in_map_iff in Hy. destruct Hy as (ky & <- & Hin).
      destruct (Hle ky Hin) as (s & t & Hs & Ht & Hst).
      destruct (Hall ky Hin) as [Hky _].
      exists s, t. rewrite Hkx, Hky, Hs, Ht. auto.
Qed.

(** *** Scanning, converting and normalizing *)

Lemma scan_all_items (response : scan_run) :
  forall courses items : list pyval,
    scan_all response courses = Ok items ->
    items = (courses ++ scanned_items response)%list.
Proof.
  induction response as [e|Items|Items key next IH]; intros courses items Hrun;
    simpl in Hrun |- *.
  - discriminate.
  - injection Hrun as <-. reflexivity.
  - rewrite (IH _ _ Hrun), app_assoc. reflexivity.
Qed.

Lemma convert_decimals_field (obj : pyval) (key : string) :
  field (convert_decimals obj) key =
  option_map convert_decimals (field obj key).
Proof.
  destruct obj; try reflexivity. simpl.
  induction entries as [|[k v] entries IH]; simpl; [ reflexivity | ].
  destruct (String.eqb k key); [ reflexivity | exact IH ].
Qed.

Lemma convert_decimals_not_decimal (obj : pyval) (d : Decimal) :
  convert_decimals obj <> PDecimal d.
Proof. destruct obj; discriminate. Qed.

(** A normalized record takes its duration from the converted stored
    record. *)
Lemma normalize_course_duration (item course : pyval) :
  normalize_course (convert_decimals item) = Ok course ->
  duration_converted item course.
Proof.
  unfold normalize_course. intros Hrun.
  destruct (convert_decimals item) as [| | | | | | | |entries|] eqn:Hitem;
    try discriminate.
  pose proof (convert_decimals_field item "Duration (hours)") as Hfield.
  rewrite Hitem in Hfield. simpl in Hfield, Hrun.
  destruct (dict_get entries "CourseID"), (dict_get entries "Course Name"),
    (dict_get entries "Duration (hours)") as [duration|],
    (dict_get entries "State"); simpl in Hrun; injection Hrun as <-.
  all: split; intros d; simpl.
  all: try (intros Hstored; rewrite Hstored in Hfield; simpl in Hfield;
            congruence).
  all: try discriminate.
  all: destruct (field item "Duration (hours)") as [v|]; simpl in Hfield;
    [ | discriminate ].
  all: injection Hfield as ->; intros H; injection H as H;
    exact (convert_decimals_not_decimal _ _ H).
Qed.

Lemma normalize_courses_spec :
  forall items normalized : list pyval,
    normalize_courses (map convert_decimals items) = Ok normalized ->
    Forall2 (fun item course =>
               normalize_course (convert_decimals item) = Ok course)
            items normalized.
Proof.
  induction items as [|item items IH]; intros normalized Hrun; simpl in Hrun.
  - injection Hrun as <-. constructor.
  - apply bind_Ok in Hrun. destruct Hrun as (course & Hcourse & Hrun).
    apply bind_Ok in Hrun. destruct Hrun as (rest & Hrest & Hrun).
    injection Hrun as <-. constructor; auto.
Qed.

(** Every record of a list that was scanned, converted, normalized and
    sorted comes from a scanned item. *)
Lemma listed_record_from_item (response : scan_run)
      (normalized courses : list pyval) (course : pyval) :
  normalize_courses (map convert_decimals (scanned_items response)) =
    Ok normalized ->
  list_sort sort_key normalized = Ok courses ->
  In course courses ->
  exists item,
    In item (scanned_items response) /\ duration_converted item course.
Proof.
  intros Hnorm Hsort Hin.
  apply normalize_courses_spec in Hnorm.
  destruct (list_sort_by_id _ _ Hsort) as [Hperm _].
  apply (Permutation_in _ (Permutation_sym Hperm)) in Hin.
  clear - Hnorm Hin.
  induction Hnorm as [|item c items cs Hc Hrest IH]; [ contradiction | ].
  destruct Hin as [<- | Hin].
  - exists item. split; [ left; reflexivity | ].
    exact (normalize_course_duration _ _ Hc).
  - destruct (IH Hin) as (item' & Hin' & Hconv).
    exists item'. split; [ right; exact Hin' | exact Hconv ].
Qed.

(** *** The three query functions *)

Lemma get_all_courses_listing (table : Table) :
  exists result,
    get_all_courses table = Ok result /\ listing (scan table None) result.
Proof.
  unfold get_all_courses, try_except.
  destruct (table_status table) as [table_info|table_error].
  2: { eexists. split; [ reflexivity | left; split; reflexivity ]. }
  destruct (scan_all (scan table None) []) as [items|e] eqn:Hscan; simpl.
  2: { eexists. split; [ reflexivity | left; split; reflexivity ]. }
  apply scan_all_items in Hscan. simpl in Hscan. subst items.
  destruct (normalize_courses _) as [normalized|e] eqn:Hnorm; simpl.
  2: { eexists. split; [ reflexivity | left; split; reflexivity ]. }
  destruct (list_sort sort_key normalized) as [courses|e] eqn:Hsort; simpl.
  2: { eexists. split; [ reflexivity | left; split; reflexivity ]. }
  eexists. split; [ reflexivity | ]. right.
  eexists normalized, courses, _. repeat split; eauto.
Qed.

Lemma get_courses_by_state_listing (table : Table) (params : dict) :
  exists result,
    get_courses_by_state table params = Ok result /\
    (field result "success" = Some (PBool false) /\
     field result "data" = None \/
     exists state,
       dict_get params "state" = Some state /\
       listing (scan table (Some state)) result).
Proof.
  unfold get_courses_by_state, try_except. simpl.
  destruct (dict_get params "state") as [state|]; simpl.
  2: { eexists. split; [ reflexivity | left; split; reflexivity ]. }
  destruct (truthy state); simpl.
  2: { eexists. split; [ reflexivity | left; split; reflexivity ]. }
  destruct (scan_all (scan table (Some state)) []) as [items|e] eqn:Hscan; simpl.
  2: { eexists. split; [ reflexivity | left; split; reflexivity ]. }
  apply scan_all_items in Hscan. simpl in Hscan. subst items.
  destruct (normalize_courses _) as [normalized|e] eqn:Hnorm; simpl.
  2: { eexists. split; [ reflexivity | left; split; reflexivity ]. }
  destruct (list_sort sort_key normalized) as [courses|e] eqn:Hsort; simpl.
  2: { eexists. split; [ reflexivity | left; split; reflexivity ]. }
  eexists. split; [ reflexivity | ]. right. exists state. split; [ reflexivity | ].
  right. eexists normalized, courses, _. repeat split; eauto.
Qed.

Lemma get_course_details_cases (table : Table) (params : dict) :
  exists result,
    get_course_details table params = Ok result /\
    (field result "success" = Some (PBool false) /\
     field result "data" = None \/
     exists course_id,
       dict_get params "courseId" = Some course_id /\
       truthy course_id = true /\
       (get_item table course_id = Ok None /\
        result = not_found_result course_id \/
        exists Item course data,
          get_item table course_id = Ok (Some Item) /\
          normalize_course (convert_decimals Item) = Ok course /\
          field result "success" = Some (PBool true) /\
          field result "data" = Some data /\
          field data "courses" = None /\
          field data "course" = Some course)).
Proof.
  unfold get_course_details, try_except. simpl.
  destruct (dict_get params "courseId") as [course_id|]; simpl.
  2: { eexists. split; [ reflexivity | left; split; reflexivity ]. }
  destruct (truthy course_id) eqn:Hpresent; simpl.
  2: { eexists. split; [ reflexivity | left; split; reflexivity ]. }
  destruct (get_item table course_id) as [[Item|]|e] eqn:Hitem; simpl.
  - destruct (normalize_course (convert_decimals Item)) as [course|e] eqn:Hc;
      simpl.
    + eexists. split; [ reflexivity | ]. right. exists course_id.
      repeat split; auto. right. eexists Item, course, _. repeat split; eauto.
    + eexists. split; [ reflexivity | left; split; reflexivity ].
  - eexists. split; [ reflexivity | ]. right. exists course_id.
    repeat split; auto.
  - eexists. split; [ reflexivity | left; split; reflexivity ].
Qed.

(** Every query returns a result, and the result is a dict. *)
Lemma run_returns_dict (table : Table) (q : query) :
  exists d, run table q = Ok (PDict d).
Proof.
  assert (Hdict : forall result b,
             field result "success" = Some b -> exists d, result = PDict d).
  { intros result success H. destruct result; try discriminate.
    eexists. reflexivity. }
  assert (Hlisting : forall response result,
             listing response result -> exists d, result = PDict d).
  { intros response result [[H _] | (? & ? & ? & _ & _ & H & _)]; eauto. }
  destruct q; simpl.
  - destruct (get_all_courses_listing table) as (result & -> & H).
    destruct (Hlisting _ _ H) as [d ->]. eauto.
  - destruct (get_courses_by_state_listing table params)
      as (result & -> & [[H _] | (state & _ & H)]);
      [ destruct (Hdict _ _ H) as [d ->]
      | destruct (Hlisting _ _ H) as [d ->] ]; eauto.
  - destruct (get_course_details_cases table params)
      as (result & -> & [[H _] | (cid & _ & _ & [[_ ->] | H])]).
    + destruct (Hdict _ _ H) as [d ->]. eauto.
    + eexists. reflexivity.
    + destruct H as (? & ? & ? & _ & _ & H & _).
      destruct (Hdict _ _ H) as [d ->]. eauto.
  - destruct (get_courses_by_state_listing table [("state", PStr "Completed")])
      as (result & -> & [[H _] | (state & _ & H)]);
      [ destruct (Hdict _ _ H) as [d ->]
      | destruct (Hlisting _ _ H) as [d ->] ]; eauto.
  - destruct (get_courses_by_state_listing table [("state", PStr "In Progress")])
      as (result & -> & [[H _] | (state & _ & H)]);
      [ destruct (Hdict _ _ H) as [d ->]
      | destruct (Hlisting _ _ H) as [d ->] ]; eauto.
  - destruct (get_courses_by_state_listing table [("state", PStr "Not Started")])
      as (result & -> & [[H _] | (state & _ & H)]);
      [ destruct (Hdict _ _ H) as [d ->]
      | destruct (Hlisting _ _ H) as [d ->] ]; eauto.
Qed.

(** The scan a list query runs, when its result has a course list. *)
Lemma run_listing (table : Table) (q : query) (result : pyval) :
  run table q = Ok result ->
  field result "success" = Some (PBool false) /\ field result "data" = None \/
  (exists response,
      listing response result /\
      incl (scanned_items response) (stored_records table q)) \/
  (exists Item course data,
      In Item (stored_records table q) /\
      normalize_course (convert_decimals Item) = Ok course /\
      field result "data" = Some data /\
      field data "courses" = None /\
      field data "course" = Some course) \/
  (exists course_id, result = not_found_result course_id).
Proof.
  assert (Hstate : forall params result,
             get_courses_by_state table params = Ok result ->
             field result "success" = Some (PBool false) /\
             field result "data" = None \/
             exists response,
               listing response result /\
               incl (scanned_items response) (scanned_by_state table params)).
  { intros params result' Hrun.
    destruct (get_courses_by_state_listing table params)
      as (r & Hr & [H | (state & Hstate & H)]);
      rewrite Hr in Hrun; injection Hrun as <-; [ left; exact H | right ].
    exists (scan table (Some state)). split; [ exact H | ].
    unfold scanned_by_state. rewrite Hstate. apply incl_refl. }
  destruct q; simpl; intros Hrun.
  - destruct (get_all_courses_listing table) as (r & Hr & H).
    rewrite Hr in Hrun. injection Hrun as <-.
    right; left. exists (scan table None). split; [ exact H | apply incl_refl ].
  - destruct (Hstate _ _ Hrun); auto.
  - destruct (get_course_details_cases table params)
      as (r & Hr & [H | (cid & Hcid & _ & [[_ ->] | H])]);
      rewrite Hr in Hrun; injection Hrun as <-; auto.
    + do 3 right. eauto.
    + destruct H as (Item & course & data & Hitem & H).
      right; right; left. exists Item, course, data.
      rewrite Hcid, Hitem. split; [ left; reflexivity | ].
      destruct H as (? & _ & ? & ? & ?). auto.
  - destruct (Hstate _ _ Hrun); auto.
  - destruct (Hstate _ _ Hrun); auto.
  - destruct (Hstate _ _ Hrun); auto.
Qed.

(** C8.  The course list a query returns, for the list of all courses as
    for the lists by state, is in ascending order of the [CourseID] of its
    records, compared as strings. *)
Theorem course_list_sorted_by_id (table : Table) (q : query)
        (courses : list pyval) :
  returned_courses (run table q) = Some courses ->
  Forall has_string_id courses ->
  StronglySorted id_le courses.
Proof.
  intros Hreturned Hids.
  destruct (run table q) as [result|e] eqn:Hrun; [ | discriminate ].
  simpl in Hreturned.
  destruct (run_listing _ _ _ Hrun)
    as [[Hs _] | [(response & Hl & _) | [H | [cid ->]]]].
  - rewrite Hs in Hreturned. discriminate.
  - destruct Hl as [[Hs _] | (normalized & courses' & data & _ & Hsort & Hs &
                               Hdata & Hcourses & _)].
    + rewrite Hs in Hreturned. discriminate.
    + rewrite Hs, Hdata, Hcourses in Hreturned. injection Hreturned as ->.
      destruct (list_sort_by_id _ _ Hsort) as [_ Hsorted]. auto.
  - destruct H as (Item & course & data & _ & _ & Hdata & Hcourses & _).
    rewrite Hdata, Hcourses in Hreturned.
    destruct (field result "success") as [[]|]; try discriminate.
    destruct b; discriminate.
  - discriminate.
Qed.

(** C9.  Every course record a query returns, in the list of all courses,
    in a list by state or as the details of one course, comes from a stored
    record, gives the duration of that record as the float [float(d)] when
    the store holds the decimal [d], and never gives a decimal. *)
Theorem duration_returned_as_float (table : Table) (q : query) (course : pyval) :
  In course (returned_records (run table q)) ->
  exists item,
    In item (stored_records table q) /\ duration_converted item course.
Proof.
  intros Hin.
  destruct (run table q) as [result|e] eqn:Hrun; [ | contradiction ].
  simpl in Hin.
  destruct (run_listing _ _ _ Hrun)
    as [[_ Hd] | [(response & Hl & Hincl) | [H | [cid ->]]]].
  - rewrite Hd in Hin. contradiction.
  - destruct Hl as [[_ Hd] | (normalized & courses & data & Hnorm & Hsort & _ &
                               Hdata & Hcourses & _)].
    + rewrite Hd in Hin. contradiction.
    + rewrite Hdata, Hcourses in Hin.
      destruct (listed_record_from_item _ _ _ _ Hnorm Hsort Hin)
        as (item & Hitem & Hconv).
      exists item. split; [ apply Hincl; exact Hitem | exact Hconv ].
  - destruct H as (Item & c & data & Hstored & Hc & Hdata & Hcourses & Hcourse).
    rewrite Hdata, Hcourses, Hcourse in Hin.
    destruct Hin as [<- | []].
    exists Item. split; [ exact Hstored | ].
    exact (normalize_course_duration _ _ Hc).
  - simpl in Hin. contradiction.
Qed.

(** *** The handler *)

(** [create_bedrock_response] wraps a result dict in the envelope, with the
    status code given by the [success] flag. *)
Lemma create_bedrock_response_dict (action_group api_path http_method : pyval)
      (d : dict) :
  create_bedrock_response action_group api_path http_method (PDict d) =
  Ok (envelope action_group api_path http_method
               (status_of (PDict d)) (PDict d)).
Proof.
  unfold create_bedrock_response, status_of, envelope. simpl.
  destruct (dict_get d "success") as [success|]; simpl.
  - destruct (truthy success); reflexivity.
  - reflexivity.
Qed.

Lemma get_dict (ev : dict) (key : string) (default : pyval) :
  get (PDict ev) key default = Ok (event_field (PDict ev) key default).
Proof.
  unfold get, event_field, field. destruct (dict_get ev key); reflexivity.
Qed.

(** Once the table resource is obtained and the parameters of the event are
    collected, the handler runs the query of the path, or builds the
    unknown-path result, and wraps the result. *)
Lemma lambda_handler_routed (event : pyval) (table : Table) (params : dict) :
  dynamodb_Table "MyCourses" = Ok table ->
  event_params event = Ok params ->
  exists result,
    match route (event_field event "apiPath" (PStr "")) params with
    | Some q => run table q = Ok result
    | None =>
      result = unknown_path_result (event_field event "apiPath" (PStr ""))
    end /\
    lambda_handler event = Ok (bedrock_response event (status_of result) result).
Proof.
  intros Htable Hparams. unfold lambda_handler. rewrite Htable.
  destruct event as [| | | | | | | |ev|]; try discriminate.
  unfold event_params in Hparams.
  apply bind_Ok in Hparams. destruct Hparams as (parameters & Hget & Hparams).
  apply bind_Ok in Hparams. destruct Hparams as (l & Hiter & Hcollect).
  assert (Hwrap : forall q action_group api_path http_method handler,
             exists result,
               run table q = Ok result /\
               try_except
                 (bind (run table q)
                       (create_bedrock_response action_group api_path
                                                http_method))
                 handler =
               Ok (envelope action_group api_path http_method
                            (status_of result) result)).
  { intros q action_group api_path http_method handler.
    destruct (run_returns_dict table q) as [d Hd].
    exists (PDict d). split; [ exact Hd | ]. rewrite Hd. cbn [bind].
    rewrite create_bedrock_response_dict. reflexivity. }
  unfold bedrock_response, route.
  rewrite get_dict. cbn [bind]. rewrite get_dict. cbn [bind].
  rewrite get_dict. cbn [bind].
  rewrite Hget. cbn [bind]. rewrite Hiter. cbn [bind].
  rewrite Hcollect. cbn [bind].
  destruct (eq_str (event_field (PDict ev) "apiPath" (PStr "")) "/getAllCourses");
    [ exact (Hwrap GetAllCourses _ _ _ _) | ].
  destruct (eq_str (event_field (PDict ev) "apiPath" (PStr ""))
                   "/getCoursesByState");
    [ exact (Hwrap (GetCoursesByState params) _ _ _ _) | ].
  destruct (eq_str (event_field (PDict ev) "apiPath" (PStr ""))
                   "/getCourseDetails");
    [ exact (Hwrap (GetCourseDetails params) _ _ _ _) | ].
  destruct (eq_str (event_field (PDict ev) "apiPath" (PStr ""))
                   "/getCompletedCourses");
    [ exact (Hwrap GetCompletedCourses _ _ _ _) | ].
  destruct (eq_str (event_field (PDict ev) "apiPath" (PStr ""))
                   "/getInProgressCourses");
    [ exact (Hwrap GetInProgressCourses _ _ _ _) | ].
  destruct (eq_str (event_field (PDict ev) "apiPath" (PStr ""))
                   "/getNotStartedCourses");
    [ exact (Hwrap GetNotStartedCourses _ _ _ _) | ].
  eexists. split; [ reflexivity | ]. reflexivity.
Qed.

Lemma route_unsupported (api_path : pyval) (params : dict) :
  ~ supported api_path -> route api_path params = None.
Proof.
  intros Hunsupported. unfold route.
  assert (H : forall path, In path availablePaths ->
                           eq_str api_path path = false).
  { intros path Hin. destruct (eq_str api_path path) eqn:Heq; [ | reflexivity ].
    exfalso. apply Hunsupported. exists path. split; [ exact Hin | ].
    destruct api_path; try discriminate. simpl in Heq.
    apply String.eqb_eq in Heq. congruence. }
  rewrite !H by (simpl; tauto). reflexivity.
Qed.

(** C6, as amended.  For an event whose [apiPath] is none of the six
    supported paths, the handler, once it has obtained the table resource
    and collected the parameters of the event, answers with the result that
    lists the six valid paths, wrapped in the envelope with
    [httpStatusCode] 400; the envelope of a result dict that [json.dumps]
    renders has status 200 when the [success] flag of the result is true
    and 400 when it is false or missing. *)
Theorem unknown_path_lists_valid_paths (event : pyval) (table : Table)
        (params : dict) :
  dynamodb_Table "MyCourses" = Ok table ->
  event_params event = Ok params ->
  ~ supported (event_field event "apiPath" (PStr "")) ->
  lambda_handler event =
    Ok (bedrock_response
          event 400
          (unknown_path_result (event_field event "apiPath" (PStr "")))) /\
  forall (action_group api_path http_method : pyval) (result : dict),
    str_renders (PDict result) = true ->
    create_bedrock_response action_group api_path http_method (PDict result) =
    Ok (envelope action_group api_path http_method
                 (status_of (PDict result)) (PDict result)) /\
    (dict_get result "success" = Some (PBool true) ->
     status_of (PDict result) = 200%Z) /\
    (dict_get result "success" = Some (PBool false) \/
     dict_get result "success" = None ->
     status_of (PDict result) = 400%Z).
Proof.
  intros Htable Hparams Hunsupported. split.
  - destruct (lambda_handler_routed _ _ _ Htable Hparams) as (result & Hr & ->).
    rewrite (route_unsupported _ params Hunsupported) in Hr. subst result.
    reflexivity.
  - intros action_group api_path http_method result _.
    split; [ apply create_bedrock_response_dict | ].
    unfold status_of. simpl.
    split; [ intros -> | intros [-> | ->] ]; reflexivity.
Qed.

(** C7.  For an event of path [/getCourseDetails] whose [courseId] is
    present and matches no record of the table, the result has [success]
    true and [found] false, and the handler answers with the envelope of
    that result, with [httpStatusCode] 200. *)
Theorem missing_course_is_not_an_error (event : pyval) (table : Table)
        (params : dict) (course_id : pyval) :
  dynamodb_Table "MyCourses" = Ok table ->
  event_params event = Ok params ->
  event_field event "apiPath" (PStr "") = PStr "/getCourseDetails" ->
  dict_get params "courseId" = Some course_id ->
  truthy course_id = true ->
  get_item table course_id = Ok None ->
  get_course_details table params = Ok (not_found_result course_id) /\
  lambda_handler event =
    Ok (bedrock_response event 200 (not_found_result course_id)).
Proof.
  intros Htable Hparams Hpath Hid Hpresent Hmissing.
  assert (Hdetails : get_course_details table params =
                     Ok (not_found_result course_id)).
  { unfold get_course_details. simpl. rewrite Hid. simpl.
    rewrite Hpresent. simpl. rewrite Hmissing. reflexivity. }
  split; [ exact Hdetails | ].
  destruct (lambda_handler_routed _ _ _ Htable Hparams) as (result & Hr & ->).
  rewrite Hpath in Hr. simpl in Hr. rewrite Hdetails in Hr.
  injection Hr as <-. reflexivity.
Qed.

End WithSurroundings.
(** *** The properties at concrete inputs *)

#[local] Existing Instance Sample.builtins.
#[local] Existing Instance Sample.table_world.

Example all_courses_of_sample_table :
  get_all_courses Sample.table =
  Ok (PDict
        [ ("success", PBool true);
          ("data",
           PDict
             [ ("courses", PList Sample.courses);
               ("totalCourses", PInt 3);
               ("message",
                PStr "Retrieved 3 courses successfully from MyCourses table")
             ]) ]).
Proof. reflexivity. Qed.

Lemma unknown_path_lists_valid_paths_witness :
  let event :=
    PDict [ ("actionGroup", PStr "CourseActionGroup");
            ("apiPath", PStr "/enrollInCourse");
            ("httpMethod", PStr "POST");
            ("parameters", PList []) ] in
  lambda_handler event =
  Ok (PDict
        [ ("messageVersion", PStr "1.0");
          ("response",
           PDict
             [ ("actionGroup", PStr "CourseActionGroup");
               ("apiPath", PStr "/enrollInCourse");
               ("httpMethod", PStr "POST");
               ("httpStatusCode", PInt 400);
               ("responseBody",
                PDict
                  [ ("application/json",
                     PDict
                       [ ("body", PStr "{success,error,availablePaths}") ]) ])
             ]) ]).
Proof.
  intros event.
  refine (proj1 (unknown_path_lists_valid_paths
                   event Sample.table [] _ _ _)).
  - reflexivity.
  - reflexivity.
  - intros (path & Hin & Heq). simpl in Hin, Heq.
    repeat (destruct Hin as [<- | Hin]; [ discriminate Heq | ]).
    exact Hin.
Defined.

(** C6 as stated fails: the path of an event is looked at after the table
    resource is obtained and the parameters are collected.  An event with
    an unsupported path and a parameter that lacks its ['value'] is answered
    with the internal-error result, not with the list of the valid paths. *)
Lemma unknown_path_malformed_parameters_counterexample :
  ~ (forall (builtins : Builtins) (world : World) (event : pyval),
        ~ supported (event_field event "apiPath" (PStr "")) ->
        lambda_handler event =
        Ok (bedrock_response
              event 400
              (unknown_path_result (event_field event "apiPath" (PStr ""))))).
Proof.
  intros claim.
  pose (event :=
          PDict [ ("actionGroup", PStr "CourseActionGroup");
                  ("apiPath", PStr "/enrollInCourse");
                  ("httpMethod", PStr "POST");
                  ("parameters",
                   PList [ PDict [("name", PStr "courseId")] ]) ]).
  assert (H : lambda_handler event =
              Ok (bedrock_response
                    event 400
                    (unknown_path_result (PStr "/enrollInCourse")))).
  { apply (claim Sample.builtins Sample.table_world event).
    intros (path & Hin & Heq). simpl in Hin, Heq.
    repeat (destruct Hin as [<- | Hin]; [ discriminate Heq | ]).
    exact Hin. }
  vm_compute in H. discriminate H.
Qed.

Lemma missing_course_is_not_an_error_witness :
  let event :=
    PDict [ ("actionGroup", PStr "CourseActionGroup");
            ("apiPath", PStr "/getCourseDetails");
            ("httpMethod", PStr "GET");
            ("parameters",
             PList [ PDict [ ("name", PStr "courseId");
                             ("type", PStr "string");
                             ("value", PStr "C404") ] ]) ] in
  get_course_details Sample.table [("courseId", PStr "C404")] =
    Ok (PDict
          [ ("success", PBool true);
            ("data",
             PDict [ ("courseId", PStr "C404");
                     ("found", PBool false);
                     ("message", PStr "Course with ID C404 not found") ]) ]) /\
  lambda_handler event =
    Ok (bedrock_response event 200 (not_found_result (PStr "C404"))).
Proof.
  intros event.
  refine (missing_course_is_not_an_error
            event Sample.table [("courseId", PStr "C404")] (PStr "C404")
            _ _ _ _ _ _); reflexivity.
Defined.

Lemma course_list_sorted_by_id_witness :
  StronglySorted id_le Sample.courses.
Proof.
  refine (course_list_sorted_by_id Sample.table GetAllCourses
            Sample.courses _ _).
  - reflexivity.
  - repeat constructor; eexists; reflexivity.
Defined.

Lemma duration_returned_as_float_witness :
  exists item,
    In item (stored_records Sample.table GetAllCourses) /\
    duration_converted item (nth 0 Sample.courses PNone).
Proof.
  refine (duration_returned_as_float Sample.table GetAllCourses
            (nth 0 Sample.courses PNone) _).
  left. reflexivity.
Defined.

(** Before the path is looked at: when the table resource cannot be
    obtained the handler answers with the envelope of status 500, and when a
    parameter of the event lacks its value the handler answers with the
    internal-error result. *)
Example connection_failure_gives_500 :
  lambda_handler (world := Sample.unreachable_world)
                 (PDict [("apiPath", PStr "/enrollInCourse")]) =
  Ok (PDict
        [ ("messageVersion", PStr "1.0");
          ("response",
           PDict
             [ ("actionGroup", PStr "CourseActionGroup");
               ("apiPath", PStr "/error");
               ("httpMethod", PStr "GET");
               ("httpStatusCode", PInt 500);
               ("responseBody",
                PDict
                  [ ("application/json",
                     PDict [ ("body", PStr "{success,error,details}") ]) ])
             ]) ]).
Proof. reflexivity. Qed.

Example malformed_parameter_gives_internal_error :
  lambda_handler
    (PDict [ ("apiPath", PStr "/enrollInCourse");
             ("parameters", PList [ PDict [("name", PStr "courseId")] ]) ]) =
  Ok (PDict
        [ ("messageVersion", PStr "1.0");
          ("response",
           PDict
             [ ("actionGroup", PStr "CourseActionGroup");
               ("apiPath", PStr "/enrollInCourse");
               ("httpMethod", PStr "GET");
               ("httpStatusCode", PInt 400);
               ("responseBody",
                PDict
                  [ ("application/json",
                     PDict [ ("body", PStr "{success,error,type}") ]) ])
             ]) ]).
Proof. reflexivity. Qed.

(** The details of a stored course give its duration as a float too. *)
Example details_of_sample_course :
  get_course_details Sample.table [("courseId", PStr "C1")] =
  Ok (PDict
        [ ("success", PBool true);
          ("data",
           PDict [ ("courseId", PStr "C1");
                   ("found", PBool true);
                   ("course", nth 0 Sample.courses PNone);
                   ("message", PStr "Course details retrieved successfully")
                 ]) ]).
Proof. reflexivity. Qed.

End CourseQueryService.

(* ===================================================================== *)
(** * Further properties of the AgentRouter handler *)
(* ===================================================================== *)

Module AgentRouterMore.
Import Py LambdaCallToAgent AgentRouterSpec.

Lemma bindM_lift {A B : Type} (c : result A) (k : A -> M B) :
  bindM (lift c) k =
  match c with
  | Ok a => k a
  | Raise e => (Raise e, [])
  end.
Proof.
  unfold bindM, lift. destruct c as [a|e]; [ | reflexivity ].
  destruct (k a). reflexivity.
Qed.

Section WithSurroundings.
Context {builtins : Builtins} {config : Config} {world : World}.

(** *** The classifier *)

Lemma is_technical_query_spec (prompt : string) :
  is_technical_query prompt = true <->
  ~ has_keyword non_technical_keywords prompt.
Proof.
  unfold is_technical_query.
  destruct (existsb (fun keyword => contains keyword (lower prompt))
                    non_technical_keywords) eqn:Hnon.
  - apply AgentRouter.existsb_keyword in Hnon.
    split; [ intros H; discriminate H | tauto ].
  - split; [ intros _ H | ].
    + apply AgentRouter.existsb_keyword in H. congruence.
    + intros _.
      destruct (existsb (fun keyword => contains keyword (lower prompt))
                        technical_keywords); reflexivity.
Qed.

(** X1.  [is_technical_query] accepts a prompt exactly when its lower-cased
    text contains no non-technical keyword: the technical keywords have no
    effect on the outcome. *)
Theorem accepted_iff_no_non_technical_keyword (prompt : string) :
  is_technical_query prompt = true <->
  ~ has_keyword non_technical_keywords prompt.
Proof. exact (is_technical_query_spec prompt). Qed.

(** X2.  The redirect names a topic only for prompts the classifier
    rejects: for a prompt without non-technical keyword,
    [generate_off_topic_response] gives the text with "that topic". *)
Theorem topic_named_only_when_rejected (prompt : string) :
  ~ has_keyword non_technical_keywords prompt ->
  generate_off_topic_response prompt = generic_redirect.
Proof.
  intros Hnone.
  assert (H : forall keyword, In keyword non_technical_keywords ->
                              contains keyword (lower prompt) = false).
  { intros keyword Hin.
    destruct (contains keyword (lower prompt)) eqn:Hc; [ | reflexivity ].
    exfalso. apply Hnone. exists keyword. auto. }
  unfold generate_off_topic_response.
  rewrite !H by (simpl; tauto). reflexivity.
Qed.

(** *** Validation *)

(** X3.  A body that is a dict with a string prompt is accepted exactly when
    the stripped prompt is not empty, has at most [MAX_PROMPT_LENGTH]
    characters and, lower-cased, contains none of the harmful patterns;
    the message is then [None]. *)
Theorem validate_request_accepts (d : dict) (p : string) :
  dict_get d "prompt" = Some (PStr p) ->
  (validate_request (PDict d) = Ok (true, PNone) <->
   strip p <> "" /\
   (len (strip p) <= MAX_PROMPT_LENGTH)%Z /\
   forall pattern, In pattern harmful_patterns ->
                   contains pattern (lower (strip p)) = false).
Proof.
  intros Hp. unfold validate_request.
  assert (Htruthy : truthy (PDict d) = true).
  { destruct d; [ discriminate | reflexivity ]. }
  rewrite Htruthy. cbn [negb contains_key bind getitem]. rewrite Hp.
  cbn [negb bind str_strip].
  destruct (String.eqb (strip p) "") eqn:Hempty.
  { apply String.eqb_eq in Hempty.
    split; [ intros H; discriminate H | tauto ]. }
  apply String.eqb_neq in Hempty.
  destruct (Z.gtb_spec (len (strip p)) MAX_PROMPT_LENGTH) as [Hlong|Hshort].
  { split; [ intros H; discriminate H | intros (_ & H & _); lia ]. }
  destruct (existsb (fun pattern => contains pattern (lower (strip p)))
                    harmful_patterns) eqn:Hharm.
  - split; [ intros H; discriminate H | intros (_ & _ & H) ].
    apply existsb_exists in Hharm. destruct Hharm as (pattern & Hin & Hc).
    rewrite (H pattern Hin) in Hc. discriminate.
  - split; [ intros _ | reflexivity ].
    repeat split; auto.
    intros pattern Hin.
    destruct (contains pattern (lower (strip p))) eqn:Hc; [ | reflexivity ].
    assert (Hex : existsb (fun pattern => contains pattern (lower (strip p)))
                          harmful_patterns = true).
    { apply existsb_exists. eauto. }
    congruence.
Qed.

(** A rejection by [validate_request] carries a message that is a string. *)
Lemma validate_request_rejection (body message : pyval) :
  validate_request body = Ok (false, message) ->
  exists text, message = PStr text.
Proof.
  unfold validate_request.
  destruct (negb (truthy body)); [ intros H; injection H as <-; eauto | ].
  destruct (contains_key "prompt" body) as [has|e]; cbn [bind];
    [ | discriminate ].
  destruct (negb has); [ intros H; injection H as <-; eauto | ].
  destruct (getitem body "prompt") as [p|e]; cbn [bind]; [ | discriminate ].
  destruct (str_strip p) as [prompt|e]; cbn [bind]; [ | discriminate ].
  destruct (String.eqb prompt ""); [ intros H; injection H as <-; eauto | ].
  destruct (len prompt >? MAX_PROMPT_LENGTH)%Z;
    [ intros H; injection H as <-; eauto | ].
  match goal with
  | |- context [existsb ?f harmful_patterns] =>
    destruct (existsb f harmful_patterns)
  end; [ intros H; injection H as <-; eauto | discriminate ].
Qed.

(** *** Parsing the body *)

(** X4.  When the event has a ['body'] key, the body alone decides: a body
    that is empty or [None] gives [None], any other body gives what
    [json.loads] makes of it, or [None] when [json.loads] raises; a
    ['prompt'] key of the event is not looked at. *)
Theorem body_key_decides (ev : dict) (b : pyval) :
  dict_get ev "body" = Some b ->
  parse_request_body (PDict ev) =
  Ok (if truthy b
      then match json_loads b with
           | Ok parsed => parsed
           | Raise _ => PNone
           end
      else PNone).
Proof.
  intros Hb. unfold parse_request_body. simpl. rewrite Hb. simpl.
  destruct (truthy b); [ | reflexivity ].
  destruct (json_loads b); reflexivity.
Qed.

(** X5.  An event without ['body'] key whose ['requestContext'] has an
    ['http'] key, the form of a Lambda Function URL event, always parses to
    [None], also when it has a ['prompt']. *)
Theorem function_url_without_body_is_none (ev : dict) (context : pyval) :
  dict_get ev "body" = None ->
  dict_get ev "requestContext" = Some context ->
  contains_key "http" context = Ok true ->
  parse_request_body (PDict ev) = Ok PNone.
Proof.
  intros Hb Hc Hhttp. unfold parse_request_body. simpl.
  rewrite Hb, Hc. simpl. rewrite Hhttp. simpl. rewrite ?Hb. reflexivity.
Qed.


(** *** The aggregator *)

(** X7.  [generate_ai_response_with_agent] never raises and never returns
    an empty text, whatever the agent runtime does; when [invoke_agent]
    raises, the text is the fallback message. *)
Theorem agent_answer_is_never_empty (prompt : string) (session_id : pyval) :
  exists text request,
    generate_ai_response_with_agent prompt session_id = (Ok text, [request]) /\
    text <> "" /\
    (forall e, invoke_agent request = Raise e -> text = get_fallback_response).
Proof.
  destruct (AgentRouter.generate_ai_response_cases prompt session_id)
    as (request & Hrun & _).
  exists (answer_text (invoke_agent request)), request.
  split; [ exact Hrun | ]. split.
  - unfold answer_text. destruct (invoke_agent request) as [response|e].
    + cbv zeta.
      destruct (String.eqb_spec
                  (strip (fst (for_event_in (completion response) ""))) "");
        [ discriminate | assumption ].
    + discriminate.
  - intros e ->. reflexivity.
Qed.

(** X8.  When the stream ends normally and the texts received are not made
    of whitespace only, the aggregator returns their concatenation, in the
    order of emission, stripped of surrounding whitespace; events without
    text payload do not contribute. *)
Theorem complete_text_is_returned (prompt : string) (session_id : pyval)
        (events : list Event) (texts : list string) :
  chunk_texts events = Some texts ->
  strip (concatenation texts) <> "" ->
  answered_by prompt session_id (yield_all events Exhausted) ->
  fst (generate_ai_response_with_agent prompt session_id) =
  Ok (strip (concatenation texts)).
Proof.
  intros Htexts Hvisible Hanswer.
  rewrite (AgentRouter.answer_of_stream
             prompt session_id events texts Exhausted); auto.
  destruct (String.eqb_spec (strip (concatenation texts)) ""); congruence.
Qed.

(** X9.  A chunk whose bytes are not valid UTF-8 ends the aggregation like
    a fault of the stream: the texts received before it are returned,
    stripped, or the fallback message when they are blank, and the rest of
    the stream is not read. *)
Theorem undecodable_chunk_ends_the_stream
        (prompt : string) (session_id : pyval)
        (events : list Event) (texts : list string)
        (bad : Event) (b : string) (e : exn) (rest : event_stream) :
  chunk_texts events = Some texts ->
  payload bad = Some b ->
  decode_utf8 b = Raise e ->
  answered_by prompt session_id (yield_all events (Yields bad rest)) ->
  fst (generate_ai_response_with_agent prompt session_id) =
  Ok (if String.eqb (strip (concatenation texts)) ""
      then get_fallback_response
      else strip (concatenation texts)).
Proof.
  intros Htexts Hpayload Hdecode (request & Hsent & Hanswer).
  destruct (AgentRouter.generate_ai_response_cases prompt session_id)
    as (request' & Hrun & _).
  rewrite Hrun in Hsent |- *. cbn [fst snd] in *.
  injection Hsent as ->. rewrite Hanswer. unfold answer_text. cbn [completion].
  rewrite (AgentRouter.for_event_in_yield_all events _ texts "" Htexts).
  cbn [for_event_in]. unfold payload in Hpayload.
  destruct (chunk bad) as [c|]; [ | discriminate ].
  rewrite Hpayload, Hdecode. reflexivity.
Qed.

(** *** The handler *)

Lemma get_httpMethod (ev : dict) :
  preflight ev = false ->
  exists method,
    get (PDict ev) "httpMethod" PNone = Ok method /\
    eq_str method "OPTIONS" = false.
Proof.
  unfold preflight, get. destruct (dict_get ev "httpMethod") as [method|].
  - intros H. exists method. auto.
  - intros _. exists PNone. auto.
Qed.

(** The [try] block for an event that is not a preflight and whose body
    parses to [body]. *)
Lemma lambda_handler_try_carries (event body : pyval) :
  carries event body ->
  lambda_handler_try event =
  if negb (truthy body) then
    lift (create_error_response (PStr "Invalid request format") headers 400)
  else
    match validate_request body with
    | Raise e => (Raise e, [])
    | Ok (is_valid, error_message) =>
      if negb is_valid then
        lift (create_error_response error_message headers 400)
      else
        match getitem body "prompt" with
        | Raise e => (Raise e, [])
        | Ok p =>
          match str_strip p with
          | Raise e => (Raise e, [])
          | Ok prompt =>
            match get body "sessionId"
                      (PStr ("session_" ++ str_of_int time_time)) with
            | Raise e => (Raise e, [])
            | Ok session_id =>
              if negb (is_technical_query prompt) then
                lift (create_success_response
                        (PStr (generate_off_topic_response prompt))
                        session_id headers)
              else
                bindM (generate_ai_response_with_agent prompt session_id)
                      (fun ai_response =>
                         lift (create_success_response
                                 (PStr ai_response) session_id headers))
            end
          end
        end
    end.
Proof.
  intros [(ev & -> & Hmethod) Hparse]. unfold lambda_handler_try.
  destruct (get_httpMethod ev Hmethod) as (method & Hget & Hoptions).
  rewrite Hget, bindM_lift. cbv iota beta. rewrite Hoptions.
  rewrite Hparse, bindM_lift.
  cbv iota beta. destruct (negb (truthy body)); [ reflexivity | ].
  rewrite bindM_lift.
  destruct (validate_request body) as [[is_valid error_message]|e];
    [ | reflexivity ].
  destruct (negb is_valid); [ reflexivity | ].
  rewrite bindM_lift.
  destruct (getitem body "prompt") as [p|e]; [ | reflexivity ].
  rewrite bindM_lift.
  destruct (str_strip p) as [prompt|e]; [ | reflexivity ].
  rewrite bindM_lift.
  destruct (get body "sessionId" _) as [session_id|e]; reflexivity.
Qed.

Lemma handler_of_try (event response : pyval) (sent : list invoke_request) :
  lambda_handler_try event = (Ok response, sent) ->
  lambda_handler event = (Ok response, sent).
Proof. unfold lambda_handler, try_exceptM. intros ->. reflexivity. Qed.

Lemma handler_of_raise (event : pyval) (e : exn) :
  lambda_handler_try event = (Raise e, []) ->
  lambda_handler event =
  (Ok (http_response 500
         (error_body "An unexpected error occurred. Please try again later.")),
   []).
Proof. unfold lambda_handler, try_exceptM. intros ->. reflexivity. Qed.

(** X10.  A preflight, an event whose method is ['OPTIONS'], is acknowledged
    with status 200 whatever else the event holds: the body is not parsed,
    nothing is validated and no agent is called. *)
Theorem preflight_is_acknowledged (ev : dict) :
  preflight ev = true ->
  lambda_handler (PDict ev) = (Ok preflight_response, []).
Proof.
  intros Hmethod. apply handler_of_try. unfold lambda_handler_try.
  unfold preflight in Hmethod. unfold get.
  destruct (dict_get ev "httpMethod") as [method|]; [ | discriminate ].
  rewrite bindM_lift. cbv iota beta. rewrite Hmethod. reflexivity.
Qed.

(** X11.  When the body of the event is missing, empty or not JSON, so that
    it parses to [None] or to another false value, the handler answers with
    status 400 and the message "Invalid request format", and calls no
    agent. *)
Theorem unparsed_body_is_400 (event body : pyval) :
  carries event body ->
  truthy body = false ->
  answers event 400 (error_body "Invalid request format") [].
Proof.
  intros Hcarries Hfalse. apply handler_of_try.
  rewrite (lambda_handler_try_carries _ _ Hcarries), Hfalse. reflexivity.
Qed.

(** X12.  When [validate_request] rejects the body, the handler answers with
    status 400 and the message of the validator, and calls no agent. *)
Theorem rejected_request_is_400 (event body message : pyval) :
  carries event body ->
  truthy body = true ->
  validate_request body = Ok (false, message) ->
  exists text,
    message = PStr text /\ answers event 400 (error_body text) [].
Proof.
  intros Hcarries Htrue Hinvalid.
  destruct (validate_request_rejection _ _ Hinvalid) as [text ->].
  exists text. split; [ reflexivity | ]. apply handler_of_try.
  rewrite (lambda_handler_try_carries _ _ Hcarries), Htrue, Hinvalid.
  reflexivity.
Qed.

(** X13.  A prompt that is not a string is not rejected by the validator: its
    [strip] raises, and the handler answers with status 500 instead of
    400. *)
Theorem non_string_prompt_is_500 (event : pyval) (d : dict) (v : pyval) :
  carries event (PDict d) ->
  dict_get d "prompt" = Some v ->
  (forall text, v <> PStr text) ->
  validate_request (PDict d) = Raise (AttributeError v "strip") /\
  answers event 500
    (error_body "An unexpected error occurred. Please try again later.") [].
Proof.
  intros Hcarries Hp Hv.
  assert (Htruthy : truthy (PDict d) = true).
  { destruct d; [ discriminate | reflexivity ]. }
  assert (Hraise : validate_request (PDict d) =
                   Raise (AttributeError v "strip")).
  { unfold validate_request. rewrite Htruthy.
    cbn [negb contains_key bind getitem]. rewrite Hp. cbn [negb bind].
    destruct v; try reflexivity. elim (Hv s). reflexivity. }
  split; [ exact Hraise | ].
  eapply handler_of_raise.
  rewrite (lambda_handler_try_carries _ _ Hcarries), Htruthy, Hraise.
  reflexivity.
Qed.

Lemma not_serializable_entry (d : dict) (key : string) (v : pyval) :
  not_serializable (PDict d) = None ->
  dict_get d key = Some v ->
  not_serializable v = None.
Proof.
  induction d as [|[k x] d IH]; simpl; [ discriminate | ].
  destruct (not_serializable x) eqn:Hx; [ discriminate | ].
  intros Hrest. destruct (String.eqb k key).
  - intros H. injection H as <-. exact Hx.
  - apply IH. exact Hrest.
Qed.

Lemma create_success_response_text (text : string) (session_id : pyval) :
  not_serializable session_id = None ->
  create_success_response (PStr text) session_id headers =
  Ok (http_response 200 (success_body (PStr text) session_id)).
Proof.
  intros Hsession. unfold create_success_response, json_dumps. simpl.
  rewrite Hsession. reflexivity.
Qed.

(** The [try] block for a valid request. *)
Lemma lambda_handler_try_valid (event : pyval) (d : dict) (p : string) :
  valid_request event d p ->
  not_serializable (session_of d) = None /\
  lambda_handler_try event =
  if negb (is_technical_query (strip p)) then
    lift (create_success_response
            (PStr (generate_off_topic_response (strip p)))
            (session_of d) headers)
  else
    bindM (generate_ai_response_with_agent (strip p) (session_of d))
          (fun ai_response =>
             lift (create_success_response
                     (PStr ai_response) (session_of d) headers)).
Proof.
  intros (Hcarries & Hp & Hvalid & Hjson).
  assert (Htruthy : truthy (PDict d) = true).
  { destruct d; [ discriminate | reflexivity ]. }
  split.
  - unfold session_of. destruct (dict_get d "sessionId") eqn:Hs.
    + exact (not_serializable_entry _ _ _ Hjson Hs).
    + reflexivity.
  - rewrite (lambda_handler_try_carries _ _ Hcarries), Htruthy, Hvalid.
    cbn [negb getitem get]. rewrite Hp. cbn [str_strip].
    unfold session_of. destruct (dict_get d "sessionId"); reflexivity.
Qed.

(** X14.  A valid request whose prompt contains a non-technical keyword is
    answered with status 200 and the redirect text of
    [generate_off_topic_response]; no agent is called. *)
Theorem off_topic_request_is_not_forwarded (event : pyval) (d : dict)
        (p : string) :
  valid_request event d p ->
  has_keyword non_technical_keywords (strip p) ->
  answers event 200
    (success_body (PStr (generate_off_topic_response (strip p)))
                  (session_of d))
    [].
Proof.
  intros Hvalid Hoff. apply handler_of_try.
  destruct (lambda_handler_try_valid _ _ _ Hvalid) as [Hsession ->].
  apply AgentRouter.existsb_keyword in Hoff.
  unfold is_technical_query. rewrite Hoff. cbn [negb].
  rewrite (create_success_response_text _ _ Hsession). reflexivity.
Qed.

(** X15.  A valid request whose prompt contains no non-technical keyword is
    forwarded once: the request to the agent runtime carries the stripped
    prompt and the session id of the body, or the id made from the clock
    when the body has none, and the response of status 200 carries the text
    made of the agent's answer and the same session id. *)
Theorem on_topic_request_is_forwarded_once (event : pyval) (d : dict)
        (p : string) :
  valid_request event d p ->
  ~ has_keyword non_technical_keywords (strip p) ->
  exists request,
    inputText request = strip p /\
    sessionId request = session_of d /\
    answers event 200
      (success_body (PStr (answer_text (invoke_agent request)))
                    (session_of d))
      [request].
Proof.
  intros Hvalid Hon.
  destruct (lambda_handler_try_valid _ _ _ Hvalid) as [Hsession Htry].
  apply is_technical_query_spec in Hon.
  rewrite Hon in Htry. cbn [negb] in Htry.
  destruct (AgentRouter.generate_ai_response_cases (strip p) (session_of d))
    as (request & Hrun & Htext & Hid & _).
  exists request. split; [ exact Htext | ]. split; [ exact Hid | ].
  apply handler_of_try. rewrite Htry, Hrun. unfold bindM.
  rewrite (create_success_response_text _ _ Hsession). reflexivity.
Qed.

(** X16.  Whatever the event, the handler answers with status 200, 400 or
    500 and sends at most one request to the agent runtime. *)
Theorem one_of_three_statuses_and_one_call (event : pyval) :
  exists response sent,
    lambda_handler event = (Ok response, sent) /\
    (status_code response = Some (PInt 200) \/
     status_code response = Some (PInt 400) \/
     status_code response = Some (PInt 500)) /\
    (List.length sent <= 1)%nat.
Proof.
  assert (Hsent : (List.length (snd (lambda_handler_try event)) <= 1)%nat).
  { unfold lambda_handler_try. rewrite bindM_lift.
    destruct (get event "httpMethod" PNone) as [method|e]; [ | simpl; lia ].
    destruct (eq_str method "OPTIONS"); [ simpl; lia | ].
    rewrite bindM_lift.
    destruct (parse_request_body event) as [body|e]; [ | simpl; lia ].
    destruct (negb (truthy body)); [ simpl; lia | ].
    rewrite bindM_lift.
    destruct (validate_request body) as [[is_valid error_message]|e];
      [ | simpl; lia ].
    destruct (negb is_valid); [ simpl; lia | ].
    rewrite bindM_lift.
    destruct (getitem body "prompt") as [p|e]; [ | simpl; lia ].
    rewrite bindM_lift.
    destruct (str_strip p) as [prompt|e]; [ | simpl; lia ].
    rewrite bindM_lift.
    destruct (get body "sessionId" _) as [session_id|e]; [ | simpl; lia ].
    destruct (negb (is_technical_query prompt)); [ simpl; lia | ].
    destruct (AgentRouter.generate_ai_response_cases prompt session_id)
      as (request & -> & _).
    unfold bindM, lift.
    destruct (create_success_response _ session_id headers); simpl; lia. }
  unfold lambda_handler, try_exceptM.
  destruct (lambda_handler_try event) as [[returned|e] sent] eqn:Htry;
    cbn [snd] in Hsent.
  - exists returned, sent. split; [ reflexivity | ]. split; [ | exact Hsent ].
    destruct (AgentRouter.lambda_handler_try_shape _ _ _ Htry)
      as [-> | [(message & session_id & ->) | (body & ->)]]; auto.
  - rewrite AgentRouter.create_error_response_str. cbn.
    eexists _, _. split; [ reflexivity | ]. split; [ auto | ].
    rewrite app_nil_r. exact Hsent.
Qed.

End WithSurroundings.
(** *** The properties at concrete inputs *)

#[local] Existing Instance Sample.builtins.
#[local] Existing Instance Sample.config.

Lemma validate_request_accepts_witness :
  validate_request (PDict [("prompt", PStr "  How do I learn SQL?  ")]) =
  Ok (true, PNone).
Proof.
  refine (proj2 (validate_request_accepts
                   [("prompt", PStr "  How do I learn SQL?  ")]
                   "  How do I learn SQL?  " eq_refl) _).
  split; [ vm_compute; discriminate | ].
  split; [ vm_compute; discriminate | ].
  intros pattern Hin. simpl in Hin.
  repeat (destruct Hin as [<- | Hin]; [ reflexivity | ]).
  contradiction.
Defined.

(** [lower] follows [str.lower()] beyond the ASCII letters: the Kelvin sign
    U+212A becomes [k] and the dotted capital I, U+0130, becomes [i] with a
    combining dot, so that a prompt written with the Kelvin sign is
    classified like the one written with [K]; a capital sigma at the end of
    a word becomes the final sigma. *)
Example kelvin_sign_is_lower_cased :
  lower ("how to coo" ++ chr [226; 132; 170]) = "how to cook" /\
  lower (chr [196; 176]) = "i" ++ chr [204; 135] /\
  lower (chr [206; 145; 206; 163]) = chr [206; 177; 207; 130] /\
  is_technical_query ("how to coo" ++ chr [226; 132; 170] ++ " code") = false /\
  contains "investment advice"
           (generate_off_topic_response
              ("weather and stoc" ++ chr [226; 132; 170])) = true.
Proof. repeat split; reflexivity. Qed.

(** A prompt in upper case with a script tag is rejected. *)
Example script_tag_is_rejected :
  validate_request (PDict [("prompt", PStr "see <SCRIPT>alert(1)</SCRIPT>")]) =
  Ok (false, PStr "Invalid content detected in prompt").
Proof. reflexivity. Qed.

Lemma body_key_decides_witness :
  parse_request_body
    (builtins := Sample.api_builtins)
    (PDict [ ("body", PStr Sample.request_text);
             ("prompt", PStr "ignored") ]) =
  Ok (PDict [("prompt", PStr "How do I learn SQL?")]).
Proof.
  exact (body_key_decides
           (builtins := Sample.api_builtins)
           [ ("body", PStr Sample.request_text); ("prompt", PStr "ignored") ]
           (PStr Sample.request_text) eq_refl).
Defined.

Lemma function_url_without_body_is_none_witness :
  parse_request_body
    (PDict [ ("requestContext", PDict [("http", PDict [("method", PStr "GET")])]);
             ("prompt", PStr "How do I learn SQL?") ]) =
  Ok PNone.
Proof.
  exact (function_url_without_body_is_none
           [ ("requestContext", PDict [("http", PDict [("method", PStr "GET")])]);
             ("prompt", PStr "How do I learn SQL?") ]
           (PDict [("http", PDict [("method", PStr "GET")])])
           eq_refl eq_refl eq_refl).
Defined.


Lemma topic_named_only_when_rejected_witness :
  generate_off_topic_response "How do I learn SQL?" = generic_redirect.
Proof.
  refine (topic_named_only_when_rejected "How do I learn SQL?" _).
  apply is_technical_query_spec. reflexivity.
Defined.

(** The redirect that names no topic says "that topic"; a prompt about
    recipes is told about cooking. *)
Example generic_redirect_says_that_topic :
  contains "I can't help with that topic, but" generic_redirect = true /\
  contains "I can't help with cooking, but"
           (generate_off_topic_response "a RECIPE for soup") = true.
Proof. split; reflexivity. Qed.

Lemma complete_text_is_returned_witness :
  let events :=
    [ Sample.text_event " Start with ";
      {| chunk := None; trace := Some (PDict []); returnControl := None |};
      Sample.text_event "SELECT.  " ] in
  fst (generate_ai_response_with_agent
         (world := Sample.world (yield_all events Exhausted))
         "how do I learn sql" (PStr "s1")) =
  Ok "Start with SELECT.".
Proof.
  intros events.
  refine (complete_text_is_returned
            (world := Sample.world (yield_all events Exhausted))
            "how do I learn sql" (PStr "s1") events
            [" Start with "; "SELECT.  "] _ _ _).
  - reflexivity.
  - vm_compute. discriminate.
  - eexists. split; reflexivity.
Defined.

Lemma undecodable_chunk_ends_the_stream_witness :
  let events := [Sample.text_event "Start with "] in
  let bad := Sample.text_event (chr [255]) in
  let rest := Yields (Sample.text_event "SELECT.") Exhausted in
  fst (generate_ai_response_with_agent
         (world := Sample.world (yield_all events (Yields bad rest)))
         "how do I learn sql" (PStr "s1")) =
  Ok "Start with".
Proof.
  intros events bad rest.
  refine (undecodable_chunk_ends_the_stream
            (world := Sample.world (yield_all events (Yields bad rest)))
            "how do I learn sql" (PStr "s1") events ["Start with "]
            bad (chr [255])
            (Exception "UnicodeDecodeError" "'utf-8' codec can't decode bytes")
            rest _ _ _ _).
  - reflexivity.
  - reflexivity.
  - reflexivity.
  - eexists. split; reflexivity.
Defined.

Lemma preflight_is_acknowledged_witness :
  lambda_handler
    (world := Sample.world Exhausted)
    (PDict [ ("httpMethod", PStr "OPTIONS"); ("body", PStr "not json") ]) =
  (Ok (PDict [ ("statusCode", PInt 200);
               ("headers", headers);
               ("body", PStr "{message}") ]), []).
Proof.
  exact (preflight_is_acknowledged
           (world := Sample.world Exhausted)
           [ ("httpMethod", PStr "OPTIONS"); ("body", PStr "not json") ]
           eq_refl).
Defined.

Lemma unparsed_body_is_400_witness :
  answers (world := Sample.world Exhausted)
          (PDict [ ("httpMethod", PStr "POST"); ("body", PStr "not json") ])
          400 (error_body (world := Sample.world Exhausted)
                          "Invalid request format") [].
Proof.
  refine (unparsed_body_is_400
            (world := Sample.world Exhausted)
            (PDict [ ("httpMethod", PStr "POST"); ("body", PStr "not json") ])
            PNone _ eq_refl).
  split; [ eexists; split; reflexivity | reflexivity ].
Defined.

Lemma rejected_request_is_400_witness :
  exists text,
    PStr "Prompt cannot be empty" = PStr text /\
    answers (world := Sample.world Exhausted)
            (PDict [("prompt", PStr "   ")])
            400 (error_body (world := Sample.world Exhausted) text) [].
Proof.
  refine (rejected_request_is_400
            (world := Sample.world Exhausted)
            (PDict [("prompt", PStr "   ")])
            (PDict [("prompt", PStr "   ")])
            (PStr "Prompt cannot be empty") _ eq_refl eq_refl).
  split; [ eexists; split; reflexivity | reflexivity ].
Defined.

Lemma non_string_prompt_is_500_witness :
  validate_request (PDict [("prompt", PInt 5)]) =
    Raise (AttributeError (PInt 5) "strip") /\
  answers (world := Sample.world Exhausted)
          (PDict [("prompt", PInt 5)])
          500 (error_body
                 (world := Sample.world Exhausted)
                 "An unexpected error occurred. Please try again later.") [].
Proof.
  refine (non_string_prompt_is_500
            (world := Sample.world Exhausted)
            (PDict [("prompt", PInt 5)]) [("prompt", PInt 5)] (PInt 5)
            _ eq_refl _).
  - split; [ eexists; split; reflexivity | reflexivity ].
  - intros text. discriminate.
Defined.

Lemma off_topic_request_is_not_forwarded_witness :
  let d := [ ("prompt", PStr " What is the WEATHER in Paris? ");
             ("sessionId", PStr "abc-123") ] in
  answers (world := Sample.world Exhausted) (PDict d) 200
          (success_body
             (world := Sample.world Exhausted)
             (PStr (generate_off_topic_response "What is the WEATHER in Paris?"))
             (PStr "abc-123"))
          [].
Proof.
  intros d.
  refine (off_topic_request_is_not_forwarded
            (world := Sample.world Exhausted)
            (PDict d) d " What is the WEATHER in Paris? " _ _).
  - repeat split; try reflexivity. eexists. split; reflexivity.
  - exists "weather". split; [ simpl; tauto | reflexivity ].
Defined.

Lemma on_topic_request_is_forwarded_once_witness :
  let stream := Yields (Sample.text_event "Start with SELECT.") Exhausted in
  let d := [("prompt", PStr " How do I learn SQL? ")] in
  exists request,
    inputText request = "How do I learn SQL?" /\
    sessionId request = PStr "session_1700000000" /\
    answers (world := Sample.world stream) (PDict d) 200
            (success_body
               (world := Sample.world stream)
               (PStr (answer_text
                        (invoke_agent (World := Sample.world stream) request)))
               (PStr "session_1700000000"))
            [request].
Proof.
  intros stream d.
  refine (on_topic_request_is_forwarded_once
            (world := Sample.world stream)
            (PDict d) d " How do I learn SQL? " _ _).
  - repeat split; try reflexivity. eexists. split; reflexivity.
  - apply is_technical_query_spec. reflexivity.
Defined.

End AgentRouterMore.

(* ===================================================================== *)
(** * Further properties of the CourseQueryService handler *)
(* ===================================================================== *)

Module CourseQueryMore.
Import Py LambdaAction CourseQuerySpec.

(** *** Dicts *)

Lemma dict_get_set_same (d : dict) (key : string) (v : pyval) :
  dict_get (dict_set d key v) key = Some v.
Proof.
  induction d as [|[k x] d IH]; simpl.
  - rewrite String.eqb_refl. reflexivity.
  - destruct (String.eqb k key) eqn:Hk; simpl; rewrite Hk; auto.
Qed.

Lemma dict_get_set_other (d : dict) (key other : string) (v : pyval) :
  other <> key ->
  dict_get (dict_set d key v) other = dict_get d other.
Proof.
  intros Hother.
  assert (Hneq : String.eqb key other = false).
  { apply String.eqb_neq. congruence. }
  induction d as [|[k x] d IH]; simpl.
  - rewrite Hneq. reflexivity.
  - destruct (String.eqb k key) eqn:Hk; simpl.
    + apply String.eqb_eq in Hk. subst k. rewrite Hneq. reflexivity.
    + destruct (String.eqb k other); auto.
Qed.

Section WithSurroundings.
Context {builtins : Builtins} {world : World}.

(** *** [convert_decimals] *)

Lemma convert_decimals_fixes_decimal_free :
  forall v, decimal_free v = true -> convert_decimals v = v.
Proof.
  fix IH 1. intros [| | | | | | |l|d|]; simpl; try reflexivity.
  - discriminate.
  - intros Hfree. f_equal.
    induction l as [|x l IHl]; simpl in *; [ reflexivity | ].
    apply andb_prop in Hfree. destruct Hfree as [Hx Hl].
    rewrite (IH x Hx), (IHl Hl). reflexivity.
  - intros Hfree. f_equal.
    induction d as [|[k x] d IHd]; simpl in *; [ reflexivity | ].
    apply andb_prop in Hfree. destruct Hfree as [Hx Hd].
    rewrite (IH x Hx), (IHd Hd). reflexivity.
Qed.

Lemma convert_decimals_decimal_free :
  forall v, decimal_free (convert_decimals v) = true.
Proof.
  fix IH 1. intros [| | | | | | |l|d|]; simpl; try reflexivity.
  - induction l as [|x l IHl]; simpl; [ reflexivity | ].
    rewrite (IH x), IHl. reflexivity.
  - induction d as [|[k x] d IHd]; simpl; [ reflexivity | ].
    rewrite (IH x), IHd. reflexivity.
Qed.

(** X17.  [convert_decimals] leaves no decimal in a value, at any depth of
    lists and dicts (sets are not looked into), changes nothing in a value
    that has none, and so gives the same value when applied twice. *)
Theorem convert_decimals_removes_decimals (v : pyval) :
  decimal_free (convert_decimals v) = true /\
  (decimal_free v = true -> convert_decimals v = v) /\
  convert_decimals (convert_decimals v) = convert_decimals v.
Proof.
  split; [ apply convert_decimals_decimal_free | ].
  split; [ apply convert_decimals_fixes_decimal_free | ].
  apply convert_decimals_fixes_decimal_free, convert_decimals_decimal_free.
Qed.

(** *** Normalizing *)

Lemma normalize_course_dict (item : dict) :
  normalize_course (convert_decimals (PDict item)) = Ok (normalized item).
Proof.
  assert (H : forall key default,
             get (convert_decimals (PDict item)) key default =
             Ok (match dict_get item key with
                 | Some v => convert_decimals v
                 | None => default
                 end)).
  { intros key default.
    pose proof (CourseQueryService.convert_decimals_field (PDict item) key)
      as Hfield.
    simpl in Hfield |- *. rewrite Hfield.
    destruct (dict_get item key); reflexivity. }
  unfold normalize_course, normalized, normalized_field.
  rewrite !H. reflexivity.
Qed.

Lemma normalize_course_inv (item course : pyval) :
  normalize_course (convert_decimals item) = Ok course ->
  exists d, item = PDict d /\ course = normalized d.
Proof.
  destruct item as [| | | | | | | |d|]; try discriminate.
  rewrite normalize_course_dict. intros H. injection H as <-.
  exists d. split; reflexivity.
Qed.

(** *** Scanning *)

Lemma scan_all_failure (response : scan_run) (e : exn) :
  scan_failure response = Some e ->
  forall courses, scan_all response courses = Raise e.
Proof.
  induction response as [e'|Items|Items key next IH]; simpl; intros H courses.
  - injection H as ->. reflexivity.
  - discriminate.
  - apply IH. exact H.
Qed.

Lemma scan_all_success (response : scan_run) :
  scan_failure response = None ->
  forall courses,
    scan_all response courses = Ok (courses ++ scanned_items response)%list.
Proof.
  induction response as [e'|Items|Items key next IH]; simpl; intros H courses.
  - discriminate.
  - reflexivity.
  - rewrite (IH H), app_assoc. reflexivity.
Qed.

(** *** The list queries *)






(** X19.  Every course record a query returns, in a list or as the details
    of one course, is the record of a stored item with exactly the four
    fields [CourseID], [CourseName], [Duration] and [State], in this order:
    each holds the converted value of the stored field, or the empty string
    when the stored item lacks the field. *)
Theorem returned_records_are_normalized (table : Table) (q : query)
        (course : pyval) :
  In course (returned_records (run table q)) ->
  exists item,
    In (PDict item) (stored_records table q) /\ course = normalized item.
Proof.
  intros Hin.
  destruct (run table q) as [result|e] eqn:Hrun; [ | contradiction ].
  simpl in Hin.
  destruct (CourseQueryService.run_listing _ _ _ Hrun)
    as [[_ Hd] | [(response & Hl & Hincl) | [H | [cid ->]]]].
  - rewrite Hd in Hin. contradiction.
  - destruct Hl as [[_ Hd] | (normalized & courses & data & Hnorm & Hsort & _ &
                               Hdata & Hcourses & _)].
    + rewrite Hd in Hin. contradiction.
    + rewrite Hdata, Hcourses in Hin.
      apply CourseQueryService.normalize_courses_spec in Hnorm.
      destruct (CourseQueryService.list_sort_by_id _ _ Hsort) as [Hperm _].
      apply (Permutation_in _ (Permutation_sym Hperm)) in Hin.
      clear - Hnorm Hin Hincl.
      induction Hnorm as [|item c items cs Hc Hrest IH]; [ contradiction | ].
      destruct Hin as [<- | Hin].
      * destruct (normalize_course_inv _ _ Hc) as (d & -> & ->).
        exists d. split; [ apply Hincl; left; reflexivity | reflexivity ].
      * apply IH; [ exact Hin | ].
        intros x Hx. apply Hincl. right. exact Hx.
  - destruct H as (Item & c & data & Hstored & Hc & Hdata & Hcourses & Hcourse).
    rewrite Hdata, Hcourses, Hcourse in Hin.
    destruct Hin as [<- | []].
    destruct (normalize_course_inv _ _ Hc) as (d & -> & ->).
    exists d. split; [ exact Hstored | reflexivity ].
  - simpl in Hin. contradiction.
Qed.

(** X20.  When the table can be reached but a call of the scan raises, on
    the first page or on a later one, [get_all_courses] returns the failure
    result with the text of the exception; the items of the pages read
    before are dropped. *)
Theorem failed_scan_of_all_courses_is_reported (table : Table)
        (table_info : pyval) (e : exn) :
  table_status table = Ok table_info ->
  scan_failure (scan table None) = Some e ->
  get_all_courses table =
    Ok (failure_result "Failed to retrieve courses: " "get_all_courses" e).
Proof.
  intros Hstatus Hscan. unfold get_all_courses. rewrite Hstatus.
  rewrite (scan_all_failure _ _ Hscan). reflexivity.
Qed.

(** X21.  When a call of the filtered scan raises, on the first page or on a
    later one, [get_courses_by_state] returns the failure result with the
    text of the exception. *)
Theorem failed_scan_by_state_is_reported (table : Table) (params : dict)
        (state : pyval) (e : exn) :
  dict_get params "state" = Some state ->
  truthy state = true ->
  scan_failure (scan table (Some state)) = Some e ->
  get_courses_by_state table params =
    Ok (failure_result "Failed to filter courses by state: "
                       "get_courses_by_state" e).
Proof.
  intros Hstate Hpresent Hscan. unfold get_courses_by_state. simpl.
  rewrite Hstate. simpl. rewrite Hpresent. simpl.
  rewrite (scan_all_failure _ _ Hscan). reflexivity.
Qed.

(** X22.  On a table without records, one whose scans end without failure
    and without items, the list of all courses and the list of any state
    are successful results with an empty course list and [totalCourses] 0. *)
Theorem empty_store_gives_empty_lists (table : Table) (table_info : pyval) :
  table_status table = Ok table_info ->
  (forall filter,
      scan_failure (scan table filter) = None /\
      scanned_items (scan table filter) = []) ->
  get_all_courses table = Ok (all_courses_result []) /\
  forall (params : dict) (state : pyval),
    dict_get params "state" = Some state ->
    truthy state = true ->
    get_courses_by_state table params = Ok (courses_by_state_result state []).
Proof.
  intros Hstatus Hempty. split.
  - unfold get_all_courses. rewrite Hstatus.
    destruct (Hempty None) as [Hscan Hitems].
    rewrite (scan_all_success _ Hscan), Hitems. reflexivity.
  - intros params state Hstate Hpresent.
    unfold get_courses_by_state. simpl.
    rewrite Hstate. simpl. rewrite Hpresent. simpl.
    destruct (Hempty (Some state)) as [Hscan Hitems].
    rewrite (scan_all_success _ Hscan), Hitems. reflexivity.
Qed.

(** *** The parameters of the event *)

Lemma collect_params_app (parameters more : list pyval) :
  forall params,
    collect_params (parameters ++ more) params =
    bind (collect_params parameters params) (collect_params more).
Proof.
  induction parameters as [|param rest IH]; intros params; simpl;
    [ reflexivity | ].
  destruct (getitem param "value") as [value|e]; [ | reflexivity ]. simpl.
  destruct (getitem param "name") as [name|e]; [ | reflexivity ]. simpl.
  destruct (setitem params name value) as [params'|e]; [ | reflexivity ]. simpl.
  apply IH.
Qed.

(** X23.  When two parameters of an event have the same name, the later one
    wins: after the parameters collected so far, a parameter sets the value
    of its name and leaves the values of the other names as they were. *)
Theorem last_parameter_wins (parameters : list pyval) (before : dict)
        (name type : string) (value : pyval) :
  collect_params parameters [] = Ok before ->
  exists params,
    collect_params (parameters ++ [parameter name type value]) [] = Ok params /\
    dict_get params name = Some value /\
    forall other, other <> name -> dict_get params other = dict_get before other.
Proof.
  intros Hbefore. exists (dict_set before name value).
  rewrite collect_params_app, Hbefore. split; [ | split ].
  - cbn [bind collect_params parameter getitem dict_get String.eqb Ascii.eqb
              Bool.eqb].
    reflexivity.
  - apply dict_get_set_same.
  - intros other Hother. apply dict_get_set_other. exact Hother.
Qed.

(** *** The handler *)

(** X24.  When the table resource cannot be obtained, the handler answers,
    whatever the event, with the envelope of status 500 for the path
    [/error], whose result gives the text of the exception as [details]. *)
Theorem connection_failure_is_500 (event : pyval) (db_error : exn) :
  dynamodb_Table "MyCourses" = Raise db_error ->
  lambda_handler event = Ok (connection_failure_response db_error).
Proof.
  intros Htable. unfold lambda_handler. rewrite Htable. reflexivity.
Qed.

Lemma lambda_handler_malformed (ev : dict) (table : Table) (e : exn) :
  dynamodb_Table "MyCourses" = Ok table ->
  event_params (PDict ev) = Raise e ->
  lambda_handler (PDict ev) =
    Ok (bedrock_response (PDict ev) 400 (internal_error_result e)).
Proof.
  intros Htable Hparams. unfold lambda_handler. rewrite Htable.
  unfold event_params in Hparams.
  rewrite !CourseQueryService.get_dict. cbn [bind].
  rewrite CourseQueryService.get_dict in Hparams. cbn [bind] in Hparams.
  destruct (iterate (event_field (PDict ev) "parameters" (PList [])))
    as [parameters|e'] eqn:Hiter; cbn [bind] in Hparams |- *.
  - rewrite Hparams. cbn [bind try_except].
    apply CourseQueryService.create_bedrock_response_dict.
  - injection Hparams as ->. cbn [bind try_except].
    apply CourseQueryService.create_bedrock_response_dict.
Qed.

(** X25.  When the parameters of a dict event cannot be collected (the
    ['parameters'] cannot be iterated, or one of them lacks its ['value'] or
    its ['name'], or has a name that cannot be a key), the handler looks at
    no path and answers with the internal-error result, which gives the text
    and the type of the exception, in the envelope of status 400. *)
Theorem malformed_parameters_are_reported (ev : dict) (table : Table)
        (e : exn) :
  dynamodb_Table "MyCourses" = Ok table ->
  event_params (PDict ev) = Raise e ->
  lambda_handler (PDict ev) =
    Ok (bedrock_response (PDict ev) 400 (internal_error_result e)).
Proof. exact (lambda_handler_malformed ev table e). Qed.

(** X26.  For an event that is a dict the handler never raises: it answers
    with an envelope whose status is 200, 400 or 500. *)
Theorem dict_event_is_always_answered (ev : dict) :
  exists response,
    lambda_handler (PDict ev) = Ok response /\
    (http_status response = Some (PInt 200) \/
     http_status response = Some (PInt 400) \/
     http_status response = Some (PInt 500)).
Proof.
  destruct (dynamodb_Table "MyCourses") as [table|db_error] eqn:Htable.
  - destruct (event_params (PDict ev)) as [params|e] eqn:Hparams.
    + destruct (CourseQueryService.lambda_handler_routed _ _ _ Htable Hparams)
        as (result & _ & ->).
      eexists. split; [ reflexivity | ].
      unfold status_of.
      destruct (field result "success") as [success|];
        [ destruct (truthy success) | ]; simpl; auto.
    + rewrite (lambda_handler_malformed _ _ _ Htable Hparams).
      eexists. split; [ reflexivity | ]. right; left. reflexivity.
  - unfold lambda_handler. rewrite Htable.
    eexists. split; [ reflexivity | ]. right; right. reflexivity.
Qed.

(** The handler wraps the result of the query of the path. *)
Lemma lambda_handler_runs (event : pyval) (table : Table) (params : dict)
      (q : query) (result : pyval) :
  dynamodb_Table "MyCourses" = Ok table ->
  event_params event = Ok params ->
  route (event_field event "apiPath" (PStr "")) params = Some q ->
  run table q = Ok result ->
  lambda_handler event = Ok (bedrock_response event (status_of result) result).
Proof.
  intros Htable Hparams Hroute Hrun.
  destruct (CourseQueryService.lambda_handler_routed _ _ _ Htable Hparams)
    as (result' & Hr & ->).
  rewrite Hroute, Hrun in Hr. injection Hr as <-. reflexivity.
Qed.

(** X27.  For an event of path [/getCoursesByState] whose parameters give no
    [state], or an empty one, the result is the validation error that lists
    the valid states, in the envelope of status 400; the table is not
    scanned, so the result is the same whatever the table holds. *)
Theorem missing_state_is_a_validation_error (event : pyval) (table : Table)
        (params : dict) :
  dynamodb_Table "MyCourses" = Ok table ->
  event_params event = Ok params ->
  event_field event "apiPath" (PStr "") = PStr "/getCoursesByState" ->
  missing params "state" ->
  get_courses_by_state table params = Ok state_required_result /\
  lambda_handler event = Ok (bedrock_response event 400 state_required_result).
Proof.
  intros Htable Hparams Hpath Hmissing.
  assert (Hrun : get_courses_by_state table params = Ok state_required_result).
  { unfold get_courses_by_state. simpl.
    destruct (dict_get params "state") as [state|] eqn:Hstate; simpl.
    - rewrite (Hmissing _ Hstate). reflexivity.
    - reflexivity. }
  split; [ exact Hrun | ].
  refine (lambda_handler_runs event table params (GetCoursesByState params) _
                              Htable Hparams _ Hrun).
  rewrite Hpath. reflexivity.
Qed.

(** X28.  For an event of path [/getCourseDetails] whose parameters give no
    [courseId], or an empty one, the result is the validation error, in the
    envelope of status 400; no lookup is made. *)
Theorem missing_course_id_is_a_validation_error (event : pyval)
        (table : Table) (params : dict) :
  dynamodb_Table "MyCourses" = Ok table ->
  event_params event = Ok params ->
  event_field event "apiPath" (PStr "") = PStr "/getCourseDetails" ->
  missing params "courseId" ->
  get_course_details table params = Ok course_id_required_result /\
  lambda_handler event =
    Ok (bedrock_response event 400 course_id_required_result).
Proof.
  intros Htable Hparams Hpath Hmissing.
  assert (Hrun : get_course_details table params =
                 Ok course_id_required_result).
  { unfold get_course_details. simpl.
    destruct (dict_get params "courseId") as [course_id|] eqn:Hid; simpl.
    - rewrite (Hmissing _ Hid). reflexivity.
    - reflexivity. }
  split; [ exact Hrun | ].
  refine (lambda_handler_runs event table params (GetCourseDetails params) _
                              Htable Hparams _ Hrun).
  rewrite Hpath. reflexivity.
Qed.

(** X29.  For an event of path [/getCourseDetails] whose [courseId] matches
    a stored item, the result has [found] true and carries the normalized
    record of the item; when the record holds no [Binary], so that
    [json.dumps] renders the result, the handler answers with the envelope
    of status 200. *)
Theorem stored_course_is_returned (event : pyval) (table : Table)
        (params : dict) (course_id : pyval) (item : dict) :
  dynamodb_Table "MyCourses" = Ok table ->
  event_params event = Ok params ->
  event_field event "apiPath" (PStr "") = PStr "/getCourseDetails" ->
  dict_get params "courseId" = Some course_id ->
  truthy course_id = true ->
  get_item table course_id = Ok (Some (PDict item)) ->
  str_renders (normalized item) = true ->
  get_course_details table params =
    Ok (found_result course_id (normalized item)) /\
  lambda_handler event =
    Ok (bedrock_response event 200 (found_result course_id (normalized item))).
Proof.
  intros Htable Hparams Hpath Hid Hpresent Hitem _.
  assert (Hrun : get_course_details table params =
                 Ok (found_result course_id (normalized item))).
  { unfold get_course_details. cbn [get bind]. rewrite Hid. cbn [bind].
    rewrite Hpresent. cbn [negb]. rewrite Hitem. cbn [bind].
    rewrite normalize_course_dict. reflexivity. }
  split; [ exact Hrun | ].
  refine (lambda_handler_runs event table params (GetCourseDetails params) _
                              Htable Hparams _ Hrun).
  rewrite Hpath. reflexivity.
Qed.

(** X30.  For an event of path [/getCourseDetails] whose lookup raises, the
    result is the failure result with the text of the exception, and the
    handler answers with the envelope of status 400, not 500. *)
Theorem failed_lookup_is_reported (event : pyval) (table : Table)
        (params : dict) (course_id : pyval) (e : exn) :
  dynamodb_Table "MyCourses" = Ok table ->
  event_params event = Ok params ->
  event_field event "apiPath" (PStr "") = PStr "/getCourseDetails" ->
  dict_get params "courseId" = Some course_id ->
  truthy course_id = true ->
  get_item table course_id = Raise e ->
  get_course_details table params =
    Ok (failure_result "Failed to get course details: "
                       "get_course_details" e) /\
  lambda_handler event =
    Ok (bedrock_response
          event 400
          (failure_result "Failed to get course details: "
                          "get_course_details" e)).
Proof.
  intros Htable Hparams Hpath Hid Hpresent Hitem.
  assert (Hrun : get_course_details table params =
                 Ok (failure_result "Failed to get course details: "
                                    "get_course_details" e)).
  { unfold get_course_details. cbn [get bind]. rewrite Hid. cbn [bind].
    rewrite Hpresent. cbn [negb]. rewrite Hitem. reflexivity. }
  split; [ exact Hrun | ].
  refine (lambda_handler_runs event table params (GetCourseDetails params) _
                              Htable Hparams _ Hrun).
  rewrite Hpath. reflexivity.
Qed.

End WithSurroundings.

(** *** The properties at concrete inputs *)

#[local] Existing Instance Sample.builtins.
#[local] Existing Instance Sample.table_world.


Lemma returned_records_are_normalized_witness :
  exists item,
    In (PDict item) (stored_records Sample.table GetCompletedCourses) /\
    nth 1 Sample.courses PNone = normalized item.
Proof.
  refine (returned_records_are_normalized
            Sample.table GetCompletedCourses (nth 1 Sample.courses PNone) _).
  right. left. reflexivity.
Defined.

(** A stored item with an identifier only is returned with three empty
    strings. *)
Example sparse_item_gets_empty_strings :
  normalized [("CourseID", PStr "C7")] =
  PDict [ ("CourseID", PStr "C7"); ("CourseName", PStr "");
          ("Duration", PStr ""); ("State", PStr "") ].
Proof. reflexivity. Qed.

Lemma failed_scan_of_all_courses_is_reported_witness :
  get_all_courses Sample.failing_table =
  Ok (PDict
        [ ("success", PBool false);
          ("error",
           PStr ("Failed to retrieve courses: " ++
                 "ProvisionedThroughputExceededException"));
          ("function", PStr "get_all_courses") ]).
Proof.
  exact (failed_scan_of_all_courses_is_reported
           Sample.failing_table (PStr "ACTIVE")
           (Exception "ClientError" "ProvisionedThroughputExceededException")
           eq_refl eq_refl).
Defined.

Lemma failed_scan_by_state_is_reported_witness :
  get_courses_by_state Sample.failing_table [("state", PStr "Completed")] =
  Ok (PDict
        [ ("success", PBool false);
          ("error",
           PStr ("Failed to filter courses by state: " ++
                 "ProvisionedThroughputExceededException"));
          ("function", PStr "get_courses_by_state") ]).
Proof.
  exact (failed_scan_by_state_is_reported
           Sample.failing_table [("state", PStr "Completed")]
           (PStr "Completed")
           (Exception "ClientError" "ProvisionedThroughputExceededException")
           eq_refl eq_refl eq_refl).
Defined.

Lemma empty_store_gives_empty_lists_witness :
  get_all_courses Sample.empty_table = Ok (all_courses_result []) /\
  forall (params : dict) (state : pyval),
    dict_get params "state" = Some state ->
    truthy state = true ->
    get_courses_by_state Sample.empty_table params =
      Ok (courses_by_state_result state []).
Proof.
  refine (empty_store_gives_empty_lists Sample.empty_table (PStr "ACTIVE")
                                        eq_refl _).
  intros filter. split; reflexivity.
Defined.

(** The empty list of all courses. *)
Example all_courses_of_empty_table :
  get_all_courses Sample.empty_table =
  Ok (PDict
        [ ("success", PBool true);
          ("data",
           PDict
             [ ("courses", PList []);
               ("totalCourses", PInt 0);
               ("message",
                PStr "Retrieved 0 courses successfully from MyCourses table")
             ]) ]).
Proof. reflexivity. Qed.

Lemma last_parameter_wins_witness :
  exists params,
    collect_params
      ([ parameter "state" "string" (PStr "Completed") ] ++
       [ parameter "state" "string" (PStr "In Progress") ]) [] = Ok params /\
    dict_get params "state" = Some (PStr "In Progress") /\
    forall other,
      other <> "state" ->
      dict_get params other = dict_get [("state", PStr "Completed")] other.
Proof.
  exact (last_parameter_wins
           [ parameter "state" "string" (PStr "Completed") ]
           [("state", PStr "Completed")]
           "state" "string" (PStr "In Progress") eq_refl).
Defined.

Lemma connection_failure_is_500_witness :
  lambda_handler (world := Sample.unreachable_world) (PInt 7) =
  Ok (connection_failure_response
        (Exception "NoRegionError" "You must specify a region.")).
Proof.
  exact (connection_failure_is_500
           (world := Sample.unreachable_world) (PInt 7)
           (Exception "NoRegionError" "You must specify a region.") eq_refl).
Defined.

Lemma malformed_parameters_are_reported_witness :
  let ev :=
    [ ("apiPath", PStr "/getAllCourses");
      ("parameters", PList [ PDict [("name", PStr "courseId")] ]) ] in
  lambda_handler (PDict ev) =
  Ok (bedrock_response (PDict ev) 400
                       (internal_error_result (KeyError "value"))).
Proof.
  intros ev.
  exact (malformed_parameters_are_reported ev Sample.table (KeyError "value")
                                           eq_refl eq_refl).
Defined.

Lemma missing_state_is_a_validation_error_witness :
  let event :=
    PDict [ ("actionGroup", PStr "CourseActionGroup");
            ("apiPath", PStr "/getCoursesByState");
            ("httpMethod", PStr "GET") ] in
  get_courses_by_state Sample.table [] = Ok state_required_result /\
  lambda_handler event = Ok (bedrock_response event 400 state_required_result).
Proof.
  intros event.
  refine (missing_state_is_a_validation_error
            event Sample.table [] eq_refl eq_refl eq_refl _).
  intros v H. discriminate H.
Defined.

Lemma missing_course_id_is_a_validation_error_witness :
  let event :=
    PDict [ ("actionGroup", PStr "CourseActionGroup");
            ("apiPath", PStr "/getCourseDetails");
            ("httpMethod", PStr "GET");
            ("parameters",
             PList [ parameter "courseId" "string" (PStr "") ]) ] in
  get_course_details Sample.table [("courseId", PStr "")] =
    Ok course_id_required_result /\
  lambda_handler event =
    Ok (bedrock_response event 400 course_id_required_result).
Proof.
  intros event.
  refine (missing_course_id_is_a_validation_error
            event Sample.table [("courseId", PStr "")]
            eq_refl eq_refl eq_refl _).
  intros v H. injection H as <-. reflexivity.
Defined.

Lemma stored_course_is_returned_witness :
  let event :=
    PDict [ ("actionGroup", PStr "CourseActionGroup");
            ("apiPath", PStr "/getCourseDetails");
            ("httpMethod", PStr "GET");
            ("parameters",
             PList [ parameter "courseId" "string" (PStr "C1") ]) ] in
  let item :=
    [ ("CourseID", PStr "C1");
      ("Course Name", PStr "Python");
      ("Duration (hours)", PDecimal (Dec false 20 (-1)));
      ("State", PStr "Completed") ] in
  get_course_details Sample.table [("courseId", PStr "C1")] =
    Ok (found_result (PStr "C1") (normalized item)) /\
  lambda_handler event =
    Ok (bedrock_response event 200
                         (found_result (PStr "C1") (normalized item))).
Proof.
  intros event item.
  exact (stored_course_is_returned
           event Sample.table [("courseId", PStr "C1")] (PStr "C1") item
           eq_refl eq_refl eq_refl eq_refl eq_refl eq_refl eq_refl).
Defined.

Lemma failed_lookup_is_reported_witness :
  let event :=
    PDict [ ("actionGroup", PStr "CourseActionGroup");
            ("apiPath", PStr "/getCourseDetails");
            ("httpMethod", PStr "GET");
            ("parameters",
             PList [ parameter "courseId" "string" (PStr "C1") ]) ] in
  let e := Exception "ClientError" "ProvisionedThroughputExceededException" in
  get_course_details Sample.failing_table [("courseId", PStr "C1")] =
    Ok (failure_result "Failed to get course details: "
                       "get_course_details" e) /\
  lambda_handler (world := Sample.failing_world) event =
    Ok (bedrock_response
          event 400
          (failure_result "Failed to get course details: "
                          "get_course_details" e)).
Proof.
  intros event e.
  exact (failed_lookup_is_reported
           (world := Sample.failing_world)
           event Sample.failing_table [("courseId", PStr "C1")] (PStr "C1") e
           eq_refl eq_refl eq_refl eq_refl eq_refl eq_refl).
Defined.

End CourseQueryMore.
